(** * armsrc/lfops.c: low frequency tag operations

    A shallow embedding of the routines of [armsrc/lfops.c] that drive the
    125 kHz reader field, frame bits for the T55xx and EM4x05 transponders
    and compose simulation waveforms, together with the properties the
    specification states about them.

    Conventions.
    - A C unsigned integer of width [w] is a [Z] in [0, 2^w); every place
      where the C code truncates or wraps is written out ([Z.land _ 0xFF],
      [_ mod 2^16], ...).
    - Every call into the FPGA, timer, LED, debug or acquisition layer
      (all of them outside this file in the repository) is recorded as one
      [hw_event]; an operation denotes the list of events it performs, in
      program order.
    - The sample buffer behind [BigBuf_get_addr()] and the forward-link
      array are lists that are updated by index. *)

From Stdlib Require Import Sorting.Sorted Btauto.
From stdpp Require Import base numbers list strings.

Local Open Scope Z_scope.

(* ================================================================= *)
(** ** Hardware events *)

(** The configuration words passed to [FpgaWriteConfWord].  The numeric
    values live in [fpgaloader.h]; only their identity matters here.
    [FPGA_MAJOR_MODE_LF_ADC true] stands for
    [FPGA_MAJOR_MODE_LF_ADC | FPGA_LF_ADC_READER_FIELD]. *)
Inductive fpga_conf : Type :=
  | FPGA_MAJOR_MODE_OFF
  | FPGA_MAJOR_MODE_LF_ADC (reader_field : bool)
  | FPGA_MAJOR_MODE_LF_EDGE_DETECT
  | FPGA_MAJOR_MODE_LF_PASSTHRU.

Inductive led : Type := LED_A | LED_B | LED_D.

Inductive hw_event : Type :=
  | FpgaDownloadAndGo                       (* FpgaDownloadAndGo(FPGA_BITSTREAM_LF) *)
  | FpgaWriteConfWord (w : fpga_conf)
  | FpgaSendCommand_SET_DIVISOR (d : Z)     (* FpgaSendCommand(FPGA_CMD_SET_DIVISOR, d) *)
  | LFSetupFPGAForADC (divisor : Z) (lf_field : bool)
  | SetAdcMuxFor_LOPKD                      (* SetAdcMuxFor(GPIO_MUXSEL_LOPKD) *)
  | FpgaSetupSsc
  | StartTicks
  | WaitUS (us : Z)
  | WaitMS (ms : Z)
  | SpinDelay (ms : Z)
  | SpinDelayUs (us : Z)
  | BigBuf_Clear_keep_EM
  | BigBuf_Clear_ext (verbose : bool)
  | DoAcquisition_config (silent : bool) (sample_size : Z)
  | DoAcquisition_default (trigger_threshold : Z) (silent : bool)
  | DoPartialAcquisition (trigger_threshold : Z) (silent : bool)
                         (sample_size cancel_after : Z)
  | doCotagAcquisition (sample_size : Z)
  | doCotagAcquisitionManchester
  | cmd_send_ACK                            (* cmd_send(CMD_ACK,0,0,0,0,0) *)
  | DbpString (s : string)
  | Dbprintf (fmt : string) (args : list Z)
  | LED_ON (l : led)
  | LED_OFF (l : led)
  | WDT_HIT
  | LOW_SSC_DOUT                            (* LOW(GPIO_SSC_DOUT) *)
  | HIGH_SSC_DOUT.                          (* HIGH(GPIO_SSC_DOUT) *)

Definition trace : Type := list hw_event.

#[global] Instance fpga_conf_eq_dec : EqDecision fpga_conf.
Proof. solve_decision. Defined.
#[global] Instance led_eq_dec : EqDecision led.
Proof. solve_decision. Defined.
#[global] Instance hw_event_eq_dec : EqDecision hw_event.
Proof. solve_decision. Defined.

(* ================================================================= *)
(** ** The reader field *)

(** What decides whether the antenna carries a reader field: the major
    mode last written to the FPGA and the level of the [GPIO_SSC_DOUT]
    pin. *)
Record antenna : Type := {
  fpga_mode : fpga_conf;
  ssc_dout : bool;
}.

(** The state in which the firmware leaves the antenna between
    operations: FPGA switched off. *)
Definition idle : antenna := {| fpga_mode := FPGA_MAJOR_MODE_OFF; ssc_dout := false |}.

(** In the ADC mode the field is driven when the reader-field bit is
    set; in pass-through mode the level of [SSC_DOUT] modulates the
    antenna ("high" drives it, as the comments of [ReadTItag] and
    [WriteTItag] say); in the off and the edge-detect (tag simulation)
    modes there is no reader field. *)
Definition reader_field (a : antenna) : bool :=
  match fpga_mode a with
  | FPGA_MAJOR_MODE_LF_ADC rf => rf
  | FPGA_MAJOR_MODE_LF_PASSTHRU => ssc_dout a
  | FPGA_MAJOR_MODE_OFF | FPGA_MAJOR_MODE_LF_EDGE_DETECT => false
  end.

(** Modelled from the spec: [LFSetupFPGAForADC] is defined in
    [lfsampling.c], which is not part of the sources at hand.  Section 6
    of the specification lists it as the antenna driver's
    [fieldOn(driveReaderField)], and every call site in [lfops.c] comments
    it as powering the tag up ("power on", "Set up FPGA, 125kHz to power up
    the tag"): it puts the FPGA in the ADC mode, with the reader field
    exactly when [lf_field] is set. *)
Definition LFSetupFPGAForADC_mode (lf_field : bool) : fpga_conf :=
  FPGA_MAJOR_MODE_LF_ADC lf_field.

(** The events that write the FPGA major mode. *)
Definition touches_field (e : hw_event) : bool :=
  match e with
  | FpgaWriteConfWord _ | LFSetupFPGAForADC _ _ => true
  | _ => false
  end.

(** The state of the antenna after one event, given its state before. *)
Definition antenna_step (a : antenna) (e : hw_event) : antenna :=
  match e with
  | FpgaWriteConfWord w => {| fpga_mode := w; ssc_dout := ssc_dout a |}
  | LFSetupFPGAForADC _ lf_field =>
      {| fpga_mode := LFSetupFPGAForADC_mode lf_field; ssc_dout := ssc_dout a |}
  | LOW_SSC_DOUT => {| fpga_mode := fpga_mode a; ssc_dout := false |}
  | HIGH_SSC_DOUT => {| fpga_mode := fpga_mode a; ssc_dout := true |}
  | _ => a
  end.

Definition antenna_after (a : antenna) (t : trace) : antenna :=
  fold_left antenna_step t a.

(** Whether the reader field is on after the trace. *)
Definition field_after (a : antenna) (t : trace) : bool :=
  reader_field (antenna_after a t).

(** Whether the reader field was on at any point of the trace. *)
Fixpoint field_ever_on (a : antenna) (t : trace) : bool :=
  match t with
  | [] => reader_field a
  | e :: t' => reader_field a || field_ever_on (antenna_step a e) t'
  end.

(** The timed segments of a trace: each [WaitUS d] contributes the pair
    of the field state during the wait and its duration. *)
Fixpoint field_timeline (a : antenna) (t : trace) : list (bool * Z) :=
  match t with
  | [] => []
  | WaitUS d :: t' => (reader_field a, d) :: field_timeline a t'
  | e :: t' => field_timeline (antenna_step a e) t'
  end.

(** Total time spent with the field off, respectively on. *)
Definition off_time (tl : list (bool * Z)) : Z :=
  foldr (fun (s : bool * Z) acc => if s.1 then acc else s.2 + acc) 0 tl.
Definition on_time (tl : list (bool * Z)) : Z :=
  foldr (fun (s : bool * Z) acc => if s.1 then s.2 + acc else acc) 0 tl.

(* ================================================================= *)
(** ** T5555/T5557/T5567/T5577 routines *)

(** Communication times in microseconds, as [#define]d. *)
Definition START_GAP : Z := 31 * 8.
Definition WRITE_GAP : Z := 20 * 8.
Definition WRITE_0 : Z := 18 * 8.
Definition WRITE_1 : Z := 50 * 8.
Definition READ_GAP : Z := 15 * 8.

Definition TurnReadLFOn (delay : Z) : trace :=
  [ FpgaWriteConfWord (FPGA_MAJOR_MODE_LF_ADC true); WaitUS delay ].

(** [void T55xxWriteBit(int bit)]: the C test is [!bit], so every non-zero
    argument counts as a one. *)
Definition T55xxWriteBit (bit : Z) : trace :=
  (if bit =? 0 then TurnReadLFOn WRITE_0 else TurnReadLFOn WRITE_1)
  ++ [ FpgaWriteConfWord FPGA_MAJOR_MODE_OFF; WaitUS WRITE_GAP ].

(** [for (i = m; i != 0; i >>= 1) T55xxWriteBit(x & i);] with a fuel
    argument bounding the number of iterations. *)
Fixpoint T55xx_mask_loop (fuel : nat) (i x : Z) : trace :=
  match fuel with
  | O => []
  | S fuel' =>
      if i =? 0 then []
      else T55xxWriteBit (Z.land x i) ++ T55xx_mask_loop fuel' (Z.shiftr i 1) x
  end.

(** A 32-bit mask reaches zero after at most 32 shifts. *)
Definition T55xx_send_masked (i x : Z) : trace := T55xx_mask_loop 32 i x.

Definition T55xxResetRead (max_traceLen : Z) : trace :=
  [ LED_ON LED_A; BigBuf_Clear_keep_EM; LFSetupFPGAForADC 95 true; StartTicks;
    WaitMS 5; FpgaWriteConfWord FPGA_MAJOR_MODE_OFF; WaitUS START_GAP ]
  ++ T55xxWriteBit 0
  ++ T55xxWriteBit 0
  ++ TurnReadLFOn READ_GAP
  ++ [ DoPartialAcquisition 0 true max_traceLen 0;
       FpgaWriteConfWord FPGA_MAJOR_MODE_OFF; cmd_send_ACK; LED_OFF LED_A ].

(** [T55xxWriteBlockExt(uint32_t Data, uint32_t Block, uint32_t Pwd, uint8_t arg)] *)
Definition T55xxWriteBlockExt (Data Block Pwd arg : Z) : trace :=
  let PwdMode := negb (Z.land arg 0x1 =? 0) in
  let Page := Z.shiftr (Z.land arg 0x2) 1 in
  let testMode := negb (Z.land arg 0x4 =? 0) in
  [ LED_ON LED_A; LFSetupFPGAForADC 95 true; StartTicks; WaitMS 5;
    FpgaWriteConfWord FPGA_MAJOR_MODE_OFF; WaitUS START_GAP ]
  ++ (if testMode then [ Dbprintf "TestMODE" [] ] else [])
  ++ T55xxWriteBit (if testMode then 0 else 1)
  ++ T55xxWriteBit (if testMode then 1 else Page)
  ++ (if PwdMode then T55xx_send_masked 0x80000000 Pwd else [])
  ++ T55xxWriteBit 0
  ++ T55xx_send_masked 0x80000000 Data
  ++ T55xx_send_masked 0x04 Block
  ++ (if testMode then TurnReadLFOn 5184 else TurnReadLFOn (20 * 1000))
  ++ [ FpgaWriteConfWord FPGA_MAJOR_MODE_OFF; LED_OFF LED_A ].

Definition T55xxWriteBlock (Data Block Pwd arg : Z) : trace :=
  T55xxWriteBlockExt Data Block Pwd arg ++ [ cmd_send_ACK ].

(** [T55xxReadBlock(uint16_t arg0, uint8_t Block, uint32_t Pwd)] *)
Definition T55xxReadBlock (arg0 Block Pwd : Z) : trace :=
  let PwdMode := negb (Z.land arg0 0x1 =? 0) in
  let Page := Z.shiftr (Z.land arg0 0x2) 1 in
  let RegReadMode := Block =? 0xFF in
  let Block := Z.land Block 0x7 in
  [ LED_ON LED_A; BigBuf_Clear_ext false; LFSetupFPGAForADC 95 true;
    StartTicks; WaitMS 5; FpgaWriteConfWord FPGA_MAJOR_MODE_OFF;
    WaitUS START_GAP ]
  ++ T55xxWriteBit 1
  ++ T55xxWriteBit Page
  ++ (if PwdMode then T55xx_send_masked 0x80000000 Pwd else [])
  ++ T55xxWriteBit 0
  ++ (if negb RegReadMode then T55xx_send_masked 0x04 Block else [])
  ++ TurnReadLFOn (210 * 8)
  ++ [ DoPartialAcquisition 0 true 12000 0;
       FpgaWriteConfWord FPGA_MAJOR_MODE_OFF; cmd_send_ACK; LED_OFF LED_A ].

Definition T55xxWakeUp (Pwd : Z) : trace :=
  [ LED_ON LED_B; LFSetupFPGAForADC 95 true; StartTicks; WaitMS 5;
    FpgaWriteConfWord FPGA_MAJOR_MODE_OFF; WaitUS START_GAP ]
  ++ T55xxWriteBit 1
  ++ T55xxWriteBit 0
  ++ T55xx_send_masked 0x80000000 Pwd
  ++ TurnReadLFOn (20 * 1000).

(* ================================================================= *)
(** ** Cloning routines *)

(** The constants, macros and helpers of [protocols.h] and [lfdemod.h]
    that the cloning routines use.  Their definitions are not part of
    [lfops.c]; the routines below are parametric in them. *)
Record protocols_h : Type := {
  T55x7_BITRATE_RF_32 : Z;
  T55x7_BITRATE_RF_50 : Z;
  T55x7_BITRATE_RF_64 : Z;
  T55x7_MODULATION_PSK1 : Z;
  T55x7_MODULATION_PSK2 : Z;
  T55x7_MODULATION_FSK2a : Z;
  T55x7_MODULATION_MANCHESTER : Z;
  T55x7_MAXBLOCK_SHIFT : Z;
  T5555_MODULATION_MANCHESTER : Z;
  T5555_MAXBLOCK_SHIFT : Z;
  T5555_SET_BITRATE : Z -> Z;
  GetT55xxClockBit : Z -> Z;
  manchesterEncode2Bytes : Z -> Z;
}.

(** The [(Data, Block)] arguments of the successive calls
    [T55xxWriteBlockExt(blockdata[i-1], i-1, 0, 0)] made by the loop
    [for (uint8_t i = numblocks+startblock; i > startblock; i--)],
    entered with the counter at [i].  Reading [blockdata] past its end is
    undefined in C; the lookup then yields 0 here. *)
Fixpoint WriteT55xx_loop (blockdata : list Z) (startblock : Z) (i : nat)
  : list (Z * Z) :=
  match i with
  | O => []
  | S i' =>
      if startblock <? Z.of_nat i
      then (blockdata !!! i', Z.of_nat i') :: WriteT55xx_loop blockdata startblock i'
      else []
  end.

(** The calls of [WriteT55xx]; the initial counter is the sum truncated
    to [uint8_t]. *)
Definition WriteT55xx_calls (blockdata : list Z) (startblock numblocks : Z)
  : list (Z * Z) :=
  WriteT55xx_loop blockdata startblock
    (Z.to_nat ((numblocks + startblock) mod 256)).

Definition WriteT55xx (blockdata : list Z) (startblock numblocks : Z) : trace :=
  flat_map (fun c : Z * Z => T55xxWriteBlockExt c.1 c.2 0 0)
           (WriteT55xx_calls blockdata startblock numblocks).

Definition uint32 (x : Z) : Z := x mod 2 ^ 32.
Definition uint64 (x : Z) : Z := x mod 2 ^ 64.

Section Cloning.
Variable P : protocols_h.

(** [CopyHIDtoT55x7(uint32_t hi2, uint32_t hi, uint32_t lo,
    uint8_t longFMT, uint8_t preamble)] *)
Definition CopyHIDtoT55x7 (hi2 hi lo longFMT preamble : Z) : trace :=
  let finish (data : list Z) (last_block : Z) : trace :=
    let data :=
      <[ 0%nat := Z.lor (Z.lor (T55x7_BITRATE_RF_50 P) (T55x7_MODULATION_FSK2a P))
                        (uint32 (Z.shiftl last_block (T55x7_MAXBLOCK_SHIFT P))) ]> data in
    [ LED_ON LED_D ] ++ WriteT55xx data 0 (last_block + 1)
    ++ [ LED_OFF LED_D; DbpString "DONE!" ] in
  let data := [0; 0; 0; 0; 0; 0; 0] in
  if negb (longFMT =? 0) then
    if 0xFFFFF <? hi2 then [ DbpString "Tags can only have 84 bits." ]
    else
      let data := <[ 1%nat := Z.lor (Z.lor (uint32 (Z.shiftl preamble 24)) 0x96A900)
                      (Z.land (manchesterEncode2Bytes P (Z.land (Z.shiftr hi2 16) 0xF)) 0xFF) ]> data in
      let data := <[ 2%nat := manchesterEncode2Bytes P (Z.land hi2 0xFFFF) ]> data in
      let data := <[ 3%nat := manchesterEncode2Bytes P (Z.shiftr hi 16) ]> data in
      let data := <[ 4%nat := manchesterEncode2Bytes P (Z.land hi 0xFFFF) ]> data in
      let data := <[ 5%nat := manchesterEncode2Bytes P (Z.shiftr lo 16) ]> data in
      let data := <[ 6%nat := manchesterEncode2Bytes P (Z.land lo 0xFFFF) ]> data in
      finish data 6
  else
    if 0xFFF <? hi then [ DbpString "Tags can only have 44 bits." ]
    else
      let data := <[ 1%nat := Z.lor (uint32 (Z.shiftl preamble 24))
                      (Z.land (manchesterEncode2Bytes P hi) 0xFFFFFF) ]> data in
      let data := <[ 2%nat := manchesterEncode2Bytes P (Z.shiftr lo 16) ]> data in
      let data := <[ 3%nat := manchesterEncode2Bytes P (Z.land lo 0xFFFF) ]> data in
      finish data 3.

Definition CopyIOtoT55x7 (hi lo : Z) : trace :=
  let data :=
    [ Z.lor (Z.lor (T55x7_BITRATE_RF_64 P) (T55x7_MODULATION_FSK2a P))
            (uint32 (Z.shiftl 2 (T55x7_MAXBLOCK_SHIFT P))); hi; lo ] in
  [ LED_ON LED_D ] ++ WriteT55xx data 0 3 ++ [ LED_OFF LED_D; DbpString "DONE!" ].

Definition CopyIndala64toT55x7 (hi lo : Z) : trace :=
  let data :=
    [ Z.lor (Z.lor (T55x7_BITRATE_RF_32 P) (T55x7_MODULATION_PSK1 P))
            (uint32 (Z.shiftl 2 (T55x7_MAXBLOCK_SHIFT P))); hi; lo ] in
  WriteT55xx data 0 3 ++ [ DbpString "DONE!" ].

Definition CopyIndala224toT55x7 (uid1 uid2 uid3 uid4 uid5 uid6 uid7 : Z) : trace :=
  let data := [0; uid1; uid2; uid3; uid4; uid5; uid6; uid7] in
  let data :=
    <[ 0%nat := Z.lor (Z.lor (T55x7_BITRATE_RF_32 P) (T55x7_MODULATION_PSK2 P))
                      (uint32 (Z.shiftl 7 (T55x7_MAXBLOCK_SHIFT P))) ]> data in
  WriteT55xx data 0 8 ++ [ DbpString "DONE!" ].

Definition CopyVikingtoT55xx (block1 block2 Q5 : Z) : trace :=
  let data :=
    [ Z.lor (Z.lor (T55x7_BITRATE_RF_32 P) (T55x7_MODULATION_MANCHESTER P))
            (uint32 (Z.shiftl 2 (T55x7_MAXBLOCK_SHIFT P))); block1; block2 ] in
  let data :=
    if negb (Q5 =? 0)
    then <[ 0%nat := Z.lor (Z.lor (T5555_SET_BITRATE P 32) (T5555_MODULATION_MANCHESTER P))
                           (uint32 (Z.shiftl 2 (T5555_MAXBLOCK_SHIFT P))) ]> data
    else data in
  WriteT55xx data 0 3 ++ [ LED_OFF LED_D; cmd_send_ACK ].

(** *** EM410x *)

Definition EM410X_HEADER : Z := 0x1FF.
Definition EM410X_ID_LENGTH : nat := 40.

(** First loop of [WriteEM410x]: reverse the 40 ID bits.  The state is
    [(rev_id, id_hi, id_lo)]. *)
Definition EM410x_reverse_step (st : Z * Z * Z) (i : nat) : Z * Z * Z :=
  let '(rev_id, id_hi, id_lo) := st in
  if (i <? 32)%nat
  then (uint64 (Z.lor (Z.shiftl rev_id 1) (Z.land id_lo 1)), id_hi, Z.shiftr id_lo 1)
  else (uint64 (Z.lor (Z.shiftl rev_id 1) (Z.land id_hi 1)), Z.shiftr id_hi 1, id_lo).

Definition EM410x_reverse (id_hi id_lo : Z) : Z :=
  (fold_left EM410x_reverse_step (seq 0 EM410X_ID_LENGTH) (0, id_hi, id_lo)).1.1.

(** Second loop: interleave the ID bits with row parity and accumulate
    the column parity.  The state is [(id, rev_id, r_parity, c_parity)];
    [c_parity] is an uninitialised [int[4]] in C, each cell of which is
    assigned (for [i < 4]) before it is read. *)
Definition EM410x_frame_step (st : Z * Z * Z * list Z) (i : nat)
  : Z * Z * Z * list Z :=
  let '(id, rev_id, r_parity, c_parity) := st in
  let id_bit := Z.land rev_id 1 in
  let '(id, r_parity) :=
    if (i mod 4 =? 0)%nat
    then ((if (i =? 0)%nat then id else uint64 (Z.lor (Z.shiftl id 1) r_parity)), id_bit)
    else (id, Z.lxor r_parity id_bit) in
  let c_parity :=
    if (i <? 4)%nat
    then <[ i := id_bit ]> c_parity
    else <[ (i mod 4)%nat := Z.lxor (c_parity !!! (i mod 4)%nat) id_bit ]> c_parity in
  (uint64 (Z.lor (Z.shiftl id 1) id_bit), Z.shiftr rev_id 1, r_parity, c_parity).

(** The 64-bit EM410x pattern for an ID. *)
Definition EM410x_id (id_hi id_lo : Z) : Z :=
  let rev_id := EM410x_reverse id_hi id_lo in
  let '(id, _, r_parity, c_parity) :=
    fold_left EM410x_frame_step (seq 0 EM410X_ID_LENGTH)
              (EM410X_HEADER, rev_id, 0, [0; 0; 0; 0]) in
  let id := uint64 (Z.lor (Z.shiftl id 1) r_parity) in
  let id :=
    fold_left (fun id i => uint64 (Z.lor (Z.shiftl id 1) (c_parity !!! i)))
              (seq 0 4) id in
  uint64 (Z.shiftl id 1).

(** [clock = (card & 0xFF00) >> 8; clock = (clock == 0) ? 64 : clock;] *)
Definition EM410x_clock (card : Z) : Z :=
  let clock := Z.shiftr (Z.land card 0xFF00) 8 in
  if clock =? 0 then 64 else clock.

Definition EM410x_card_name (card : Z) : Z := if card =? 0 then 0 else 1.

(** [WriteEM410x(uint32_t card, uint32_t id_hi, uint32_t id_lo)].  The
    [%s] argument of the two progress messages is recorded as 1 for
    "T55x7" and 0 for "T5555". *)
Definition WriteEM410x (card id_hi id_lo : Z) : trace :=
  let id := EM410x_id id_hi id_lo in
  let data := [0; uint32 (Z.shiftr id 32); Z.land id 0xFFFFFFFF] in
  let clock := EM410x_clock card in
  let finish (data : list Z) : trace :=
    WriteT55xx data 0 3
    ++ [ LED_OFF LED_D;
         Dbprintf "Tag %s written with 0x%08x%08x\n"
                  [EM410x_card_name card; uint32 (Z.shiftr id 32); uint32 id] ] in
  [ Dbprintf "Started writing %s tag ..." [EM410x_card_name card];
    LED_ON LED_D;
    Dbprintf "Clock rate: %d" [clock] ]
  ++ (if negb (Z.land card 0xFF =? 0) then
        let clock := GetT55xxClockBit P clock in
        if clock =? 0 then [ Dbprintf "Invalid clock rate: %d" [clock] ]
        else
          finish (<[ 0%nat := Z.lor (Z.lor clock (T55x7_MODULATION_MANCHESTER P))
                                    (uint32 (Z.shiftl 2 (T55x7_MAXBLOCK_SHIFT P))) ]> data)
      else
        finish (<[ 0%nat := Z.lor (Z.lor (T5555_SET_BITRATE P clock)
                                         (T5555_MODULATION_MANCHESTER P))
                                  (uint32 (Z.shiftl 2 (T5555_MAXBLOCK_SHIFT P))) ]> data)).
End Cloning.

(* ================================================================= *)
(** ** EM4469 / EM4305 routines *)

Definition FWD_CMD_LOGIN : Z := 0xC.
Definition FWD_CMD_WRITE : Z := 0xA.
Definition FWD_CMD_READ : Z := 0x9.
Definition FWD_CMD_DISABLE : Z := 0x5.
Definition FWD_CMD_PROTECT : Z := 0x3.

Definition uint8 (x : Z) : Z := Z.land x 0xFF.
Definition uint16 (x : Z) : Z := Z.land x 0xFFFF.

(** The global [uint8_t forwardLink_data[64]] and the cursor
    [uint8_t *forward_ptr] into it, as an index. *)
Record fwd_state : Type := {
  forwardLink_data : list Z;
  forward_ptr : nat;
}.

(** A state monad over [fwd_state] for the frame builders. *)
Definition fwd (A : Type) : Type := fwd_state -> A * fwd_state.
Definition fwd_ret {A} (a : A) : fwd A := fun s => (a, s).
Definition fwd_bind {A B} (m : fwd A) (k : A -> fwd B) : fwd B :=
  fun s => let '(a, s') := m s in k a s'.

Notation "x <- m ;; k" := (fwd_bind m (fun x => k))
  (at level 100, m at next level, right associativity).
Notation "m ;;; k" := (fwd_bind m (fun _ => k))
  (at level 100, right associativity).

(** [*forward_ptr++ = v;] the stored value is truncated to [uint8_t]. *)
Definition fwd_push (v : Z) : fwd unit :=
  fun s => (tt, {| forwardLink_data := <[ forward_ptr s := uint8 v ]> (forwardLink_data s);
                   forward_ptr := S (forward_ptr s) |}).

(** [*forward_ptr = v;] *)
Definition fwd_poke (v : Z) : fwd unit :=
  fun s => (tt, {| forwardLink_data := <[ forward_ptr s := uint8 v ]> (forwardLink_data s);
                   forward_ptr := forward_ptr s |}).

(** [forward_ptr = forwardLink_data;] *)
Definition fwd_rewind : fwd unit :=
  fun s => (tt, {| forwardLink_data := forwardLink_data s; forward_ptr := 0 |}).

(** Run a loop body [k] times, threading a loop-carried value. *)
Fixpoint fwd_for {A} (k : nat) (j : nat) (body : nat -> A -> fwd A) (a : A) : fwd A :=
  match k with
  | O => fwd_ret a
  | S k' => a' <- body j a ;; fwd_for k' (S j) body a'
  end.

Definition Prepare_Cmd (cmd : Z) : fwd Z :=
  fwd_push 0 ;;;
  fwd_push 0 ;;;
  fwd_push cmd ;;;
  let cmd := Z.shiftr cmd 1 in
  fwd_push cmd ;;;
  let cmd := Z.shiftr cmd 1 in
  fwd_push cmd ;;;
  let cmd := Z.shiftr cmd 1 in
  fwd_push cmd ;;;
  fwd_ret 6.

(** Loop-carried values are [(addr, line_parity)]. *)
Definition Prepare_Addr (addr : Z) : fwd Z :=
  r <- fwd_for 6 0 (fun _ '(addr, line_parity) =>
         fwd_push addr ;;;
         fwd_ret (Z.shiftr addr 1, uint8 (Z.lxor line_parity addr)))
       (addr, 0) ;;
  fwd_push (Z.land r.2 1) ;;;
  fwd_ret 7.

(** Inner loop of [Prepare_Data]; carried: [(data, line_parity, column_parity)]. *)
Definition Prepare_Data_row (data column_parity : Z) : fwd (Z * Z * Z) :=
  fwd_for 8 0 (fun j '(data, line_parity, column_parity) =>
      let line_parity := uint8 (Z.lxor line_parity data) in
      let column_parity :=
        uint8 (Z.lxor column_parity (Z.shiftl (Z.land data 1) (Z.of_nat j))) in
      fwd_push data ;;;
      fwd_ret (Z.shiftr data 1, line_parity, column_parity))
    (data, 0, column_parity).

(** [uint8_t Prepare_Data(uint16_t data_low, uint16_t data_hi)] *)
Definition Prepare_Data (data_low data_hi : Z) : fwd Z :=
  r <- fwd_for 4 0 (fun i '(data, column_parity) =>
         row <- Prepare_Data_row data column_parity ;;
         let '(data, line_parity, column_parity) := row in
         fwd_push line_parity ;;;
         fwd_ret (if (i =? 1)%nat then data_hi else data, column_parity))
       (data_low, 0) ;;
  fwd_for 8 0 (fun _ column_parity =>
      fwd_push column_parity ;;;
      fwd_ret (Z.shiftr column_parity 1)) r.2 ;;;
  fwd_poke 0 ;;;
  fwd_ret 45.

(** The body of [while(fwd_bit_sz-- > 0)], reading from [fwd_write_ptr]. *)
Fixpoint SendForward_loop (data : list Z) (fwd_write_ptr : nat) (fwd_bit_sz : nat)
  : trace :=
  match fwd_bit_sz with
  | O => []
  | S sz =>
      (if Z.land (data !!! fwd_write_ptr) 1 =? 1
       then [ WaitUS (32 * 8) ]
       else [ FpgaWriteConfWord FPGA_MAJOR_MODE_OFF; WaitUS (23 * 8);
              FpgaWriteConfWord (FPGA_MAJOR_MODE_LF_ADC true); WaitUS (18 * 8) ])
      ++ SendForward_loop data (S fwd_write_ptr) sz
  end.

(** [void SendForward(uint8_t fwd_bit_count)]: the first bit is consumed
    as the start gap; [fwd_bit_sz] is a [uint8_t]. *)
Definition SendForward (fwd_bit_count : Z) (s : fwd_state) : trace :=
  let fwd_bit_sz := uint8 (uint8 fwd_bit_count - 1) in
  [ LFSetupFPGAForADC 95 true;
    FpgaWriteConfWord FPGA_MAJOR_MODE_OFF; WaitUS (55 * 8);
    FpgaWriteConfWord (FPGA_MAJOR_MODE_LF_ADC true); WaitUS (18 * 8) ]
  ++ SendForward_loop (forwardLink_data s) 1 (Z.to_nat fwd_bit_sz).

(** The operations return their trace and the state in which they leave
    the forward-link array. *)
Definition EM4xLogin (Password : Z) (s : fwd_state) : trace * fwd_state :=
  let '(fwd_bit_count, s) :=
    (fwd_rewind ;;;
     c1 <- Prepare_Cmd FWD_CMD_LOGIN ;;
     c2 <- Prepare_Data (Z.land Password 0xFFFF) (Z.shiftr Password 16) ;;
     fwd_ret (uint8 (c1 + c2))) s in
  (SendForward fwd_bit_count s ++ [ SpinDelay 20 ], s).

Definition EM4xReadWord (Address Pwd PwdMode : Z) (s : fwd_state) : trace * fwd_state :=
  let '(login, s) := if PwdMode =? 1 then EM4xLogin Pwd s else ([], s) in
  let '(fwd_bit_count, s) :=
    (fwd_rewind ;;;
     c1 <- Prepare_Cmd FWD_CMD_READ ;;
     c2 <- Prepare_Addr Address ;;
     fwd_ret (uint8 (c1 + c2))) s in
  ([ BigBuf_Clear_ext false; LED_ON LED_A; StartTicks ]
   ++ login
   ++ SendForward fwd_bit_count s
   ++ [ WaitUS 400; DoPartialAcquisition 20 true 6000 1000;
        FpgaWriteConfWord FPGA_MAJOR_MODE_OFF; LED_OFF LED_A; cmd_send_ACK ], s).

Definition EM4xWriteWord (flag Data Pwd : Z) (s : fwd_state) : trace * fwd_state :=
  let PwdMode := negb (Z.land flag 0x1 =? 0) in
  let Address := Z.land (Z.shiftr flag 8) 0xFF in
  let '(login, s) := if PwdMode then EM4xLogin Pwd s else ([], s) in
  let '(fwd_bit_count, s) :=
    (fwd_rewind ;;;
     c1 <- Prepare_Cmd FWD_CMD_WRITE ;;
     c2 <- Prepare_Addr Address ;;
     c3 <- Prepare_Data (Z.land Data 0xFFFF) (Z.shiftr Data 16) ;;
     fwd_ret (uint8 (uint8 (c1 + c2) + c3))) s in
  ([ BigBuf_Clear_ext false; LED_ON LED_A; StartTicks ]
   ++ login
   ++ SendForward fwd_bit_count s
   ++ [ WaitUS 6500; DoPartialAcquisition 20 true 6000 1000;
        FpgaWriteConfWord FPGA_MAJOR_MODE_OFF; LED_OFF LED_A; cmd_send_ACK ], s).

Definition EM4xProtect (flag Data Pwd : Z) (s : fwd_state) : trace * fwd_state :=
  let PwdMode := negb (Z.land flag 0x1 =? 0) in
  let '(login, s) := if PwdMode then EM4xLogin Pwd s else ([], s) in
  let '(fwd_bit_count, s) :=
    (fwd_rewind ;;;
     c1 <- Prepare_Cmd FWD_CMD_PROTECT ;;
     c2 <- Prepare_Data (Z.land Data 0xFFFF) (Z.shiftr Data 16) ;;
     fwd_ret (uint8 (c1 + c2))) s in
  ([ BigBuf_Clear_ext false; LED_ON LED_A; StartTicks ]
   ++ login
   ++ SendForward fwd_bit_count s
   ++ [ WaitUS 6500; DoPartialAcquisition 20 true 6000 1000;
        FpgaWriteConfWord FPGA_MAJOR_MODE_OFF; LED_OFF LED_A; cmd_send_ACK ], s).

(* ================================================================= *)
(** ** Raw modulation followed by acquisition *)

(** The command is a C string; it is read up to its first NUL or space.
    The list holds the bytes before the terminating NUL. *)
Fixpoint command_prefix (command : list Z) : list Z :=
  match command with
  | [] => []
  | c :: rest => if (c =? 0) || (c =? 32) then [] else c :: command_prefix rest
  end.

(** The bit-bang loop; [off] records whether the field was switched off. *)
Fixpoint bitbang_loop (period_0 period_1 hack_cnt : Z) (cmd : list Z) (off : bool)
  : trace :=
  match cmd with
  | [] => []
  | c :: rest =>
      if c =? 48 (* '0' *) then
        (if negb off then [ FpgaWriteConfWord FPGA_MAJOR_MODE_OFF; LED_OFF LED_D ] else [])
        ++ [ WaitUS (uint32 (period_0 - hack_cnt)) ]
        ++ bitbang_loop period_0 period_1 hack_cnt rest true
      else
        (if off then [ FpgaWriteConfWord (FPGA_MAJOR_MODE_LF_ADC true); LED_ON LED_D ] else [])
        ++ [ WaitUS (uint32 (period_1 - hack_cnt)) ]
        ++ bitbang_loop period_0 period_1 hack_cnt rest false
  end.

(** The old mode, with [delay_off] as the off period. *)
Fixpoint delay_off_loop (divisor delay_off period_0 period_1 : Z) (cmd : list Z) : trace :=
  match cmd with
  | [] => []
  | c :: rest =>
      [ FpgaWriteConfWord FPGA_MAJOR_MODE_OFF; LED_OFF LED_D; WaitUS delay_off;
        FpgaSendCommand_SET_DIVISOR divisor;
        FpgaWriteConfWord (FPGA_MAJOR_MODE_LF_ADC true); LED_ON LED_D;
        WaitUS (if c =? 48 then period_0 else period_1) ]
      ++ delay_off_loop divisor delay_off period_0 period_1 rest
  end.

(** [ModThenAcquireRawAdcSamples125k(delay_off, period_0, period_1, command)];
    [divisor] is [getSamplingConfig()->divisor]. *)
Definition ModThenAcquireRawAdcSamples125k
    (divisor delay_off period_0 period_1 : Z) (command : list Z) : trace :=
  let bitbang := delay_off =? 0 in
  let hack_cnt := 7 in
  let acquire :=
    [ FpgaWriteConfWord (FPGA_MAJOR_MODE_LF_ADC true);
      DoAcquisition_config false 0;
      FpgaWriteConfWord FPGA_MAJOR_MODE_OFF;
      cmd_send_ACK ] in
  [ StartTicks; FpgaDownloadAndGo; FpgaWriteConfWord FPGA_MAJOR_MODE_OFF;
    WaitMS 2500; BigBuf_Clear_keep_EM; LFSetupFPGAForADC divisor true;
    WaitMS 2000 ]
  ++ (if bitbang then
        if (period_0 <? hack_cnt) || (period_1 <? hack_cnt) then
          [ DbpString "Warning periods cannot be less than 7us in bit bang mode";
            FpgaWriteConfWord FPGA_MAJOR_MODE_OFF; LED_OFF LED_D ]
        else
          bitbang_loop period_0 period_1 hack_cnt (command_prefix command) false
          ++ acquire
      else
        delay_off_loop divisor delay_off period_0 period_1 (command_prefix command)
        ++ [ FpgaWriteConfWord FPGA_MAJOR_MODE_OFF; LED_OFF LED_D; WaitUS delay_off;
             FpgaSendCommand_SET_DIVISOR divisor ]
        ++ acquire).

(* ================================================================= *)
(** ** COTAG *)

Definition COTAG_OFF : trace := [ FpgaWriteConfWord FPGA_MAJOR_MODE_OFF; WaitUS 2035 ].
Definition COTAG_ON (x : Z) : trace :=
  [ FpgaWriteConfWord (FPGA_MAJOR_MODE_LF_ADC true); WaitUS x ].

Definition Cotag (arg0 : Z) : trace :=
  let rawsignal := Z.land arg0 0xF in
  [ LED_ON LED_A; FpgaDownloadAndGo; BigBuf_Clear_ext false;
    FpgaSendCommand_SET_DIVISOR 89;
    FpgaWriteConfWord (FPGA_MAJOR_MODE_LF_ADC true);
    SetAdcMuxFor_LOPKD; FpgaSetupSsc; StartTicks ]
  ++ COTAG_ON 740 ++ COTAG_OFF
  ++ COTAG_ON 3330 ++ COTAG_OFF
  ++ COTAG_ON 740 ++ COTAG_OFF
  ++ COTAG_ON 1000
  ++ (if rawsignal =? 0 then [ doCotagAcquisition 50000 ]
      else if rawsignal =? 1 then [ doCotagAcquisitionManchester ]
      else if rawsignal =? 2 then [ DoAcquisition_config true 0 ]
      else [])
  ++ [ FpgaWriteConfWord FPGA_MAJOR_MODE_OFF; cmd_send_ACK; LED_OFF LED_A ].

(* ================================================================= *)
(** ** Waveform composition *)

(** The sample buffer [dest = BigBuf_get_addr()] together with the write
    cursor [n].  Its capacity is the length of the list; the C code does
    not check it, a store past the end is dropped here. *)
Definition wave_buf : Type := list Z * Z.

(** One store through the cursor, which then advances by one. *)
Definition put (v : Z) (b : wave_buf) : wave_buf :=
  (<[ Z.to_nat b.2 := v ]> b.1, b.2 + 1).

(** [memset(dest + off, c, len);] *)
Definition memset (dest : list Z) (off c len : Z) : list Z :=
  list_inserts (Z.to_nat off) (replicate (Z.to_nat len) c) dest.

Fixpoint repeat_op {A} (k : nat) (f : A -> A) (a : A) : A :=
  match k with
  | O => a
  | S k' => repeat_op k' f (f a)
  end.

(** [static void fc(int c, int *n)]: the fc/8 and fc/10 patterns of the
    HID waveform. *)
Definition fc (c : Z) (b : wave_buf) : wave_buf :=
  let fc8 b := put 0 (put 0 (put 0 (put 0 (put 1 (put 1 (put 1 (put 1 b))))))) in
  let fc10 b :=
    put 0 (put 0 (put 0 (put 0 (put 0 (put 1 (put 1 (put 1 (put 1 (put 1 b))))))))) in
  let b := if c =? 0 then fc8 b else b in
  let b := if c =? 8 then repeat_op 6 fc8 b else b in
  let b := if c =? 10 then repeat_op 5 fc10 b else b in
  b.

(** One field-clock wave of [len] samples at cursor [n]: the first
    [len - len/2] samples 0, the remaining [len/2] samples 1. *)
Definition fc_wave (len : Z) (b : wave_buf) : wave_buf :=
  let half := len / 2 in
  let dest := memset b.1 b.2 0 (len - half) in
  let dest := memset dest (b.2 + (len - half)) 1 half in
  (dest, b.2 + len).

(** C's [a / b] and [a % b] on unsigned operands.  For a zero divisor the
    behaviour is undefined; [None] stands for it. *)
Definition c_div (a b : Z) : option Z := if b =? 0 then None else Some (a / b).
Definition c_mod (a b : Z) : option Z := if b =? 0 then None else Some (a mod b).

(** [static void fcAll(uint8_t fc, int *n, uint8_t clock, uint16_t *modCnt)].
    [modAdj] and [modAdjOk] are computed at the head of the function,
    before [mod] is tested: a call with [fc = 0] or with [clock] a
    multiple of [fc] divides by zero and yields [None]. *)
Definition fcAll (fc : Z) (clock : Z) (st : wave_buf * Z) : option (wave_buf * Z) :=
  let '(b, modCnt) := st in
  wavesPerClock ← c_div clock fc;
  mod_ ← c_mod clock fc;
  modAdj ← c_div fc mod_;
  fc_mod ← c_mod fc mod_;
  let modAdjOk := fc_mod =? 0 in
  let b := repeat_op (Z.to_nat wavesPerClock) (fc_wave fc) b in
  let modCnt := if 0 <? mod_ then (modCnt + 1) mod 2 ^ 16 else modCnt in
  b ← (if (0 <? mod_) && modAdjOk
       then modCnt_mod ← c_mod modCnt modAdj;
            Some (if modCnt_mod =? 0 then fc_wave fc b else b)
       else Some b);
  let b := if (0 <? mod_) && negb modAdjOk then fc_wave mod_ b else b in
  Some (b, modCnt).

(** The encoding loop of [CmdFSKsimTAG]; [None] when a call of [fcAll]
    divides by zero. *)
Definition FSK_encode (fcHigh fcLow clk invert : Z) (BitStream : list Z)
    (dest : list Z) : option (wave_buf * Z) :=
  fold_left (fun st bit =>
               st ← st;
               if bit =? invert then fcAll fcLow clk st else fcAll fcHigh clk st)
            BitStream (Some ((dest, 0), 0)).

(** [static void askSimBit(uint8_t c, int *n, uint8_t clock, uint8_t manchester)] *)
Definition askSimBit (c clock manchester : Z) (b : wave_buf) : wave_buf :=
  let halfClk := clock / 2 in
  let dest :=
    if manchester =? 1
    then memset (memset b.1 b.2 c halfClk) (b.2 + halfClk) (Z.lxor c 1) halfClk
    else memset b.1 b.2 c clock in
  (dest, b.2 + clock).

(** [static void biphaseSimBit(uint8_t c, int *n, uint8_t clock, uint8_t *phase)] *)
Definition biphaseSimBit (c clock : Z) (st : wave_buf * Z) : wave_buf * Z :=
  let '(b, phase) := st in
  let halfClk := clock / 2 in
  if negb (c =? 0) then
    let dest := memset b.1 b.2 (Z.lxor (Z.lxor c 1) phase) halfClk in
    let dest := memset dest (b.2 + halfClk) (Z.lxor c phase) halfClk in
    ((dest, b.2 + clock), phase)
  else
    let dest := memset b.1 b.2 (Z.lxor c phase) clock in
    ((dest, b.2 + clock), Z.lxor phase 1).

(** [static void stAskSimBit(int *n, uint8_t clock)] *)
Definition stAskSimBit (clock : Z) (b : wave_buf) : wave_buf :=
  let halfClk := clock / 2 in
  let dest := memset b.1 b.2 1 halfClk in
  let dest := memset dest (b.2 + halfClk) 0 halfClk in
  let dest := memset dest (b.2 + clock) 1 (clock + halfClk) in
  let dest := memset dest (b.2 + clock * 2 + halfClk) 0 halfClk in
  let dest := memset dest (b.2 + clock * 3) 1 clock in
  (dest, b.2 + clock * 4).

(** One pass of the biphase loop of [CmdASKsimTag] over the bit stream. *)
Definition biphase_pass (clk invert : Z) (BitStream : list Z) (st : wave_buf * Z)
  : wave_buf * Z :=
  fold_left (fun st bit => biphaseSimBit (Z.lxor bit invert) clk st) BitStream st.

(** The [encoding == 2] branch of [CmdASKsimTag]: the buffer, the cursor
    and the final value of the local [phase]. *)
Definition biphase_encode (clk invert : Z) (BitStream : list Z) (dest : list Z)
  : wave_buf * Z :=
  let st := biphase_pass clk invert BitStream ((dest, 0), 0) in
  if st.2 =? 1 then biphase_pass clk invert BitStream st else st.

(** The other branch: ask/manchester or ask/raw.  [BitStream[0]] and
    [BitStream[size-1]] are read also for an empty stream in C; the lookup
    yields 0 there. *)
Definition ask_encode (clk encoding invert : Z) (BitStream : list Z) (dest : list Z)
  : wave_buf :=
  let b :=
    fold_left (fun b bit => askSimBit (Z.lxor bit invert) clk encoding b)
              BitStream (dest, 0) in
  if (encoding =? 0)
     && (BitStream !!! 0%nat =? BitStream !!! (length BitStream - 1)%nat)
  then fold_left (fun b bit => askSimBit (Z.lxor (Z.lxor bit invert) 1) clk encoding b)
                 BitStream b
  else b.

(** The waveform composed by [CmdASKsimTag], before it is played. *)
Definition ASK_encode (arg1 arg2 : Z) (BitStream : list Z) (dest : list Z) : wave_buf :=
  let clk := Z.land (Z.shiftr arg1 8) 0xFF in
  let encoding := Z.land arg1 0xFF in
  let separator := Z.land arg2 1 in
  let invert := Z.land (Z.shiftr arg2 8) 1 in
  let b :=
    if encoding =? 2 then (biphase_encode clk invert BitStream dest).1
    else ask_encode clk encoding invert BitStream dest in
  if (separator =? 1) && (encoding =? 1) then stAskSimBit clk b else b.

(** [static void pskSimBit(uint8_t waveLen, int *n, uint8_t clk,
    uint8_t *curPhase, bool phaseChg)].  The loop
    [for (; i < clk; i += waveLen)] does not terminate for [waveLen = 0];
    it is run with [fuel] iterations at most and yields [None] when they
    do not suffice. *)
Fixpoint pskSimBit_loop (fuel : nat) (waveLen clk curPhase : Z) (i : Z) (b : wave_buf)
  : option wave_buf :=
  if clk <=? i then Some b
  else
    match fuel with
    | O => None
    | S fuel' =>
        let halfWave := waveLen / 2 in
        let dest := memset b.1 b.2 curPhase halfWave in
        let dest := memset dest (b.2 + halfWave) (Z.lxor curPhase 1) halfWave in
        pskSimBit_loop fuel' waveLen clk curPhase (i + waveLen) (dest, b.2 + waveLen)
    end.

Definition pskSimBit (waveLen clk : Z) (phaseChg : bool) (st : wave_buf * Z)
  : option (wave_buf * Z) :=
  let '(b, curPhase) := st in
  let halfWave := waveLen / 2 in
  let '(b, curPhase, i) :=
    if phaseChg then
      let dest := memset b.1 b.2 (Z.lxor curPhase 1) halfWave in
      let dest := memset dest (b.2 + halfWave) curPhase halfWave in
      ((dest, b.2 + waveLen), Z.lxor curPhase 1, waveLen)
    else (b, curPhase, 0) in
  match pskSimBit_loop (Z.to_nat clk) waveLen clk curPhase i b with
  | Some b => Some (b, curPhase)
  | None => None
  end.

Definition PSK_encode (arg1 arg2 : Z) (BitStream : list Z) (dest : list Z)
  : option wave_buf :=
  let clk := Z.shiftr arg1 8 in
  let carrier := Z.land arg1 0xFF in
  let r :=
    fold_left (fun st bit =>
                 match st with
                 | Some st => pskSimBit carrier clk (negb (bit =? st.2)) st
                 | None => None
                 end)
              BitStream (Some ((dest, 0), 0)) in
  match r with Some st => Some st.1 | None => None end.

(** The bit loops of [CmdHIDsimTAG]: Manchester encode bits [count-1 .. 0]
    of [v], most significant first, with an fc/8 filler before every
    fourth bit.  [v] is a C [int]; the shift is arithmetic. *)
Definition HID_bits (count : nat) (v : Z) (b : wave_buf) : wave_buf :=
  fold_left (fun b i =>
               let b := if (i mod 4 =? 3)%nat then fc 0 b else b in
               if Z.land (Z.shiftr v (Z.of_nat i)) 1 =? 1
               then fc 8 (fc 10 b)
               else fc 10 (fc 8 b))
            (rev (seq 0 count)) b.

(** The waveform composed by [CmdHIDsimTAG] once the width check passed. *)
Definition HID_encode (hi2 hi lo : Z) (dest : list Z) : wave_buf :=
  let b := (dest, 0) in
  let b := fc 0 b in
  let b := fc 10 (fc 8 (fc 10 (fc 10 (fc 10 (fc 8 (fc 8 (fc 8 b))))))) in
  let b :=
    if (0 <? hi2) || (0xFFF <? hi)
    then HID_bits 32 hi (HID_bits 28 hi2 b)
    else HID_bits 12 hi b in
  HID_bits 32 lo b.

(* ================================================================= *)
(** ** Tag simulation *)

(** What the simulation loop reads from the outside world, in the order
    in which it asks: the level of the [GPIO_SSC_CLK] pin at each test of
    a [while] condition, and the value of
    [BUTTON_PRESS() || usb_poll_validate_length()] at each poll.  The lists
    are finite prefixes of the observations; the loop is still running
    when it has consumed all of them. *)
Record sim_env : Type := {
  ssc_clk : list bool;
  cancel : list bool;
}.

Inductive sim_wait : Type := WaitHigh | WaitLow.

(** [#define SHORT_COIL() LOW(GPIO_SSC_DOUT)] and
    [#define OPEN_COIL() HIGH(GPIO_SSC_DOUT)]. *)
Definition SHORT_COIL : hw_event := LOW_SSC_DOUT.
Definition OPEN_COIL : hw_event := HIGH_SSC_DOUT.

(** A trace and whether the routine has returned. *)
Definition run : Type := trace * bool.

Definition prepend (t : trace) (r : run) : run := (t ++ r.1, r.2).
Definition and_then (r : run) (t : trace) : run :=
  if r.2 then (r.1 ++ t, true) else r.

(** The [for(;;)] of [SimulateTagLowFrequency].  [w] tells which of the
    two inner [while] loops is being executed, [i] is the sample index and
    [ii] the poll counter. *)
Fixpoint SimulateTagLowFrequency_loop (tab : list Z) (period gap : Z) (ledcontrol : bool)
    (clk : list bool) (cancel : list bool) (w : sim_wait) (i ii : Z) {struct clk} : run :=
  match clk with
  | [] => ([], false)
  | c :: clk' =>
      let leave := match w with WaitHigh => c | WaitLow => negb c end in
      if leave then
        match w with
        | WaitHigh =>
            prepend
              ((if ledcontrol then [ LED_ON LED_D ] else [])
               ++ [ if negb (tab !!! Z.to_nat i =? 0) then OPEN_COIL else SHORT_COIL ]
               ++ (if ledcontrol then [ LED_OFF LED_D ] else []))
              (SimulateTagLowFrequency_loop tab period gap ledcontrol clk' cancel WaitLow i 0)
        | WaitLow =>
            let i := i + 1 in
            if i =? period then
              prepend
                (if negb (gap =? 0) then [ SHORT_COIL; SpinDelayUs gap ] else [])
                (SimulateTagLowFrequency_loop tab period gap ledcontrol clk' cancel WaitHigh 0 0)
            else
              SimulateTagLowFrequency_loop tab period gap ledcontrol clk' cancel WaitHigh i 0
        end
      else if ii =? 1000 then
        match cancel with
        | [] => ([], false)
        | true :: _ => ([ FpgaWriteConfWord FPGA_MAJOR_MODE_OFF; DbpString "Stopped" ], true)
        | false :: cancel' =>
            prepend [ WDT_HIT ]
              (SimulateTagLowFrequency_loop tab period gap ledcontrol clk' cancel' w i (0 + 1))
        end
      else
        prepend [ WDT_HIT ]
          (SimulateTagLowFrequency_loop tab period gap ledcontrol clk' cancel w i (ii + 1))
  end.

(** [void SimulateTagLowFrequency(int period, int gap, int ledcontrol)];
    [tab] is the sample buffer.  The writes to the PIO controller that
    hand the pins over are not recorded. *)
Definition SimulateTagLowFrequency (tab : list Z) (period gap : Z) (ledcontrol : bool)
    (env : sim_env) : run :=
  prepend [ FpgaWriteConfWord FPGA_MAJOR_MODE_LF_EDGE_DETECT ]
    (SimulateTagLowFrequency_loop tab period gap ledcontrol
       (ssc_clk env) (cancel env) WaitHigh 0 0).

(** [void SimulateTagLowFrequencyBidir(int divisor, int t0)]: the body is
    empty. *)
Definition SimulateTagLowFrequencyBidir (divisor t0 : Z) : trace := [].

(** [void CmdHIDsimTAG(int hi2, int hi, int lo, int ledcontrol)] *)
Definition CmdHIDsimTAG (hi2 hi lo ledcontrol : Z) (dest : list Z) (env : sim_env) : run :=
  if 0x0FFFFFFF <? hi2 then
    ([ DbpString "Tags can only have 44 or 84 bits. - USE lf simfsk for larger tags" ], true)
  else
    let b := HID_encode hi2 hi lo dest in
    let led := negb (ledcontrol =? 0) in
    prepend
      ([ FpgaDownloadAndGo; WDT_HIT ]
       ++ (if (0 <? hi2) || (0xFFF <? hi) then [ WDT_HIT ] else [])
       ++ [ WDT_HIT ]
       ++ (if led then [ LED_ON LED_A ] else []))
      (and_then (SimulateTagLowFrequency b.1 b.2 0 led env)
                (if led then [ LED_OFF LED_A ] else [])).

(** [void CmdFSKsimTAG(uint16_t arg1, uint16_t arg2, size_t size, uint8_t *BitStream)];
    when the composition divides by zero the routine does not return. *)
Definition CmdFSKsimTAG (arg1 arg2 : Z) (BitStream : list Z) (dest : list Z)
    (env : sim_env) : run :=
  let fcHigh := Z.shiftr arg1 8 in
  let fcLow := Z.land arg1 0xFF in
  let clk := Z.land arg2 0xFF in
  let invert := Z.land (Z.shiftr arg2 8) 1 in
  match FSK_encode fcHigh fcLow clk invert BitStream dest with
  | None => ([ FpgaDownloadAndGo ], false)
  | Some (b, _) =>
      prepend
        [ FpgaDownloadAndGo;
          Dbprintf "Simulating with fcHigh: %d, fcLow: %d, clk: %d, invert: %d, n: %d"
                   [fcHigh; fcLow; clk; invert; b.2];
          LED_ON LED_A ]
        (and_then (SimulateTagLowFrequency b.1 b.2 0 true env) [ LED_OFF LED_A ])
  end.

(** [void CmdASKsimTag(uint16_t arg1, uint16_t arg2, size_t size, uint8_t *BitStream)] *)
Definition CmdASKsimTag (arg1 arg2 : Z) (BitStream : list Z) (dest : list Z)
    (env : sim_env) : run :=
  let clk := Z.land (Z.shiftr arg1 8) 0xFF in
  let encoding := Z.land arg1 0xFF in
  let separator := Z.land arg2 1 in
  let invert := Z.land (Z.shiftr arg2 8) 1 in
  let b := ASK_encode arg1 arg2 BitStream dest in
  prepend
    ([ FpgaDownloadAndGo ]
     ++ (if (separator =? 1) && negb (encoding =? 1)
         then [ Dbprintf "sorry but separator option not yet available" [] ] else [])
     ++ [ Dbprintf "Simulating with clk: %d, invert: %d, encoding: %d, separator: %d, n: %d"
                   [clk; invert; encoding; separator; b.2];
          LED_ON LED_A ])
    (and_then (SimulateTagLowFrequency b.1 b.2 0 true env) [ LED_OFF LED_A ]).

(** [void CmdPSKsimTag(uint16_t arg1, uint16_t arg2, size_t size, uint8_t *BitStream)];
    with a zero carrier the composition loop never ends and the routine
    does not return. *)
Definition CmdPSKsimTag (arg1 arg2 : Z) (BitStream : list Z) (dest : list Z)
    (env : sim_env) : run :=
  let clk := Z.shiftr arg1 8 in
  let carrier := Z.land arg1 0xFF in
  let invert := Z.land arg2 0xFF in
  match PSK_encode arg1 arg2 BitStream dest with
  | None => ([ FpgaDownloadAndGo ], false)
  | Some b =>
      prepend
        [ FpgaDownloadAndGo;
          Dbprintf "Simulating with Carrier: %d, clk: %d, invert: %d, n: %d"
                   [carrier; clk; invert; b.2];
          LED_ON LED_A ]
        (and_then (SimulateTagLowFrequency b.1 b.2 0 true env) [ LED_OFF LED_A ])
  end.

(* ================================================================= *)
(** ** What a T55xx tag receives *)

(** The downlink as the tag sees it: a start gap (field off for
    [START_GAP]) opens a frame; within a frame every field-on period of
    [WRITE_0] or [WRITE_1] that is closed by a write gap is one bit.
    [T55xx_segments] splits a trace at its start gaps and lists the bits of
    every segment; the first segment is what precedes the first start gap. *)
Definition add_bit (b : bool) (segs : list (list bool)) : list (list bool) :=
  match segs with
  | [] => [[b]]
  | s :: segs' => (b :: s) :: segs'
  end.

Definition add_bits (bs : list bool) (segs : list (list bool)) : list (list bool) :=
  foldr add_bit segs bs.

Fixpoint T55xx_segments (t : trace) : list (list bool) :=
  match t with
  | [] => [[]]
  | FpgaWriteConfWord FPGA_MAJOR_MODE_OFF :: t1 =>
      match t1 with
      | WaitUS d :: t2 =>
          if d =? START_GAP then [] :: T55xx_segments t2 else T55xx_segments t1
      | _ => T55xx_segments t1
      end
  | FpgaWriteConfWord (FPGA_MAJOR_MODE_LF_ADC true) :: t1 =>
      match t1 with
      | WaitUS d :: FpgaWriteConfWord FPGA_MAJOR_MODE_OFF :: WaitUS g :: t4 =>
          if (g =? WRITE_GAP) && ((d =? WRITE_0) || (d =? WRITE_1))
          then add_bit (d =? WRITE_1) (T55xx_segments t4)
          else T55xx_segments t1
      | _ => T55xx_segments t1
      end
  | _ :: t1 => T55xx_segments t1
  end.

(** The frames sent to the tag, in order. *)
Definition T55xx_frames (t : trace) : list (list bool) := tail (T55xx_segments t).

(** Bits [k-1 .. 0] of [x], most significant first. *)
Definition bits_msb (k : nat) (x : Z) : list bool :=
  map (fun i => Z.testbit x (Z.of_nat i)) (rev (seq 0 k)).

(** The value of a list of bits, most significant first. *)
Definition bits_value (bs : list bool) : Z :=
  fold_left (fun acc (b : bool) => 2 * acc + Z.b2z b) bs 0.

(** The block address carried by a write frame: its last three bits. *)
Definition frame_block (frame : list bool) : Z :=
  bits_value (drop (length frame - 3) frame).

(** The frame of a plain block write (no password, page 0, no test
    mode): opcode 10, lock bit 0, 32 data bits, 3 address bits. *)
Definition write_frame (Data Block : Z) : list bool :=
  [true; false; false] ++ bits_msb 32 Data ++ bits_msb 3 Block.

(* ================================================================= *)
(** ** An instance of the header parameters *)

(** One instantiation of [protocols_h], for evaluating the cloning
    routines on concrete inputs.  The statements below that quantify over
    [protocols_h] do not depend on it. *)
Definition sample_GetT55xxClockBit (clock : Z) : Z :=
  if clock =? 128 then 0x001C0000
  else if clock =? 100 then 0x00180000
  else if clock =? 64 then 0x00140000
  else if clock =? 50 then 0x00100000
  else if clock =? 40 then 0x000C0000
  else if clock =? 32 then 0x00080000
  else if clock =? 16 then 0x00040000
  else 0.

Definition sample_manchesterEncode2Bytes (datain : Z) : Z :=
  fold_left (fun output i =>
               let curBit := Z.land (Z.shiftr datain (15 - Z.of_nat i)) 1 in
               Z.lor output (Z.shiftl 1 ((15 - Z.of_nat i) * 2 + curBit)))
            (seq 0 16) 0.

Definition sample_protocols : protocols_h := {|
  T55x7_BITRATE_RF_32 := 0x00080000;
  T55x7_BITRATE_RF_50 := 0x00100000;
  T55x7_BITRATE_RF_64 := 0x00140000;
  T55x7_MODULATION_PSK1 := 0x00001000;
  T55x7_MODULATION_PSK2 := 0x00002000;
  T55x7_MODULATION_FSK2a := 0x00007000;
  T55x7_MODULATION_MANCHESTER := 0x00008000;
  T55x7_MAXBLOCK_SHIFT := 5;
  T5555_MODULATION_MANCHESTER := 0;
  T5555_MAXBLOCK_SHIFT := 1;
  T5555_SET_BITRATE := fun x => Z.shiftl ((x - 2) / 2) 12;
  GetT55xxClockBit := sample_GetT55xxClockBit;
  manchesterEncode2Bytes := sample_manchesterEncode2Bytes;
|}.

(* ================================================================= *)
(** ** The EM4x05 data sub-frame, as specified *)

Definition xor_all (bs : list bool) : bool := foldr xorb false bs.

(** Bit [k] of the 32-bit word whose halves are [data_hi:data_low]. *)
Definition word_bit (data_low data_hi : Z) (k : nat) : bool :=
  if (k <? 16)%nat then Z.testbit data_low (Z.of_nat k)
  else Z.testbit data_hi (Z.of_nat (k - 16)).

(** The data sub-frame in the words of the specification: four rows of
    eight data bits, each followed by the XOR of the row, then eight
    column-parity bits, the [j]-th being the XOR of bit [j] of the four
    rows.  [bit k] is bit [k] of the data word; row [i] holds the bits
    [8i .. 8i+7], least significant first. *)
Definition data_frame_spec (bit : nat -> bool) : list bool :=
  flat_map (fun i => map (fun j => bit (8 * i + j)%nat) (seq 0 8)
                     ++ [ xor_all (map (fun j => bit (8 * i + j)%nat) (seq 0 8)) ])
           (seq 0 4)
  ++ map (fun j => xor_all (map (fun i => bit (8 * i + j)%nat) (seq 0 4))) (seq 0 8).

(** The row-parity and column-parity bits of a 44-bit data sub-frame. *)
Definition row_parities (frame : list bool) : list bool :=
  map (fun i => frame !!! (9 * i + 8)%nat) (seq 0 4).
Definition column_parities (frame : list bool) : list bool := drop 36 frame.

(** The bits that [SendForward] transmits for the bytes written by one
    call of a frame builder that was entered with the cursor at [p] and
    wrote [len] bytes: the low bit of each byte. *)
Definition forward_bits (p len : nat) (s : fwd_state) : list bool :=
  map (fun v => Z.testbit v 0) (take len (drop p (forwardLink_data s))).

(** *** Loop invariants of [Prepare_Data] *)

(** The state after pushing the values [vs] from [s] on. *)
Definition fwd_pushes (vs : list Z) (s : fwd_state) : fwd_state :=
  {| forwardLink_data := list_inserts (forward_ptr s) (map uint8 vs) (forwardLink_data s);
     forward_ptr := forward_ptr s + length vs |}.

Definition fwd_poked (v : Z) (s : fwd_state) : fwd_state := (fwd_poke v s).2.

(** [data] after [j] executions of [data >>= 1]. *)
Definition shr (data : Z) (j : nat) : Z := Nat.iter j (fun d => Z.shiftr d 1) data.

(** [line_parity] after [j] iterations of the inner loop over [data]. *)
Fixpoint line_par (data : Z) (j : nat) : Z :=
  match j with
  | O => 0
  | S j' => uint8 (Z.lxor (line_par data j') (shr data j'))
  end.

(** [column_parity] after [j] iterations of the inner loop over [data]. *)
Fixpoint col_acc (column_parity data : Z) (j : nat) : Z :=
  match j with
  | O => column_parity
  | S j' => uint8 (Z.lxor (col_acc column_parity data j')
                          (Z.shiftl (Z.land (shr data j') 1) (Z.of_nat j')))
  end.

(** The 44 values that [Prepare_Data] stores through the cursor. *)
Definition Prepare_Data_values (data_low data_hi : Z) : list Z :=
  let cp := col_acc (col_acc (col_acc (col_acc 0 data_low 8) (shr data_low 8) 8)
                             data_hi 8) (shr data_hi 8) 8 in
  map (shr data_low) (seq 0 8) ++ [ line_par data_low 8 ]
  ++ map (shr (shr data_low 8)) (seq 0 8) ++ [ line_par (shr data_low 8) 8 ]
  ++ map (shr data_hi) (seq 0 8) ++ [ line_par data_hi 8 ]
  ++ map (shr (shr data_hi 8)) (seq 0 8) ++ [ line_par (shr data_hi 8) 8 ]
  ++ map (shr cp) (seq 0 8).

(** The forward-link array as it is at start-up, with the cursor at its
    beginning. *)
Definition fwd_init : fwd_state :=
  {| forwardLink_data := replicate 64 0; forward_ptr := 0 |}.

(* ================================================================= *)
(** ** Counting for the biphase encoder *)

(** Whether the stream holds an odd number of bits that are sent as a
    zero, i.e. bits [b] with [b ^ invert == 0]. *)
Definition odd_zeros (invert : Z) (BitStream : list Z) : bool :=
  foldr (fun bit acc => xorb (Z.lxor bit invert =? 0) acc) false BitStream.

(* ================================================================= *)
(** ** The samples of an FSK bit *)

(** One wave of [len] samples: the first [len - len/2] are 0, the other
    [len/2] are 1. *)
Definition wave (len : Z) : list Z :=
  replicate (Z.to_nat (len - len / 2)) 0 ++ replicate (Z.to_nat (len / 2)) 1.

(** The modifier that follows the [clock / fc] whole waves of a bit when
    [clock] is not a multiple of [fc], given the value [modCnt] of the
    modifier counter after the bit was counted. *)
Definition FSK_modifier (fc clock modCnt : Z) : list Z :=
  let remainder := clock mod fc in
  if fc mod remainder =? 0
  then (if modCnt mod (fc / remainder) =? 0 then wave fc else [])
  else wave remainder.

(** The carrier selected for a bit by [CmdFSKsimTAG]. *)
Definition FSK_carrier (fcHigh fcLow invert bit : Z) : Z :=
  if bit =? invert then fcLow else fcHigh.

(* ================================================================= *)
(** ** Demodulation loops *)

(** The loops below acquire, hand the samples to a demodulator of
    [lfdemod.c] and report what it found, until the button or the USB
    host cancels.  What the world answers at each round of a loop is
    given as a list, one entry per test of the loop condition: [None]
    when [BUTTON_PRESS() || usb_poll_validate_length()] holds, otherwise
    the values that the external demodulator and the bit extraction
    ([bytebits_to_byte], [removeParity]) yield in that round.  The loop is
    still running when the list is used up.  The values handed back
    through the pointer parameters are not modelled. *)

(** [while (bp > 0) { bp = bp >> 1; bitlen++; }] with [uint8_t bitlen]. *)
Fixpoint bitlen_loop (fuel : nat) (bp bitlen : Z) : Z :=
  match fuel with
  | O => bitlen
  | S fuel' =>
      if 0 <? bp then bitlen_loop fuel' (Z.shiftr bp 1) (uint8 (bitlen + 1)) else bitlen
  end.

(** What [HIDdemodFSK] returns: its result and its out-parameters. *)
Record HID_read : Type := {
  hid_idx : Z; hid_size : Z; hid_hi2 : Z; hid_hi : Z; hid_lo : Z;
}.

(** The format length computed by [CmdHIDdemodFSK]. *)
Definition HID_bitlen (hi2 hi lo : Z) : Z :=
  if negb (Z.land hi2 0x000FFFF =? 0) then bitlen_loop 32 (Z.land hi2 0x000FFFFF) 63
  else if 0 <? Z.shiftr hi 6 then bitlen_loop 32 hi 31
  else if Z.land (Z.shiftr hi 5) 1 =? 0 then 37
  else if 0 <? Z.land hi 0x0000001F then bitlen_loop 32 (Z.land hi 0x0000001F) 31
  else bitlen_loop 32 lo 0.

(** The messages of one successful round of [CmdHIDdemodFSK]. *)
Definition HID_report (hi2 hi lo : Z) : trace :=
  let bitlen := HID_bitlen hi2 hi lo in
  let '(fc, cardnum, decoded) :=
    if bitlen =? 26 then
      (Z.land (Z.shiftr lo 17) 0xFF, Z.land (Z.shiftr lo 1) 0xFFFF, true)
    else if bitlen =? 35 then
      (Z.lor (Z.shiftl (Z.land hi 1) 11) (Z.shiftr lo 21),
       Z.land (Z.shiftr lo 1) 0xFFFFF, true)
    else (0, 0, false) in
  [ if negb (hi2 =? 0)
    then Dbprintf "TAG ID: %x%08x%08x (%d)" [hi2; hi; lo; Z.land (Z.shiftr lo 1) 0xFFFF]
    else Dbprintf "TAG ID: %x%08x (%d)" [hi; lo; Z.land (Z.shiftr lo 1) 0xFFFF] ]
  ++ (if decoded
      then [ Dbprintf "Format Len: %dbits - FC: %d - Card: %d" [bitlen; fc; cardnum] ]
      else []).

Fixpoint CmdHIDdemodFSK_loop (findone ledcontrol : bool) (env : list (option HID_read))
  : run :=
  match env with
  | [] => ([], false)
  | None :: _ => ([], true)
  | Some r :: env' =>
      let acquire :=
        [ WDT_HIT ] ++ (if ledcontrol then [ LED_ON LED_A ] else [])
        ++ [ DoAcquisition_default (-1) true ] in
      if (0 <? hid_idx r) && (0 <? hid_lo r)
         && ((hid_size r =? 96) || (hid_size r =? 192))
      then
        let report := HID_report (hid_hi2 r) (hid_hi r) (hid_lo r) in
        if findone
        then (acquire ++ report ++ (if ledcontrol then [ LED_OFF LED_A ] else []), true)
        else prepend (acquire ++ report ++ [ WDT_HIT ])
                     (CmdHIDdemodFSK_loop findone ledcontrol env')
      else
        prepend (acquire ++ [ WDT_HIT ]) (CmdHIDdemodFSK_loop findone ledcontrol env')
  end.

(** [void CmdHIDdemodFSK(int findone, int *high2, int *high, int *low, int ledcontrol)] *)
Definition CmdHIDdemodFSK (findone ledcontrol : bool) (env : list (option HID_read))
  : run :=
  prepend [ LFSetupFPGAForADC 95 true; BigBuf_Clear_keep_EM ]
    (and_then (CmdHIDdemodFSK_loop findone ledcontrol env)
       ([ FpgaWriteConfWord FPGA_MAJOR_MODE_OFF; DbpString "Stopped" ]
        ++ (if ledcontrol then [ LED_OFF LED_A ] else []))).

(** One round of [CmdAWIDdemodFSK]: the result [idx] and the [size] of
    [AWIDdemodFSK], the three raw words, the size after [removeParity],
    the format length and the fields read from the demodulated bits. *)
Record AWID_read : Type := {
  awid_idx : Z; awid_size : Z;
  awid_rawLo : Z; awid_rawHi : Z; awid_rawHi2 : Z;
  awid_size_noparity : Z;
  awid_fmtLen : Z; awid_fc : Z; awid_cardnum : Z; awid_code1 : Z; awid_code2 : Z;
}.

Definition AWID_report (r : AWID_read) : trace :=
  let fmtLen := awid_fmtLen r in
  if fmtLen =? 26 then
    [ Dbprintf "AWID Found - BitLength: %d, FC: %d, Card: %d - Wiegand: %x, Raw: %08x%08x%08x"
        [fmtLen; awid_fc r; awid_cardnum r; awid_code1 r;
         awid_rawHi2 r; awid_rawHi r; awid_rawLo r] ]
  else if 32 <? fmtLen then
    [ Dbprintf "AWID Found - BitLength: %d -unknown BitLength- (%d) - Wiegand: %x%08x, Raw: %08x%08x%08x"
        [fmtLen; awid_cardnum r; awid_code1 r; awid_code2 r;
         awid_rawHi2 r; awid_rawHi r; awid_rawLo r] ]
  else
    [ Dbprintf "AWID Found - BitLength: %d -unknown BitLength- (%d) - Wiegand: %x, Raw: %08x%08x%08x"
        [fmtLen; awid_cardnum r; awid_code1 r;
         awid_rawHi2 r; awid_rawHi r; awid_rawLo r] ].

Fixpoint CmdAWIDdemodFSK_loop (findone ledcontrol : bool) (env : list (option AWID_read))
  : run :=
  match env with
  | [] => ([], false)
  | None :: _ => ([], true)
  | Some r :: env' =>
      let acquire :=
        [ WDT_HIT ] ++ (if ledcontrol then [ LED_ON LED_A ] else [])
        ++ [ DoAcquisition_default (-1) true ] in
      if (awid_idx r <=? 0) || negb (awid_size r =? 96)
      then prepend acquire (CmdAWIDdemodFSK_loop findone ledcontrol env')
      else if negb (awid_size_noparity r =? 66)
      then prepend acquire (CmdAWIDdemodFSK_loop findone ledcontrol env')
      else if findone
      then (acquire ++ AWID_report r ++ (if ledcontrol then [ LED_OFF LED_A ] else []), true)
      else prepend (acquire ++ AWID_report r ++ [ WDT_HIT ])
                   (CmdAWIDdemodFSK_loop findone ledcontrol env')
  end.

(** [void CmdAWIDdemodFSK(int findone, int *high, int *low, int ledcontrol)] *)
Definition CmdAWIDdemodFSK (findone ledcontrol : bool) (env : list (option AWID_read))
  : run :=
  prepend [ BigBuf_Clear_keep_EM; LFSetupFPGAForADC 95 true ]
    (and_then (CmdAWIDdemodFSK_loop findone ledcontrol env)
       ([ FpgaWriteConfWord FPGA_MAJOR_MODE_OFF; DbpString "Stopped" ]
        ++ (if ledcontrol then [ LED_OFF LED_A ] else []))).

(** One round of [CmdEM410xdemod]: the result of [askdemod], then the
    result and the out-parameters of [Em410xDecode]. *)
Record EM410x_read : Type := {
  em_ask_errCnt : Z; em_decode_errCnt : Z; em_size : Z; em_hi : Z; em_lo : Z;
}.

Definition EM410x_report (r : EM410x_read) : trace :=
  let lo := em_lo r in
  if 64 <? em_size r then
    [ Dbprintf "EM XL TAG ID: %06x%08x%08x - (%05d_%03d_%08d)"
        [em_hi r; uint32 (Z.shiftr lo 32); uint32 lo; uint32 (Z.land lo 0xFFFF);
         uint32 (Z.land (Z.shiftr lo 16) 0xFF); uint32 (Z.land lo 0xFFFFFF)] ]
  else
    [ Dbprintf "EM TAG ID: %02x%08x - (%05d_%03d_%08d)"
        [uint32 (Z.shiftr lo 32); uint32 lo; uint32 (Z.land lo 0xFFFF);
         uint32 (Z.land (Z.shiftr lo 16) 0xFF); uint32 (Z.land lo 0xFFFFFF)] ].

Fixpoint CmdEM410xdemod_loop (findone ledcontrol : bool) (env : list (option EM410x_read))
  : run :=
  match env with
  | [] => ([], false)
  | None :: _ => ([], true)
  | Some r :: env' =>
      let acquire :=
        [ WDT_HIT ] ++ (if ledcontrol then [ LED_ON LED_A ] else [])
        ++ [ DoAcquisition_default (-1) true; WDT_HIT ] in
      if em_ask_errCnt r <? 0
      then prepend acquire (CmdEM410xdemod_loop findone ledcontrol env')
      else if negb (em_decode_errCnt r =? 0)
      then
        if findone
        then (acquire ++ EM410x_report r
              ++ (if ledcontrol then [ LED_OFF LED_A ] else []), true)
        else prepend (acquire ++ EM410x_report r ++ [ WDT_HIT ])
                     (CmdEM410xdemod_loop findone ledcontrol env')
      else prepend (acquire ++ [ WDT_HIT ]) (CmdEM410xdemod_loop findone ledcontrol env')
  end.

(** [void CmdEM410xdemod(int findone, int *high, int *low, int ledcontrol)] *)
Definition CmdEM410xdemod (findone ledcontrol : bool) (env : list (option EM410x_read))
  : run :=
  prepend [ BigBuf_Clear_keep_EM; LFSetupFPGAForADC 95 true ]
    (and_then (CmdEM410xdemod_loop findone ledcontrol env)
       ([ FpgaWriteConfWord FPGA_MAJOR_MODE_OFF; DbpString "Stopped" ]
        ++ (if ledcontrol then [ LED_OFF LED_A ] else []))).

(** One round of [CmdIOdemodFSK]: the result of [IOdemodFSK], the 64
    demodulated bits from [idx] on, and the fields read from them. *)
Record IO_read : Type := {
  io_idx : Z; io_bits : list Z;
  io_code : Z; io_code2 : Z; io_version : Z; io_facilitycode : Z; io_number : Z;
}.

Definition IO_report (findone : bool) (r : IO_read) : trace :=
  let bit (k : nat) : Z := io_bits r !!! k in
  (if findone then
     map (fun row : nat =>
            Dbprintf "%d%d%d%d%d%d%d%d %d" (map (fun k => bit (9 * row + k)%nat) (seq 0 9)))
         (seq 0 6)
     ++ [ Dbprintf "%d%d%d%d%d%d%d%d %d%d" (map (fun k => bit (54 + k)%nat) (seq 0 10)) ]
   else [])
  ++ [ Dbprintf "XSF(%02d)%02x:%05d (%08x%08x)"
         [io_version r; io_facilitycode r; io_number r; io_code r; io_code2 r] ].

Fixpoint CmdIOdemodFSK_loop (findone ledcontrol : bool) (env : list (option IO_read))
  : run :=
  match env with
  | [] => ([], false)
  | None :: _ => ([], true)
  | Some r :: env' =>
      let acquire :=
        [ WDT_HIT ] ++ (if ledcontrol then [ LED_ON LED_A ] else [])
        ++ [ DoAcquisition_default (-1) true; WDT_HIT ] in
      if io_idx r <? 0
      then prepend acquire (CmdIOdemodFSK_loop findone ledcontrol env')
      else if findone
      then (acquire ++ IO_report findone r
            ++ (if ledcontrol then [ LED_OFF LED_A ] else []), true)
      else prepend (acquire ++ IO_report findone r ++ [ WDT_HIT ])
                   (CmdIOdemodFSK_loop findone ledcontrol env')
  end.

(** [void CmdIOdemodFSK(int findone, int *high, int *low, int ledcontrol)] *)
Definition CmdIOdemodFSK (findone ledcontrol : bool) (env : list (option IO_read))
  : run :=
  prepend [ BigBuf_Clear_keep_EM; LFSetupFPGAForADC 95 true ]
    (and_then (CmdIOdemodFSK_loop findone ledcontrol env)
       ([ FpgaWriteConfWord FPGA_MAJOR_MODE_OFF; DbpString "Stopped" ]
        ++ (if ledcontrol then [ LED_OFF LED_A ] else []))).

(* ================================================================= *)
(** ** Texas Instruments tags *)

(** [void WriteTIbyte(uint8_t b)]: eight bits, least significant first. *)
Definition WriteTIbyte (b : Z) : trace :=
  flat_map (fun i : nat =>
              if negb (Z.land b (Z.shiftl 1 (Z.of_nat i)) =? 0)
              then [ LOW_SSC_DOUT; SpinDelayUs 1000; HIGH_SSC_DOUT; SpinDelayUs 1000 ]
              else [ LOW_SSC_DOUT; SpinDelayUs 300; HIGH_SSC_DOUT; SpinDelayUs 1700 ])
           (seq 0 8).

Definition TIBUFLEN : Z := 1250.

(** The receive loop of [AcquireTiType]: [rxrdy] lists the successive
    values of [SSC_SR & RXRDY]; the loop ends when [TIBUFLEN] words have
    been stored and is still running when the list is used up. *)
Fixpoint AcquireTiType_loop (rxrdy : list bool) (i : Z) : run :=
  match rxrdy with
  | [] => ([], false)
  | ready :: rxrdy' =>
      if ready then
        if TIBUFLEN <=? i + 1 then ([], true)
        else prepend [ WDT_HIT ] (AcquireTiType_loop rxrdy' (i + 1))
      else prepend [ WDT_HIT ] (AcquireTiType_loop rxrdy' i)
  end.

(** [void AcquireTiType(void)].  The set-up of the serial port and the
    unpacking of the received words into the sample buffer leave no
    event. *)
Definition AcquireTiType (rxrdy : list bool) : run :=
  prepend [ BigBuf_Clear_ext false; LED_ON LED_D; HIGH_SSC_DOUT; SpinDelay 50;
            LOW_SSC_DOUT; LED_OFF LED_D ]
    (AcquireTiType_loop rxrdy 0).

Section TI.
(** [uint16_t update_crc16(uint16_t crc, unsigned char c)] of [crc16.c]. *)
Variable update_crc16 : Z -> Z -> Z.

(** The CRC over the eight ID bytes, low word first, as both TI routines
    compute it. *)
Definition TI_crc (crc lo hi : Z) : Z :=
  let crc := update_crc16 crc (Z.land lo 0xff) in
  let crc := update_crc16 crc (Z.land (Z.shiftr lo 8) 0xff) in
  let crc := update_crc16 crc (Z.land (Z.shiftr lo 16) 0xff) in
  let crc := update_crc16 crc (Z.land (Z.shiftr lo 24) 0xff) in
  let crc := update_crc16 crc (Z.land hi 0xff) in
  let crc := update_crc16 crc (Z.land (Z.shiftr hi 8) 0xff) in
  let crc := update_crc16 crc (Z.land (Z.shiftr hi 16) 0xff) in
  update_crc16 crc (Z.land (Z.shiftr hi 24) 0xff).

(** [void WriteTItag(uint32_t idhi, uint32_t idlo, uint16_t crc)] *)
Definition WriteTItag (idhi idlo crc : Z) (rxrdy : list bool) : run :=
  let crc := if crc =? 0 then TI_crc crc idlo idhi else crc in
  prepend
    ([ FpgaDownloadAndGo;
       Dbprintf "Writing to tag: %x%08x, crc=%x" [idhi; idlo; crc];
       FpgaSendCommand_SET_DIVISOR 88;
       FpgaWriteConfWord FPGA_MAJOR_MODE_LF_PASSTHRU;
       LED_ON LED_A;
       HIGH_SSC_DOUT; SpinDelay 50 ]
     ++ WriteTIbyte 0xbb
     ++ WriteTIbyte 0xeb
     ++ WriteTIbyte (Z.land idlo 0xff)
     ++ WriteTIbyte (Z.land (Z.shiftr idlo 8) 0xff)
     ++ WriteTIbyte (Z.land (Z.shiftr idlo 16) 0xff)
     ++ WriteTIbyte (Z.land (Z.shiftr idlo 24) 0xff)
     ++ WriteTIbyte (Z.land idhi 0xff)
     ++ WriteTIbyte (Z.land (Z.shiftr idhi 8) 0xff)
     ++ WriteTIbyte (Z.land (Z.shiftr idhi 16) 0xff)
     ++ WriteTIbyte (Z.land (Z.shiftr idhi 24) 0xff)
     ++ WriteTIbyte (Z.land crc 0xff)
     ++ WriteTIbyte (Z.land (Z.shiftr crc 8) 0xff)
     ++ WriteTIbyte 0x00
     ++ WriteTIbyte 0x03
     ++ [ HIGH_SSC_DOUT; SpinDelay 50; LED_OFF LED_A ])
    (and_then (AcquireTiType rxrdy)
       [ FpgaWriteConfWord FPGA_MAJOR_MODE_OFF;
         DbpString "Now use `lf ti read` to check" ]).

(** The demodulator state of [ReadTItag]: the 128-bit shift register and
    the counters. *)
Record TI_demod : Type := {
  shift3 : Z; shift2 : Z; shift1 : Z; shift0 : Z;
  cycles : Z; samples : Z;
}.

Definition TI_sampleslo : Z := Z.shiftl 2000000 4 / 123200.
Definition TI_sampleshi : Z := Z.shiftl 2000000 4 / 134200.
Definition TI_threshold : Z := Z.shiftr (TI_sampleslo - TI_sampleshi + 1) 1.

(** The body of the scanning loop of [ReadTItag] at index [i]; the
    boolean tells whether the loop is left by [break]. *)
Definition ReadTItag_step (dest : list Z) (i : nat) (st : TI_demod) : TI_demod * bool :=
  if (dest !!! i <? 0) && (0 <? dest !!! S i) then
    let cycles := cycles st + 1 in
    if 15 <? cycles then
      let samples := Z.of_nat i - samples st in
      let shift0 := Z.lor (Z.shiftr (shift0 st) 1) (uint32 (Z.shiftl (shift1 st) 31)) in
      let shift1 := Z.lor (Z.shiftr (shift1 st) 1) (uint32 (Z.shiftl (shift2 st) 31)) in
      let shift2 := Z.lor (Z.shiftr (shift2 st) 1) (uint32 (Z.shiftl (shift3 st) 31)) in
      let shift3 := Z.shiftr (shift3 st) 1 in
      let '(shift3, shift2, shift1, shift0) :=
        if (TI_sampleslo - TI_threshold <? samples)
           && (samples <? TI_sampleslo + TI_threshold)
        then (Z.lor shift3 (Z.shiftl 1 31), shift2, shift1, shift0)
        else if (TI_sampleshi - TI_threshold <? samples)
                && (samples <? TI_sampleshi + TI_threshold)
        then (shift3, shift2, shift1, shift0)
        else (0, 0, 0, 0) in
      let st' := {| shift3 := shift3; shift2 := shift2; shift1 := shift1;
                    shift0 := shift0; cycles := 0; samples := Z.of_nat i |} in
      if (Z.land shift0 0x7fffff =? 0x7e0000)
         && (Z.land (Z.shiftr shift0 16) 0xff =? Z.land (Z.shiftr shift3 8) 0xff)
      then ({| shift3 := shift3; shift2 := shift2; shift1 := shift1;
               shift0 := shift0; cycles := 0xF0B; samples := Z.of_nat i |}, true)
      else (st', false)
    else ({| shift3 := shift3 st; shift2 := shift2 st; shift1 := shift1 st;
             shift0 := shift0 st; cycles := cycles; samples := samples st |}, false)
  else (st, false).

(** [for (i = 0; i < n-1; i++)], entered at [i] with [k] indices left. *)
Fixpoint ReadTItag_scan (dest : list Z) (k : nat) (i : nat) (st : TI_demod) : TI_demod :=
  match k with
  | O => st
  | S k' =>
      let '(st', stop) := ReadTItag_step dest i st in
      if stop then st' else ReadTItag_scan dest k' (S i) st'
  end.

(** The messages of [ReadTItag] once the scan is over. *)
Definition ReadTItag_report (st : TI_demod) : trace :=
  if negb (cycles st =? 0xF0B) then [ DbpString "Info: No valid tag detected." ]
  else
    let shift0 := Z.lor (Z.shiftr (shift0 st) 24) (uint32 (Z.shiftl (shift1 st) 8)) in
    let shift1 := Z.lor (Z.shiftr (shift1 st) 24) (uint32 (Z.shiftl (shift2 st) 8)) in
    let shift2 :=
      Z.land (Z.lor (Z.shiftr (shift2 st) 24) (uint32 (Z.shiftl (shift3 st) 8))) 0x0ffff in
    let crc := TI_crc 0 shift0 shift1 in
    (if negb (Z.land (shift3 st) (Z.shiftl 1 15) =? 0) then
       [ DbpString "Info: TI tag is rewriteable";
         if negb (Z.land (Z.lxor (Z.shiftr (shift3 st) 16) shift0) 0x7fff =? 0)
         then DbpString "Error: Ident mismatch!"
         else DbpString "Info: TI tag ident is valid" ]
     else [ DbpString "Info: TI tag is readonly" ])
    ++ [ Dbprintf "Info: Tag data: %x%08x, crc=%x" [shift1; shift0; Z.land shift2 0xFFFF];
         if negb (crc =? Z.land shift2 0xffff)
         then Dbprintf "Error: CRC mismatch, expected %x" [crc]
         else DbpString "Info: CRC is good" ].

(** [void ReadTItag(void)].  [dest] is the sample buffer as
    [AcquireTiType] leaves it (signed bytes) and [n] is
    [BigBuf_max_traceLen()] as a [uint16_t]. *)
Definition ReadTItag (dest : list Z) (n : Z) (rxrdy : list bool) : run :=
  prepend
    [ FpgaDownloadAndGo; FpgaSendCommand_SET_DIVISOR 88;
      FpgaWriteConfWord FPGA_MAJOR_MODE_LF_PASSTHRU ]
    (and_then (AcquireTiType rxrdy)
       ([ FpgaWriteConfWord FPGA_MAJOR_MODE_OFF ]
        ++ ReadTItag_report
             (ReadTItag_scan dest (Z.to_nat (n - 1)) 0
                {| shift3 := 0; shift2 := 0; shift1 := 0; shift0 := 0;
                   cycles := 0; samples := 0 |}))).
End TI.

(* ================================================================= *)
(** ** The operations of the module *)

(** The entry points of [lfops.c], each with its arguments and with what
    it reads from the outside world.  The building blocks that only run
    as a step of an operation ([TurnReadLFOn], [T55xxWriteBit],
    [WriteTIbyte], [AcquireTiType], the waveform composers, the
    [Prepare_*] frame builders, [SendForward] and [EM4xLogin]) are not
    operations of their own. *)
Inductive operation : Type :=
  | Op_ModThenAcquireRawAdcSamples125k (divisor delay_off period_0 period_1 : Z)
                                       (command : list Z)
  | Op_ReadTItag (dest : list Z) (n : Z) (rxrdy : list bool)
  | Op_WriteTItag (idhi idlo crc : Z) (rxrdy : list bool)
  | Op_SimulateTagLowFrequency (tab : list Z) (period gap : Z) (ledcontrol : bool)
                               (env : sim_env)
  | Op_SimulateTagLowFrequencyBidir (divisor t0 : Z)
  | Op_CmdHIDsimTAG (hi2 hi lo ledcontrol : Z) (dest : list Z) (env : sim_env)
  | Op_CmdFSKsimTAG (arg1 arg2 : Z) (BitStream dest : list Z) (env : sim_env)
  | Op_CmdASKsimTag (arg1 arg2 : Z) (BitStream dest : list Z) (env : sim_env)
  | Op_CmdPSKsimTag (arg1 arg2 : Z) (BitStream dest : list Z) (env : sim_env)
  | Op_CmdHIDdemodFSK (findone ledcontrol : bool) (env : list (option HID_read))
  | Op_CmdAWIDdemodFSK (findone ledcontrol : bool) (env : list (option AWID_read))
  | Op_CmdEM410xdemod (findone ledcontrol : bool) (env : list (option EM410x_read))
  | Op_CmdIOdemodFSK (findone ledcontrol : bool) (env : list (option IO_read))
  | Op_T55xxResetRead (max_traceLen : Z)
  | Op_T55xxWriteBlockExt (Data Block Pwd arg : Z)
  | Op_T55xxWriteBlock (Data Block Pwd arg : Z)
  | Op_T55xxReadBlock (arg0 Block Pwd : Z)
  | Op_T55xxWakeUp (Pwd : Z)
  | Op_WriteT55xx (blockdata : list Z) (startblock numblocks : Z)
  | Op_CopyHIDtoT55x7 (hi2 hi lo longFMT preamble : Z)
  | Op_CopyIOtoT55x7 (hi lo : Z)
  | Op_CopyIndala64toT55x7 (hi lo : Z)
  | Op_CopyIndala224toT55x7 (uid1 uid2 uid3 uid4 uid5 uid6 uid7 : Z)
  | Op_CopyVikingtoT55xx (block1 block2 Q5 : Z)
  | Op_WriteEM410x (card id_hi id_lo : Z)
  | Op_EM4xReadWord (Address Pwd PwdMode : Z) (s : fwd_state)
  | Op_EM4xWriteWord (flag Data Pwd : Z) (s : fwd_state)
  | Op_EM4xProtect (flag Data Pwd : Z) (s : fwd_state)
  | Op_Cotag (arg0 : Z).

(** An operation without a waiting loop always returns. *)
Definition returns (t : trace) : run := (t, true).

(** The trace of an operation and whether it returned. *)
Definition perform (P : protocols_h) (update_crc16 : Z -> Z -> Z) (op : operation) : run :=
  match op with
  | Op_ModThenAcquireRawAdcSamples125k divisor delay_off period_0 period_1 command =>
      returns (ModThenAcquireRawAdcSamples125k divisor delay_off period_0 period_1 command)
  | Op_ReadTItag dest n rxrdy => ReadTItag update_crc16 dest n rxrdy
  | Op_WriteTItag idhi idlo crc rxrdy => WriteTItag update_crc16 idhi idlo crc rxrdy
  | Op_SimulateTagLowFrequency tab period gap ledcontrol env =>
      SimulateTagLowFrequency tab period gap ledcontrol env
  | Op_SimulateTagLowFrequencyBidir divisor t0 =>
      returns (SimulateTagLowFrequencyBidir divisor t0)
  | Op_CmdHIDsimTAG hi2 hi lo ledcontrol dest env =>
      CmdHIDsimTAG hi2 hi lo ledcontrol dest env
  | Op_CmdFSKsimTAG arg1 arg2 BitStream dest env => CmdFSKsimTAG arg1 arg2 BitStream dest env
  | Op_CmdASKsimTag arg1 arg2 BitStream dest env => CmdASKsimTag arg1 arg2 BitStream dest env
  | Op_CmdPSKsimTag arg1 arg2 BitStream dest env => CmdPSKsimTag arg1 arg2 BitStream dest env
  | Op_CmdHIDdemodFSK findone ledcontrol env => CmdHIDdemodFSK findone ledcontrol env
  | Op_CmdAWIDdemodFSK findone ledcontrol env => CmdAWIDdemodFSK findone ledcontrol env
  | Op_CmdEM410xdemod findone ledcontrol env => CmdEM410xdemod findone ledcontrol env
  | Op_CmdIOdemodFSK findone ledcontrol env => CmdIOdemodFSK findone ledcontrol env
  | Op_T55xxResetRead max_traceLen => returns (T55xxResetRead max_traceLen)
  | Op_T55xxWriteBlockExt Data Block Pwd arg => returns (T55xxWriteBlockExt Data Block Pwd arg)
  | Op_T55xxWriteBlock Data Block Pwd arg => returns (T55xxWriteBlock Data Block Pwd arg)
  | Op_T55xxReadBlock arg0 Block Pwd => returns (T55xxReadBlock arg0 Block Pwd)
  | Op_T55xxWakeUp Pwd => returns (T55xxWakeUp Pwd)
  | Op_WriteT55xx blockdata startblock numblocks =>
      returns (WriteT55xx blockdata startblock numblocks)
  | Op_CopyHIDtoT55x7 hi2 hi lo longFMT preamble =>
      returns (CopyHIDtoT55x7 P hi2 hi lo longFMT preamble)
  | Op_CopyIOtoT55x7 hi lo => returns (CopyIOtoT55x7 P hi lo)
  | Op_CopyIndala64toT55x7 hi lo => returns (CopyIndala64toT55x7 P hi lo)
  | Op_CopyIndala224toT55x7 uid1 uid2 uid3 uid4 uid5 uid6 uid7 =>
      returns (CopyIndala224toT55x7 P uid1 uid2 uid3 uid4 uid5 uid6 uid7)
  | Op_CopyVikingtoT55xx block1 block2 Q5 => returns (CopyVikingtoT55xx P block1 block2 Q5)
  | Op_WriteEM410x card id_hi id_lo => returns (WriteEM410x P card id_hi id_lo)
  | Op_EM4xReadWord Address Pwd PwdMode s => returns (EM4xReadWord Address Pwd PwdMode s).1
  | Op_EM4xWriteWord flag Data Pwd s => returns (EM4xWriteWord flag Data Pwd s).1
  | Op_EM4xProtect flag Data Pwd s => returns (EM4xProtect flag Data Pwd s).1
  | Op_Cotag arg0 => returns (Cotag arg0)
  end.

(** A trace after which the FPGA is off, whatever the state before. *)
Definition forces_off (t : trace) : Prop :=
  forall a : antenna, fpga_mode (antenna_after a t) = FPGA_MAJOR_MODE_OFF.

(** A trace that leaves the FPGA off when it was off before. *)
Definition keeps_off (t : trace) : Prop :=
  forall a : antenna,
    fpga_mode a = FPGA_MAJOR_MODE_OFF ->
    fpga_mode (antenna_after a t) = FPGA_MAJOR_MODE_OFF.

(* ================================================================= *)
(** ** The EM4x05 forward link on the air *)

(** What [SendForward] does for one prepared bit after the start pulse: a
    one keeps the field on for 32 carrier periods, a zero is a gap of 23
    periods followed by 18 periods of field. *)
Definition EM4x_symbol (bit : bool) : trace :=
  if bit then [ WaitUS (32 * 8) ]
  else [ FpgaWriteConfWord FPGA_MAJOR_MODE_OFF; WaitUS (23 * 8);
         FpgaWriteConfWord (FPGA_MAJOR_MODE_LF_ADC true); WaitUS (18 * 8) ].

(** The set-up and start pulse of [SendForward] followed by the symbols of
    [bits]. *)
Definition EM4x_frame (bits : list bool) : trace :=
  [ LFSetupFPGAForADC 95 true;
    FpgaWriteConfWord FPGA_MAJOR_MODE_OFF; WaitUS (55 * 8);
    FpgaWriteConfWord (FPGA_MAJOR_MODE_LF_ADC true); WaitUS (18 * 8) ]
  ++ flat_map EM4x_symbol bits.

(** The four bits of a command code, least significant first. *)
Definition EM4x_cmd_bits (cmd : Z) : list bool :=
  map (fun i : nat => Z.testbit cmd (Z.of_nat i)) (seq 0 4).

(** Six address bits, least significant first, and their XOR. *)
Definition EM4x_addr_bits (addr : Z) : list bool :=
  let bs := map (fun i : nat => Z.testbit addr (Z.of_nat i)) (seq 0 6) in
  bs ++ [ xor_all bs ].

(** The data sub-frame of a 32-bit word. *)
Definition EM4x_data_bits (Data : Z) : list bool :=
  data_frame_spec (fun k => Z.testbit Data (Z.of_nat k)).

(** The login exchange: the frame and the wait that follows it. *)
Definition EM4x_login_trace (Pwd : Z) : trace :=
  EM4x_frame ([false] ++ EM4x_cmd_bits FWD_CMD_LOGIN ++ EM4x_data_bits Pwd ++ [false])
  ++ [ SpinDelay 20 ].

(* ================================================================= *)
(** ** The EM410x pattern, bit by bit *)

(** Bit [39 - i] of the 40-bit ID [id_hi[7:0] : id_lo[31:0]]: the ID bits
    in the order most significant first. *)
Definition EM410x_id_bit (id_hi id_lo : Z) (i : nat) : bool :=
  if (i <? 8)%nat then Z.testbit id_hi (Z.of_nat (7 - i))
  else Z.testbit id_lo (Z.of_nat (39 - i)).

(** The 64 bits of an EM410x tag for the ID bits [bit 0 .. bit 39]: nine
    ones, ten rows of four ID bits each followed by the XOR of the row,
    four column bits, each the XOR of one column of the ten rows, and a
    zero. *)
Definition EM410x_pattern (bit : nat -> bool) : list bool :=
  replicate 9 true
  ++ flat_map (fun r : nat =>
                 map (fun k : nat => bit (4 * r + k)%nat) (seq 0 4)
                 ++ [ xor_all (map (fun k : nat => bit (4 * r + k)%nat) (seq 0 4)) ])
              (seq 0 10)
  ++ map (fun k : nat => xor_all (map (fun r : nat => bit (4 * r + k)%nat) (seq 0 10)))
         (seq 0 4)
  ++ [ false ].

(** One step of the reversing loop on the word that is being consumed. *)
Definition EM410x_shift_in (st : Z * Z) : Z * Z :=
  (uint64 (Z.lor (Z.shiftl st.1 1) (Z.land st.2 1)), Z.shiftr st.2 1).

(** The second loop of [WriteEM410x] on lists of bits: the pattern built
    so far (most significant first), the row parity and the column
    parities. *)
Definition EM410x_frame_step_bits (bit : nat -> bool)
    (st : list bool * bool * list bool) (i : nat) : list bool * bool * list bool :=
  let '(bs, rp, cp) := st in
  let b := bit i in
  let '(bs, rp) :=
    if (i mod 4 =? 0)%nat
    then ((if (i =? 0)%nat then bs else bs ++ [rp]), b)
    else (bs, xorb rp b) in
  let cp :=
    if (i <? 4)%nat
    then <[ i := b ]> cp
    else <[ (i mod 4)%nat := xorb (nth (i mod 4) cp false) b ]> cp in
  (bs ++ [b], rp, cp).

(* ================================================================= *)
(** ** Playing a waveform *)

(** What [SimulateTagLowFrequency] does with one sample at a rising clock
    edge: the coil is opened for a non-zero sample and shorted for a
    zero, between the LED events when they are enabled. *)
Definition play_sample (ledcontrol : bool) (v : Z) : trace :=
  (if ledcontrol then [ LED_ON LED_D ] else [])
  ++ [ if negb (v =? 0) then OPEN_COIL else SHORT_COIL ]
  ++ (if ledcontrol then [ LED_OFF LED_D ] else []).

(* ================================================================= *)
(** ** Busy waits of the TI routines *)

(** The timed segments of a trace whose waits are [SpinDelayUs]: the
    state of the field during each wait and its duration. *)
Fixpoint spin_timeline (a : antenna) (t : trace) : list (bool * Z) :=
  match t with
  | [] => []
  | SpinDelayUs d :: t' => (reader_field a, d) :: spin_timeline a t'
  | e :: t' => spin_timeline (antenna_step a e) t'
  end.

(* ================================================================= *)
(** ** What ends a demodulation loop *)

(** The rounds in which the four decoders report a tag. *)
Definition HID_found (r : HID_read) : bool :=
  (0 <? hid_idx r) && (0 <? hid_lo r) && ((hid_size r =? 96) || (hid_size r =? 192)).
Definition AWID_found (r : AWID_read) : bool :=
  (0 <? awid_idx r) && (awid_size r =? 96) && (awid_size_noparity r =? 66).
Definition EM410x_found (r : EM410x_read) : bool :=
  (0 <=? em_ask_errCnt r) && negb (em_decode_errCnt r =? 0).
Definition IO_found (r : IO_read) : bool := 0 <=? io_idx r.

(** Whether a round ends the loop: cancellation always does, a report
    only when a single tag is looked for. *)
Definition ends_loop {A} (findone : bool) (found : A -> bool) (round : option A) : bool :=
  match round with
  | None => true
  | Some r => findone && found r
  end.

(* ================================================================= *)
(** * Properties *)

(** ** The reader field along a trace *)

Lemma antenna_after_app (a : antenna) (t1 t2 : trace) :
  antenna_after a (t1 ++ t2) = antenna_after (antenna_after a t1) t2.
Proof. unfold antenna_after. apply fold_left_app. Qed.

Lemma field_timeline_app (a : antenna) (t1 t2 : trace) :
  field_timeline a (t1 ++ t2)
  = field_timeline a t1 ++ field_timeline (antenna_after a t1) t2.
Proof.
  revert a. induction t1 as [|e t1 IH]; intros a; [reflexivity|].
  destruct e; cbn [app field_timeline]; rewrite IH; reflexivity.
Qed.

(** Events that do not write the FPGA mode leave it as it is. *)
Lemma fpga_mode_untouched (a : antenna) (t : trace) :
  forallb (fun e => negb (touches_field e)) t = true ->
  fpga_mode (antenna_after a t) = fpga_mode a.
Proof.
  revert a. induction t as [|e t IH]; intros a H; [reflexivity|].
  cbn in H. apply andb_prop in H as [He Ht].
  change (antenna_after a (e :: t)) with (antenna_after (antenna_step a e) t).
  rewrite IH by assumption. destruct e; try reflexivity; discriminate.
Qed.

(** A trace whose last write of the FPGA mode is [FPGA_MAJOR_MODE_OFF]
    leaves the FPGA off. *)
Lemma fpga_mode_ends_off (a : antenna) (t1 t2 : trace) :
  forallb (fun e => negb (touches_field e)) t2 = true ->
  fpga_mode (antenna_after a (t1 ++ FpgaWriteConfWord FPGA_MAJOR_MODE_OFF :: t2))
  = FPGA_MAJOR_MODE_OFF.
Proof.
  intros H. rewrite antenna_after_app.
  change (antenna_after ?o (?e :: t2)) with (antenna_after (antenna_step o e) t2).
  rewrite fpga_mode_untouched by assumption. reflexivity.
Qed.

Lemma fpga_off_field_off (a : antenna) :
  fpga_mode a = FPGA_MAJOR_MODE_OFF -> reader_field a = false.
Proof. unfold reader_field. intros ->. reflexivity. Qed.

(** ** T55xx bit primitive *)

Lemma T55xxWriteBit_trace (bit : Z) :
  T55xxWriteBit bit =
  [ FpgaWriteConfWord (FPGA_MAJOR_MODE_LF_ADC true);
    WaitUS (if bit =? 0 then WRITE_0 else WRITE_1);
    FpgaWriteConfWord FPGA_MAJOR_MODE_OFF; WaitUS WRITE_GAP ].
Proof. unfold T55xxWriteBit, TurnReadLFOn. destruct (bit =? 0); reflexivity. Qed.

Lemma T55xxWriteBit_antenna_after (a : antenna) (bit : Z) :
  antenna_after a (T55xxWriteBit bit)
  = {| fpga_mode := FPGA_MAJOR_MODE_OFF; ssc_dout := ssc_dout a |}.
Proof. rewrite T55xxWriteBit_trace. reflexivity. Qed.

(** C1 (as amended).  For every bit [v] the primitive holds the field ON
    for a duration selected by [v] ([WRITE_0] = 144 us for a zero,
    [WRITE_1] = 400 us for anything else) and then OFF for the fixed write
    gap of 160 us: the bit value is carried by the field-on duration only,
    whatever the state of the field before. *)
Theorem T55xxWriteBit_on_duration_encodes_bit (v : Z) (a : antenna) :
  field_timeline a (T55xxWriteBit v)
  = [ (true, if v =? 0 then WRITE_0 else WRITE_1); (false, WRITE_GAP) ]
  /\ WRITE_0 = 144 /\ WRITE_1 = 400 /\ WRITE_GAP = 160.
Proof.
  split; [|repeat split].
  rewrite T55xxWriteBit_trace. reflexivity.
Qed.

(** C1 as stated fails: sending a 1 does not start with a field-off
    period followed by a field-on gap; sending a 0 and sending a 1 keep
    the field off for the same time, and on for different times. *)
Lemma T55xxWriteBit_off_duration_is_fixed :
  (~ exists long gap : Z,
       field_timeline idle (T55xxWriteBit 1) = [ (false, long); (true, gap) ])
  /\ off_time (field_timeline idle (T55xxWriteBit 0))
     = off_time (field_timeline idle (T55xxWriteBit 1))
  /\ on_time (field_timeline idle (T55xxWriteBit 0))
     <> on_time (field_timeline idle (T55xxWriteBit 1)).
Proof.
  split; [|split].
  - intros (long & gap & H). discriminate H.
  - reflexivity.
  - discriminate.
Qed.

(** ** Decoding the T55xx downlink *)

Lemma add_bits_cons (bs s : list bool) (segs : list (list bool)) :
  add_bits bs (s :: segs) = (bs ++ s) :: segs.
Proof.
  unfold add_bits. induction bs as [|b bs IH]; [reflexivity|].
  cbn [foldr app]. rewrite IH. reflexivity.
Qed.

Lemma add_bits_app (bs1 bs2 : list bool) (segs : list (list bool)) :
  add_bits (bs1 ++ bs2) segs = add_bits bs1 (add_bits bs2 segs).
Proof. unfold add_bits. apply foldr_app. Qed.

Lemma T55xx_segments_WriteBit (bit : Z) (t : trace) :
  T55xx_segments (T55xxWriteBit bit ++ t)
  = add_bit (negb (bit =? 0)) (T55xx_segments t).
Proof. rewrite T55xxWriteBit_trace. destruct (bit =? 0); reflexivity. Qed.

Lemma T55xx_segments_WriteBits {A} (f : A -> Z) (l : list A) (t : trace) :
  T55xx_segments (flat_map (fun i => T55xxWriteBit (f i)) l ++ t)
  = add_bits (map (fun i => negb (f i =? 0)) l) (T55xx_segments t).
Proof.
  induction l as [|a l IH]; [reflexivity|].
  cbn [flat_map map]. rewrite <- app_assoc, T55xx_segments_WriteBit, IH.
  reflexivity.
Qed.

(** The mask loop started at [2^k] sends the masked bits [k .. 0], provided
    the fuel exceeds [k]. *)
Lemma T55xx_mask_loop_pow2 (k fuel : nat) (x : Z) :
  (k < fuel)%nat ->
  T55xx_mask_loop fuel (2 ^ Z.of_nat k) x
  = flat_map (fun i => T55xxWriteBit (Z.land x (2 ^ Z.of_nat i))) (rev (seq 0 (S k))).
Proof.
  revert fuel. induction k as [|k IH]; intros fuel Hk.
  - destruct fuel as [|fuel]; [lia|]. cbn [T55xx_mask_loop].
    change (2 ^ Z.of_nat 0 =? 0) with false. cbn [rev seq app flat_map].
    replace (Z.shiftr (2 ^ Z.of_nat 0) 1) with 0 by reflexivity.
    destruct fuel; reflexivity.
  - destruct fuel as [|fuel]; [lia|]. cbn [T55xx_mask_loop].
    assert (Hpos : 0 < 2 ^ Z.of_nat (S k)) by (apply Z.pow_pos_nonneg; lia).
    destruct (Z.eqb_spec (2 ^ Z.of_nat (S k)) 0) as [E|_]; [lia|].
    replace (Z.shiftr (2 ^ Z.of_nat (S k)) 1) with (2 ^ Z.of_nat k).
    2:{ rewrite Z.shiftr_div_pow2 by lia. rewrite Nat2Z.inj_succ, Z.pow_succ_r by lia.
        change (2 ^ 1) with 2. rewrite Z.mul_comm, Z.div_mul by lia. reflexivity. }
    rewrite IH by lia.
    rewrite (seq_S (S k)), rev_app_distr. reflexivity.
Qed.

Lemma land_pow2 (x : Z) (i : nat) :
  Z.land x (2 ^ Z.of_nat i) = if Z.testbit x (Z.of_nat i) then 2 ^ Z.of_nat i else 0.
Proof.
  apply Z.bits_inj'. intros n Hn. rewrite Z.land_spec, Z.pow2_bits_eqb by lia.
  destruct (Z.testbit x (Z.of_nat i)) eqn:Hb;
    [rewrite Z.pow2_bits_eqb by lia | rewrite Z.bits_0];
    destruct (Z.eqb_spec (Z.of_nat i) n) as [<-|Hne];
    rewrite ?Hb, ?andb_false_r; reflexivity.
Qed.

Lemma land_pow2_testbit (x : Z) (i : nat) :
  negb (Z.land x (2 ^ Z.of_nat i) =? 0) = Z.testbit x (Z.of_nat i).
Proof.
  rewrite land_pow2. destruct (Z.testbit x (Z.of_nat i)); [|reflexivity].
  assert (0 < 2 ^ Z.of_nat i) by (apply Z.pow_pos_nonneg; lia).
  destruct (Z.eqb_spec (2 ^ Z.of_nat i) 0); [lia|reflexivity].
Qed.

Lemma T55xx_segments_mask_loop (k fuel : nat) (x : Z) (t : trace) :
  (k < fuel)%nat ->
  T55xx_segments (T55xx_mask_loop fuel (2 ^ Z.of_nat k) x ++ t)
  = add_bits (bits_msb (S k) x) (T55xx_segments t).
Proof.
  intros Hk. rewrite T55xx_mask_loop_pow2 by assumption.
  rewrite T55xx_segments_WriteBits. f_equal.
  unfold bits_msb. apply map_ext. intros i. apply land_pow2_testbit.
Qed.

Lemma T55xx_segments_send_password (x : Z) (t : trace) :
  T55xx_segments (T55xx_send_masked 0x80000000 x ++ t)
  = add_bits (bits_msb 32 x) (T55xx_segments t).
Proof. apply (T55xx_segments_mask_loop 31 32). lia. Qed.

Lemma T55xx_segments_send_block (x : Z) (t : trace) :
  T55xx_segments (T55xx_send_masked 0x04 x ++ t)
  = add_bits (bits_msb 3 x) (T55xx_segments t).
Proof. apply (T55xx_segments_mask_loop 2 32). lia. Qed.

(** More fuel does not change the loop: 32 iterations exhaust any mask
    below [2^32]. *)
Lemma T55xx_mask_loop_fuel (k fuel fuel' : nat) (x : Z) :
  (k < fuel)%nat -> (k < fuel')%nat ->
  T55xx_mask_loop fuel (2 ^ Z.of_nat k) x = T55xx_mask_loop fuel' (2 ^ Z.of_nat k) x.
Proof. intros H H'. rewrite !T55xx_mask_loop_pow2 by assumption. reflexivity. Qed.

(** ** T55xx frames *)

Lemma T55xx_segments_start_gap (t : trace) :
  T55xx_segments (FpgaWriteConfWord FPGA_MAJOR_MODE_OFF :: WaitUS START_GAP :: t)
  = [] :: T55xx_segments t.
Proof. reflexivity. Qed.

Lemma T55xx_segments_WriteBlockExt (Data Block : Z) (t : trace) :
  T55xx_segments (T55xxWriteBlockExt Data Block 0 0 ++ t)
  = [] :: add_bits (write_frame Data Block) (T55xx_segments t).
Proof.
  unfold T55xxWriteBlockExt. cbv zeta.
  change (Z.land 0 1 =? 0) with true. change (Z.land 0 4 =? 0) with true.
  change (Z.shiftr (Z.land 0 2) 1) with 0.
  cbn [negb app]. rewrite <- !app_assoc. cbn [app T55xx_segments].
  rewrite Z.eqb_refl.
  rewrite !T55xx_segments_WriteBit.
  rewrite T55xx_segments_send_password, T55xx_segments_send_block.
  unfold write_frame. rewrite !add_bits_app. reflexivity.
Qed.

Lemma T55xx_segments_WriteT55xx_calls (calls : list (Z * Z)) :
  T55xx_segments (flat_map (fun c : Z * Z => T55xxWriteBlockExt c.1 c.2 0 0) calls)
  = [] :: map (fun c : Z * Z => write_frame c.1 c.2) calls.
Proof.
  induction calls as [|c calls IH]; [reflexivity|].
  cbn [flat_map map]. rewrite T55xx_segments_WriteBlockExt, IH.
  rewrite add_bits_cons, app_nil_r. reflexivity.
Qed.

Lemma bits_value_3 (x : Z) : bits_value (bits_msb 3 x) = x mod 8.
Proof.
  unfold bits_value, bits_msb. cbn [seq rev app map fold_left].
  rewrite !Z.testbit_spec' by lia.
  change (2 ^ Z.of_nat 0) with 1. change (2 ^ Z.of_nat 1) with 2.
  change (2 ^ Z.of_nat 2) with 4.
  Z.div_mod_to_equations. lia.
Qed.

Lemma frame_block_write_frame (Data Block : Z) :
  frame_block (write_frame Data Block) = Block mod 8.
Proof.
  unfold frame_block, write_frame.
  replace (drop _ _) with (bits_msb 3 Block); [apply bits_value_3|].
  rewrite !length_app. unfold bits_msb at 2 3. rewrite !length_map, !length_rev, !length_seq.
  cbn [length]. change (3 + (32 + 3) - 3)%nat with (3 + 32)%nat.
  rewrite app_assoc. rewrite drop_app_length'; [reflexivity|].
  rewrite length_app. unfold bits_msb. rewrite length_map, length_rev, length_seq.
  reflexivity.
Qed.

(** ** Order of a multi-block write *)

Lemma WriteT55xx_loop_blocks (blockdata : list Z) (i : nat) :
  map snd (WriteT55xx_loop blockdata 0 i) = map Z.of_nat (rev (seq 0 i)).
Proof.
  induction i as [|i IH]; [reflexivity|].
  cbn [WriteT55xx_loop].
  destruct (Z.ltb_spec 0 (Z.of_nat (S i))) as [_|H]; [|lia].
  cbn [map snd]. rewrite IH, seq_S, rev_app_distr. reflexivity.
Qed.

Lemma descending_strongly_sorted (i : nat) :
  StronglySorted Z.gt (map Z.of_nat (rev (seq 0 i))).
Proof.
  induction i as [|i IH]; [constructor|].
  rewrite seq_S, rev_app_distr. cbn [rev app map plus].
  constructor; [exact IH|].
  apply List.Forall_forall. intros x Hx.
  apply in_map_iff in Hx as (k & <- & Hk).
  apply in_rev, in_seq in Hk. lia.
Qed.

Lemma descending_last (i : nat) :
  (0 < i)%nat -> last (map Z.of_nat (rev (seq 0 i))) = Some 0.
Proof.
  destruct i as [|i]; [lia|intros _].
  change (seq 0 (S i)) with (0%nat :: seq 1 i).
  cbn [rev]. rewrite map_app. cbn [map]. apply last_snoc.
Qed.

Lemma T55xx_frames_WriteT55xx (blockdata : list Z) (startblock numblocks : Z) :
  T55xx_frames (WriteT55xx blockdata startblock numblocks)
  = map (fun c : Z * Z => write_frame c.1 c.2)
        (WriteT55xx_calls blockdata startblock numblocks).
Proof.
  unfold T55xx_frames, WriteT55xx. rewrite T55xx_segments_WriteT55xx_calls.
  reflexivity.
Qed.

(** C2.  A multi-block write of [N] blocks starting at block 0 calls the
    bit-serial block write with the block addresses [N-1, N-2, ..., 0]:
    strictly descending, the configuration block 0 last.  Each call is one
    downlink frame, and for the block counts of a T55xx page ([N <= 8]) the
    three address bits on the air are these same addresses. *)
Theorem WriteT55xx_descending_config_last (blockdata : list Z) (N : Z) :
  1 <= N <= 255 ->
  let calls := WriteT55xx_calls blockdata 0 N in
  let addrs := map snd calls in
  addrs = map Z.of_nat (rev (seq 0 (Z.to_nat N)))
  /\ StronglySorted Z.gt addrs
  /\ last addrs = Some 0
  /\ T55xx_frames (WriteT55xx blockdata 0 N)
     = map (fun c : Z * Z => write_frame c.1 c.2) calls
  /\ (N <= 8 -> map frame_block (T55xx_frames (WriteT55xx blockdata 0 N)) = addrs).
Proof.
  intros HN calls addrs.
  assert (Haddrs : addrs = map Z.of_nat (rev (seq 0 (Z.to_nat N)))).
  { subst addrs calls. unfold WriteT55xx_calls.
    rewrite Z.add_0_r, Z.mod_small by lia. apply WriteT55xx_loop_blocks. }
  assert (Hwire : N <= 8 ->
            map frame_block (T55xx_frames (WriteT55xx blockdata 0 N)) = addrs).
  { intros H8. rewrite T55xx_frames_WriteT55xx, map_map.
    apply map_ext_in. intros [d b] Hin.
    cbn [fst snd]. rewrite frame_block_write_frame.
    assert (Hb : In b addrs) by (apply in_map_iff; exists (d, b); auto).
    rewrite Haddrs in Hb.
    apply in_map_iff in Hb as (k & <- & Hk). apply in_rev, in_seq in Hk.
    apply Z.mod_small. lia. }
  split; [exact Haddrs|].
  split; [rewrite Haddrs; apply descending_strongly_sorted|].
  split; [rewrite Haddrs; apply descending_last; lia|].
  split; [apply T55xx_frames_WriteT55xx|exact Hwire].
Qed.

Lemma WriteT55xx_descending_config_last_witness :
  1 <= 3 <= 255
  /\ map snd (WriteT55xx_calls [0x00148040; 0x11111111; 0x22222222] 0 3) = [2; 1; 0].
Proof.
  split; [lia|].
  exact (proj1 (WriteT55xx_descending_config_last
                  [0x00148040; 0x11111111; 0x22222222] 3 ltac:(lia))).
Defined.

(** ** Block read *)

Lemma land_1_testbit (x : Z) : negb (Z.land x 1 =? 0) = Z.testbit x 0.
Proof. exact (land_pow2_testbit x 0). Qed.

Lemma land_2_shiftr (x : Z) :
  negb (Z.shiftr (Z.land x 2) 1 =? 0) = Z.testbit x 1.
Proof.
  change 2 with (2 ^ Z.of_nat 1) at 1. rewrite land_pow2.
  change (Z.of_nat 1) with 1. destruct (Z.testbit x 1); reflexivity.
Qed.

Lemma bits_msb_3_mod8 (x : Z) : bits_msb 3 (Z.land x 7) = bits_msb 3 (x mod 8).
Proof. change 7 with (Z.ones 3). rewrite Z.land_ones by lia. reflexivity. Qed.

Lemma bits_msb_3_low (x : Z) : bits_msb 3 (x mod 8) = bits_msb 3 x.
Proof.
  unfold bits_msb. apply map_ext_in. intros i Hi. apply in_rev, in_seq in Hi.
  change 8 with (2 ^ 3). apply Z.mod_pow2_bits_low. lia.
Qed.

(** C9.  The single downlink frame of [T55xxReadBlock] consists of the
    opcode bit 1, the page bit, the 32 password bits when password mode is
    selected, a zero bit, and then: nothing at all when [Block] is 0xFF
    (regular read mode); otherwise exactly three address bits, those of
    [Block mod 8], i.e. the three low bits of [Block].  No value of
    [Block] is rejected. *)
Theorem T55xxReadBlock_address_bits (arg0 Block Pwd : Z) :
  T55xx_frames (T55xxReadBlock arg0 Block Pwd)
  = [ [true; Z.testbit arg0 1]
      ++ (if Z.testbit arg0 0 then bits_msb 32 Pwd else [])
      ++ [false]
      ++ (if Block =? 0xFF then [] else bits_msb 3 (Block mod 8)) ]
  /\ bits_msb 3 (Block mod 8) = bits_msb 3 Block.
Proof.
  split; [|apply bits_msb_3_low].
  unfold T55xx_frames, T55xxReadBlock. cbv zeta.
  rewrite land_1_testbit.
  rewrite <- ?app_assoc. cbn [app T55xx_segments]. rewrite Z.eqb_refl.
  rewrite !T55xx_segments_WriteBit. rewrite land_2_shiftr.
  change (negb (1 =? 0)) with true. change (negb (0 =? 0)) with false.
  destruct (Z.testbit arg0 0), (Block =? 255); cbn [negb app];
    rewrite ?T55xx_segments_send_password, ?T55xx_segments_WriteBit,
            ?T55xx_segments_send_block, ?bits_msb_3_mod8;
    reflexivity.
Qed.

(** ** EM410x cloning: the clock rate *)

Lemma T55xx_segments_WriteT55xx_then (calls : list (Z * Z)) (t : trace) :
  T55xx_segments t = [[]] ->
  T55xx_segments (flat_map (fun c : Z * Z => T55xxWriteBlockExt c.1 c.2 0 0) calls ++ t)
  = [] :: map (fun c : Z * Z => write_frame c.1 c.2) calls.
Proof.
  intros Ht. induction calls as [|c calls IH]; [exact Ht|].
  cbn [flat_map map]. rewrite <- app_assoc, T55xx_segments_WriteBlockExt, IH.
  rewrite add_bits_cons, app_nil_r. reflexivity.
Qed.

Lemma WriteT55xx_calls_3 (d0 d1 d2 : Z) :
  WriteT55xx_calls [d0; d1; d2] 0 3 = [ (d2, 2); (d1, 1); (d0, 0) ].
Proof. reflexivity. Qed.

Lemma EM410x_clock_default (card : Z) :
  Z.shiftr (Z.land card 0xFF00) 8 = 0 ->
  EM410x_clock card = 64 /\ EM410x_clock (Z.lor card 0x4000) = 64
  /\ Z.land (Z.lor card 0x4000) 0xFF = Z.land card 0xFF.
Proof.
  intros H. unfold EM410x_clock. rewrite H. split; [reflexivity|].
  rewrite !Z.land_lor_distr_l, Z.shiftr_lor, H.
  split; [reflexivity|]. change (Z.land 16384 255) with 0. apply Z.lor_0_r.
Qed.

(** C10.  For a T55x7 target ([card & 0xFF] non-zero): a clock-rate code
    of 0 behaves in every respect as the code 64, the lookup in the clock
    table included; and when the table has no entry for the clock rate
    (the lookup yields 0) the routine stops after its messages, before any
    block write: nothing is sent to the tag and the field is never
    switched on.  When the table has an entry, blocks 2, 1 and 0 are
    written, in this order. *)
Theorem WriteEM410x_T55x7_clock (P : protocols_h) (card id_hi id_lo : Z) :
  Z.land card 0xFF <> 0 ->
  let code := Z.shiftr (Z.land card 0xFF00) 8 in
  let clock := if code =? 0 then 64 else code in
  (code = 0 ->
     WriteEM410x P card id_hi id_lo = WriteEM410x P (Z.lor card 0x4000) id_hi id_lo)
  /\ (GetT55xxClockBit P clock = 0 ->
        WriteEM410x P card id_hi id_lo
        = [ Dbprintf "Started writing %s tag ..." [1]; LED_ON LED_D;
            Dbprintf "Clock rate: %d" [clock]; Dbprintf "Invalid clock rate: %d" [0] ]
        /\ T55xx_frames (WriteEM410x P card id_hi id_lo) = []
        /\ field_ever_on idle (WriteEM410x P card id_hi id_lo) = false)
  /\ (GetT55xxClockBit P clock <> 0 ->
        map frame_block (T55xx_frames (WriteEM410x P card id_hi id_lo)) = [2; 1; 0]).
Proof.
  intros Hcard code clock.
  assert (Hname : EM410x_card_name card = 1).
  { unfold EM410x_card_name. destruct (Z.eqb_spec card 0) as [->|_]; [|reflexivity].
    exfalso. apply Hcard. reflexivity. }
  assert (Ht55 : negb (Z.land card 0xFF =? 0) = true).
  { destruct (Z.eqb_spec (Z.land card 0xFF) 0); [contradiction|reflexivity]. }
  split; [|split].
  - intros Hcode. destruct (EM410x_clock_default card Hcode) as (E1 & E2 & E3).
    assert (Hname' : EM410x_card_name (Z.lor card 0x4000) = 1).
    { unfold EM410x_card_name.
      destruct (Z.eqb_spec (Z.lor card 0x4000) 0) as [E|_]; [|reflexivity].
      apply Z.lor_eq_0_iff in E as [_ E]. discriminate E. }
    unfold WriteEM410x. rewrite E1, E2, E3, Hname, Hname'. reflexivity.
  - intros Htab. unfold WriteEM410x.
    fold code. change (EM410x_clock card) with clock.
    rewrite Ht55, Htab, Hname. repeat split.
  - intros Htab. unfold WriteEM410x, T55xx_frames.
    change (EM410x_clock card) with clock. rewrite Ht55.
    destruct (Z.eqb_spec (GetT55xxClockBit P clock) 0) as [E|_]; [contradiction|].
    generalize (EM410x_id id_hi id_lo). intros id.
    cbn [app T55xx_segments].
    unfold WriteT55xx. cbn [list_insert insert].
    rewrite WriteT55xx_calls_3, T55xx_segments_WriteT55xx_then by reflexivity.
    cbn [tail map fst snd]. rewrite !frame_block_write_frame. reflexivity.
Qed.

Lemma WriteEM410x_T55x7_clock_witness :
  Z.land 0x0001 0xFF <> 0
  /\ WriteEM410x sample_protocols 0x0001 0x12 0x3456789A
     = WriteEM410x sample_protocols 0x4001 0x12 0x3456789A
  /\ Z.land 0x0701 0xFF <> 0
  /\ GetT55xxClockBit sample_protocols 7 = 0
  /\ T55xx_frames (WriteEM410x sample_protocols 0x0701 0x12 0x3456789A) = [].
Proof.
  split; [discriminate|].
  split; [exact (proj1 (WriteEM410x_T55x7_clock sample_protocols 0x0001 0x12 0x3456789A
                          ltac:(discriminate)) eq_refl)|].
  split; [discriminate|].
  split; [reflexivity|].
  exact (proj1 (proj2 (proj1 (proj2 (WriteEM410x_T55x7_clock sample_protocols 0x0701
                          0x12 0x3456789A ltac:(discriminate))) eq_refl))).
Defined.

(** ** EM4x05 data sub-frame *)

Lemma list_inserts_snoc {A} (i : nat) (k : list A) (x : A) (l : list A) :
  list_inserts i (k ++ [x]) l = <[ (i + length k)%nat := x ]> (list_inserts i k l).
Proof. rewrite list_inserts_app_l. cbn. f_equal. lia. Qed.

Lemma fwd_push_pushes (v : Z) (vs : list Z) (s : fwd_state) :
  fwd_push v (fwd_pushes vs s) = (tt, fwd_pushes (vs ++ [v]) s).
Proof.
  unfold fwd_push, fwd_pushes. cbn [forwardLink_data forward_ptr].
  rewrite map_app. cbn [map].
  rewrite list_inserts_snoc, length_map, length_app. cbn [length].
  do 2 f_equal. lia.
Qed.

Lemma fwd_pushes_nil (s : fwd_state) : fwd_pushes [] s = s.
Proof. destruct s as [d p]. unfold fwd_pushes. cbn. f_equal. lia. Qed.

Lemma fwd_poke_poked (v : Z) (s : fwd_state) : fwd_poke v s = (tt, fwd_poked v s).
Proof. reflexivity. Qed.

(** Symbolic execution of a frame builder from a state [fwd_pushes vs s]. *)
Ltac fwd_exec :=
  unfold fwd_for, fwd_bind, fwd_ret;
  repeat (rewrite fwd_push_pushes; cbv beta iota zeta delta [Nat.eqb]);
  rewrite <- ?app_assoc; cbn [app].

Lemma Prepare_Data_row_pushes (data column_parity : Z) (vs : list Z) (s : fwd_state) :
  Prepare_Data_row data column_parity (fwd_pushes vs s)
  = ((shr data 8, line_par data 8, col_acc column_parity data 8),
     fwd_pushes (vs ++ map (shr data) (seq 0 8)) s).
Proof. unfold Prepare_Data_row. fwd_exec. reflexivity. Qed.

Lemma Prepare_Data_pushes (data_low data_hi : Z) (s : fwd_state) :
  Prepare_Data data_low data_hi s
  = (45, fwd_poked 0 (fwd_pushes (Prepare_Data_values data_low data_hi) s)).
Proof.
  transitivity (Prepare_Data data_low data_hi (fwd_pushes [] s));
    [rewrite fwd_pushes_nil; reflexivity|].
  unfold Prepare_Data, Prepare_Data_values. unfold fwd_for, fwd_bind, fwd_ret.
  do 4 (rewrite Prepare_Data_row_pushes; cbv beta iota zeta delta [Nat.eqb];
        rewrite fwd_push_pushes; cbv beta iota zeta).
  cbn [fst snd].
  generalize (col_acc (col_acc (col_acc (col_acc 0 data_low 8) (shr data_low 8) 8)
                               data_hi 8) (shr data_hi 8) 8).
  intros cp.
  do 8 (rewrite fwd_push_pushes; cbv beta iota zeta).
  rewrite fwd_poke_poked. cbv beta iota zeta.
  rewrite <- ?app_assoc. cbn [app]. reflexivity.
Qed.

Lemma fwd_pushes_window (vs : list Z) (s : fwd_state) (v : Z) :
  (forward_ptr s + length vs < length (forwardLink_data s))%nat ->
  let s' := fwd_poked v (fwd_pushes vs s) in
  forward_ptr s' = (forward_ptr s + length vs)%nat
  /\ take (length vs) (drop (forward_ptr s) (forwardLink_data s')) = map uint8 vs
  /\ forwardLink_data s' !! (forward_ptr s + length vs)%nat = Some (uint8 v).
Proof.
  intros Hlen. unfold fwd_poked, fwd_poke, fwd_pushes.
  cbn [snd forwardLink_data forward_ptr].
  split; [reflexivity|]. split.
  - apply list_eq. intros i.
    destruct (decide (i < length vs)%nat) as [Hi|Hi].
    + rewrite lookup_take_lt, lookup_drop by lia.
      rewrite list_lookup_insert_ne by lia.
      rewrite list_lookup_inserts by (rewrite ?length_map; lia).
      f_equal. lia.
    + rewrite lookup_take_ge by lia. symmetry. apply lookup_ge_None.
      rewrite length_map. lia.
  - apply list_lookup_insert_eq. rewrite length_inserts. lia.
Qed.

Lemma shr_testbit (x : Z) (j : nat) (k : Z) :
  0 <= k -> Z.testbit (shr x j) k = Z.testbit x (k + Z.of_nat j).
Proof.
  revert k. induction j as [|j IH]; intros k Hk.
  - cbn. f_equal. lia.
  - change (shr x (S j)) with (Z.shiftr (shr x j) 1).
    rewrite Z.shiftr_spec, IH by lia. f_equal. lia.
Qed.

Lemma uint8_testbit (x k : Z) : 0 <= k < 8 -> Z.testbit (uint8 x) k = Z.testbit x k.
Proof.
  intros Hk. unfold uint8. change 255 with (Z.ones 8).
  rewrite Z.land_spec, Z.ones_spec_low by lia. apply andb_true_r.
Qed.

Lemma xor_all_snoc (bs : list bool) (b : bool) :
  xor_all (bs ++ [b]) = xorb (xor_all bs) b.
Proof.
  unfold xor_all. induction bs as [|a bs IH]; cbn [app foldr].
  - apply xorb_false_r.
  - rewrite IH. symmetry. apply xorb_assoc.
Qed.

(** The low bit of the line parity is the XOR of the row's bits. *)
Lemma line_par_testbit (x : Z) (n : nat) :
  Z.testbit (line_par x n) 0
  = xor_all (map (fun j => Z.testbit x (Z.of_nat j)) (seq 0 n)).
Proof.
  induction n as [|n IH]; [reflexivity|].
  cbn [line_par]. rewrite uint8_testbit, Z.lxor_spec, IH, shr_testbit by lia.
  rewrite seq_S, map_app. cbn [map]. rewrite xor_all_snoc. reflexivity.
Qed.

(** A row of [n <= 8] bits toggles bit [k] of the column parity exactly
    when its own bit [k] is set. *)
Lemma col_acc_testbit (cp x : Z) (n : nat) (k : Z) :
  0 <= k < 8 ->
  Z.testbit (col_acc cp x n) k
  = xorb (Z.testbit cp k) ((k <? Z.of_nat n) && Z.testbit x k).
Proof.
  intros Hk. induction n as [|n IH].
  - cbn [col_acc].
    replace (k <? Z.of_nat 0) with false by (symmetry; apply Z.ltb_ge; lia).
    symmetry. apply xorb_false_r.
  - cbn [col_acc]. rewrite uint8_testbit, Z.lxor_spec, IH by lia.
    rewrite Z.shiftl_spec, Z.land_spec by lia.
    change 1 with (2 ^ 0) at 1. rewrite Z.pow2_bits_eqb by lia.
    destruct (Z.eqb_spec 0 (k - Z.of_nat n)) as [E|E].
    + replace (k - Z.of_nat n) with 0 by lia. rewrite shr_testbit by lia.
      replace (0 + Z.of_nat n) with k by lia.
      replace (k <? Z.of_nat n) with false by (symmetry; apply Z.ltb_ge; lia).
      replace (k <? Z.of_nat (S n)) with true by (symmetry; apply Z.ltb_lt; lia).
      cbn. rewrite xorb_false_r, andb_true_r. reflexivity.
    + rewrite andb_false_r, xorb_false_r.
      destruct (Z.ltb_spec k (Z.of_nat n)), (Z.ltb_spec k (Z.of_nat (S n)));
        try reflexivity; lia.
Qed.

Lemma cons_eq {A} (a b : A) (l l' : list A) : a = b -> l = l' -> a :: l = b :: l'.
Proof. intros -> ->. reflexivity. Qed.

Ltac norm_testbit :=
  repeat match goal with
    | |- context [Z.testbit ?x ?i] =>
        let v := eval vm_compute in i in progress change i with v
    end.

Ltac frame_bit :=
  rewrite ?uint8_testbit by lia;
  rewrite ?shr_testbit by lia;
  rewrite ?line_par_testbit;
  rewrite ?col_acc_testbit by lia;
  cbn [seq map xor_all foldr];
  rewrite ?shr_testbit by lia;
  norm_testbit;
  change (Z.testbit 0 _) with false;
  repeat match goal with
    | |- context [?a <? ?b] =>
        let v := eval vm_compute in (a <? b) in change (a <? b) with v
    end;
  cbn [andb xorb];
  try reflexivity; btauto.

Lemma Prepare_Data_values_bits (data_low data_hi : Z) :
  map (fun v => Z.testbit v 0) (map uint8 (Prepare_Data_values data_low data_hi))
  = data_frame_spec (word_bit data_low data_hi).
Proof.
  unfold Prepare_Data_values, data_frame_spec, word_bit.
  cbn [seq flat_map map app Nat.mul Nat.add Nat.ltb Nat.leb Nat.sub].
  repeat (apply cons_eq; [ frame_bit | ]).
  reflexivity.
Qed.

(** The halves passed by the callers, [Data & 0xFFFF] and [Data >> 16],
    make up the bits of [Data]. *)
Lemma word_bit_halves (Data : Z) (k : nat) :
  word_bit (Z.land Data 0xFFFF) (Z.shiftr Data 16) k = Z.testbit Data (Z.of_nat k).
Proof.
  unfold word_bit. destruct (Nat.ltb_spec k 16) as [H|H].
  - change 0xFFFF with (Z.ones 16).
    rewrite Z.land_spec, Z.ones_spec_low by lia. apply andb_true_r.
  - rewrite Z.shiftr_spec by lia. f_equal. lia.
Qed.

(** C4 (as amended).  Entered with room for 45 bytes at the cursor,
    [Prepare_Data] returns 45 and stores 44 bytes whose low bits (the
    bits that are transmitted) are the data sub-frame of the
    specification: four rows of 8 data bits, each followed by the XOR of
    its 8 bits, then 8 column-parity bits, the [j]-th being the XOR of bit
    [j] of the 4 rows; a zero byte follows.  In particular the data word
    0x00000000 gives all parity bits 0, and 0xFFFFFFFF gives all four row
    parities 0 (a row has an even number of ones) and all eight column
    parities 0. *)
Theorem Prepare_Data_frame (data_low data_hi : Z) (s : fwd_state) :
  (forward_ptr s + 44 < length (forwardLink_data s))%nat ->
  let r := Prepare_Data data_low data_hi s in
  let frame := forward_bits (forward_ptr s) 44 r.2 in
  r.1 = 45
  /\ forward_ptr r.2 = (forward_ptr s + 44)%nat
  /\ forwardLink_data r.2 !! (forward_ptr s + 44)%nat = Some 0
  /\ frame = data_frame_spec (word_bit data_low data_hi)
  /\ (data_low = 0 -> data_hi = 0 -> frame = replicate 44 false)
  /\ (data_low = 0xFFFF -> data_hi = 0xFFFF ->
      row_parities frame = [false; false; false; false]
      /\ column_parities frame = replicate 8 false).
Proof.
  intros Hlen r frame. subst frame r. rewrite Prepare_Data_pushes.
  cbn [fst snd]. unfold forward_bits.
  assert (HL : length (Prepare_Data_values data_low data_hi) = 44%nat) by reflexivity.
  pose proof (fwd_pushes_window (Prepare_Data_values data_low data_hi) s 0) as Hw.
  rewrite HL in Hw. destruct (Hw Hlen) as (Hp & Hbits & Hz). clear Hw.
  rewrite Hbits, Prepare_Data_values_bits.
  split; [reflexivity|]. split; [exact Hp|]. split; [exact Hz|].
  split; [reflexivity|]. split.
  - intros -> ->. reflexivity.
  - intros -> ->. split; reflexivity.
Qed.

Lemma Prepare_Data_frame_witness :
  (forward_ptr fwd_init + 44 < length (forwardLink_data fwd_init))%nat
  /\ forward_bits 0 44 (Prepare_Data 0x5678 0x1234 fwd_init).2
     = data_frame_spec (word_bit 0x5678 0x1234).
Proof.
  split; [cbn; lia|].
  exact (proj1 (proj2 (proj2 (proj2
           (Prepare_Data_frame 0x5678 0x1234 fwd_init ltac:(cbn; lia)))))).
Defined.

(** C4 as stated fails on its example: for the data word 0xFFFFFFFF the
    four row-parity bits are 0, not 1. *)
Lemma Prepare_Data_all_ones_row_parity :
  row_parities (forward_bits 0 44 (Prepare_Data 0xFFFF 0xFFFF fwd_init).2)
  = [false; false; false; false]
  /\ row_parities (forward_bits 0 44 (Prepare_Data 0xFFFF 0xFFFF fwd_init).2)
     <> [true; true; true; true].
Proof. vm_compute. split; [reflexivity|discriminate]. Qed.

(** ** Biphase encoding *)

Lemma lxor_b2z_1 (p : bool) : Z.lxor (Z.b2z p) 1 = Z.b2z (negb p).
Proof. destruct p; reflexivity. Qed.

Lemma biphaseSimBit_phase (c clock : Z) (b : wave_buf) (p : bool) :
  (biphaseSimBit c clock (b, Z.b2z p)).2 = Z.b2z (xorb (c =? 0) p).
Proof.
  unfold biphaseSimBit. destruct (c =? 0); cbn [negb snd xorb].
  - apply lxor_b2z_1.
  - reflexivity.
Qed.

Lemma biphaseSimBit_cursor (c clock : Z) (st : wave_buf * Z) :
  (biphaseSimBit c clock st).1.2 = st.1.2 + clock.
Proof. destruct st as [b phase]. unfold biphaseSimBit. destruct (c =? 0); reflexivity. Qed.

Lemma biphase_pass_phase (clk invert : Z) (BitStream : list Z) (b : wave_buf) (p : bool) :
  (biphase_pass clk invert BitStream (b, Z.b2z p)).2
  = Z.b2z (xorb (odd_zeros invert BitStream) p).
Proof.
  unfold biphase_pass. revert b p.
  induction BitStream as [|bit bs IH]; intros b p; [reflexivity|].
  cbn [fold_left odd_zeros foldr].
  pose proof (biphaseSimBit_phase (Z.lxor bit invert) clk b p) as Hp.
  destruct (biphaseSimBit (Z.lxor bit invert) clk (b, Z.b2z p)) as [b' phase'].
  cbn [snd] in Hp. rewrite Hp, IH. f_equal.
  fold (odd_zeros invert bs).
  destruct (Z.lxor bit invert =? 0), (odd_zeros invert bs), p; reflexivity.
Qed.

Lemma biphase_pass_cursor (clk invert : Z) (BitStream : list Z) (st : wave_buf * Z) :
  (biphase_pass clk invert BitStream st).1.2
  = st.1.2 + clk * Z.of_nat (length BitStream).
Proof.
  unfold biphase_pass. revert st.
  induction BitStream as [|bit bs IH]; intros st; [cbn; lia|].
  cbn [fold_left length]. rewrite IH, biphaseSimBit_cursor. lia.
Qed.

(** What [memset] leaves in the buffer, sample by sample. *)
Lemma length_memset (dest : list Z) (off c len : Z) :
  length (memset dest off c len) = length dest.
Proof. apply length_inserts. Qed.

Lemma memset_lookup_below (dest : list Z) (off c len : Z) (k : nat) :
  Z.of_nat k < off -> memset dest off c len !! k = dest !! k.
Proof. intros H. apply list_lookup_inserts_lt. lia. Qed.

Lemma memset_lookup (dest : list Z) (off c len : Z) (k : nat) :
  0 <= off -> 0 <= len -> off + len <= Z.of_nat (length dest) ->
  memset dest off c len !! k
  = if (off <=? Z.of_nat k) && (Z.of_nat k <? off + len) then Some c else dest !! k.
Proof.
  intros Hoff Hlen Hfit. unfold memset.
  destruct (Z.leb_spec off (Z.of_nat k)) as [H1|H1]; cbn [andb].
  - destruct (Z.ltb_spec (Z.of_nat k) (off + len)) as [H2|H2].
    + rewrite list_lookup_inserts by (rewrite ?length_replicate; lia).
      apply lookup_replicate_2. lia.
    + apply list_lookup_inserts_ge. rewrite length_replicate. lia.
  - apply list_lookup_inserts_lt. lia.
Qed.

Lemma biphaseSimBit_length (c clock : Z) (st : wave_buf * Z) :
  length (biphaseSimBit c clock st).1.1 = length st.1.1.
Proof.
  destruct st as [b phase]. unfold biphaseSimBit.
  destruct (c =? 0); cbn [negb fst]; rewrite ?length_memset; reflexivity.
Qed.

Lemma biphaseSimBit_lookup_below (c clock : Z) (st : wave_buf * Z) (k : nat) :
  0 <= clock -> Z.of_nat k < st.1.2 ->
  (biphaseSimBit c clock st).1.1 !! k = st.1.1 !! k.
Proof.
  intros Hclk Hk. destruct st as [[buf n] phase]. cbn [fst snd] in Hk.
  unfold biphaseSimBit. cbn [fst snd].
  assert (0 <= clock / 2) by (apply Z.div_pos; lia).
  destruct (c =? 0); cbn [negb fst]; rewrite ?memset_lookup_below by lia; reflexivity.
Qed.

(** The samples of one biphase bit: a 1 bit holds the level of the
    running phase for the first half clock and the opposite level for the
    second half; a 0 bit holds the level of the running phase for the
    whole clock.  Every other sample of the buffer is left as it was. *)
Lemma biphaseSimBit_samples (clk : Z) (buf : list Z) (n : Z) (p : bool) (k : nat) :
  0 <= n -> 0 <= clk -> n + clk <= Z.of_nat (length buf) ->
  let i := Z.of_nat k - n in
  (biphaseSimBit 1 clk ((buf, n), Z.b2z p)).1.1 !! k
  = (if (0 <=? i) && (i <? clk / 2) then Some (Z.b2z p)
     else if (clk / 2 <=? i) && (i <? 2 * (clk / 2)) then Some (Z.b2z (negb p))
          else buf !! k)
  /\ (biphaseSimBit 0 clk ((buf, n), Z.b2z p)).1.1 !! k
     = (if (0 <=? i) && (i <? clk) then Some (Z.b2z p) else buf !! k).
Proof.
  intros Hn Hclk Hfit i.
  assert (Hh : 0 <= clk / 2 /\ 2 * (clk / 2) <= clk) by (Z.div_mod_to_equations; lia).
  unfold biphaseSimBit. cbn [negb Z.eqb fst snd].
  rewrite !memset_lookup by (rewrite ?length_memset; lia).
  replace (Z.lxor (Z.lxor 1 1) (Z.b2z p)) with (Z.b2z p) by (destruct p; reflexivity).
  replace (Z.lxor 1 (Z.b2z p)) with (Z.b2z (negb p)) by (destruct p; reflexivity).
  replace (Z.lxor 0 (Z.b2z p)) with (Z.b2z p) by (destruct p; reflexivity).
  subst i. split.
  - destruct (Z.leb_spec 0 (Z.of_nat k - n)), (Z.ltb_spec (Z.of_nat k - n) (clk / 2)),
      (Z.leb_spec (clk / 2) (Z.of_nat k - n)),
      (Z.ltb_spec (Z.of_nat k - n) (2 * (clk / 2))),
      (Z.leb_spec n (Z.of_nat k)), (Z.ltb_spec (Z.of_nat k) (n + clk / 2)),
      (Z.leb_spec (n + clk / 2) (Z.of_nat k)),
      (Z.ltb_spec (Z.of_nat k) (n + clk / 2 + clk / 2));
      cbn [andb]; first [reflexivity|lia].
  - destruct (Z.leb_spec 0 (Z.of_nat k - n)), (Z.ltb_spec (Z.of_nat k - n) clk),
      (Z.leb_spec n (Z.of_nat k)), (Z.ltb_spec (Z.of_nat k) (n + clk));
      cbn [andb]; first [reflexivity|lia].
Qed.

Lemma biphase_pass_length (clk invert : Z) (BitStream : list Z) (st : wave_buf * Z) :
  length (biphase_pass clk invert BitStream st).1.1 = length st.1.1.
Proof.
  unfold biphase_pass. revert st.
  induction BitStream as [|bit bs IH]; intros st; [reflexivity|].
  cbn [fold_left]. rewrite IH. apply biphaseSimBit_length.
Qed.

Lemma biphase_pass_lookup_below (clk invert : Z) (BitStream : list Z) (st : wave_buf * Z)
    (k : nat) :
  0 <= clk -> Z.of_nat k < st.1.2 ->
  (biphase_pass clk invert BitStream st).1.1 !! k = st.1.1 !! k.
Proof.
  intros Hclk. unfold biphase_pass. revert st.
  induction BitStream as [|bit bs IH]; intros st Hk; [reflexivity|].
  cbn [fold_left]. rewrite IH by (rewrite biphaseSimBit_cursor; lia).
  apply biphaseSimBit_lookup_below; assumption.
Qed.

(** The samples of a whole pass: the slot of bit [j] starts at
    [n + clk * j] and is written with the running phase that the bits
    before it have left. *)
Lemma biphase_pass_samples (clk invert : Z) (BitStream : list Z) :
  0 <= clk ->
  forall (buf : list Z) (n : Z) (p0 : bool) (j : nat) (bit : Z),
    0 <= n -> n + clk * Z.of_nat (length BitStream) <= Z.of_nat (length buf) ->
    BitStream !! j = Some bit ->
    let p := xorb p0 (odd_zeros invert (take j BitStream)) in
    let out := (biphase_pass clk invert BitStream ((buf, n), Z.b2z p0)).1.1 in
    forall i : Z,
      (Z.lxor bit invert = 1 ->
       (0 <= i < clk / 2 ->
        out !! Z.to_nat (n + clk * Z.of_nat j + i) = Some (Z.b2z p))
       /\ (clk / 2 <= i < 2 * (clk / 2) ->
           out !! Z.to_nat (n + clk * Z.of_nat j + i) = Some (Z.b2z (negb p))))
      /\ (Z.lxor bit invert = 0 ->
          0 <= i < clk ->
          out !! Z.to_nat (n + clk * Z.of_nat j + i) = Some (Z.b2z p)).
Proof.
  intros Hclk.
  assert (Hh : 0 <= clk / 2 /\ 2 * (clk / 2) <= clk) by (Z.div_mod_to_equations; lia).
  induction BitStream as [|bit0 bs IH]; intros buf n p0 j bit Hn Hfit Hj p out i;
    [discriminate Hj|].
  cbn [length] in Hfit. rewrite Nat2Z.inj_succ in Hfit.
  destruct j as [|j].
  - injection Hj as ->. subst p out. cbn [take odd_zeros foldr].
    rewrite xorb_false_r. change (Z.of_nat 0) with 0. rewrite Z.mul_0_r, Z.add_0_r.
    unfold biphase_pass. cbn [fold_left]. fold (biphase_pass clk invert bs).
    assert (Hslot : 0 <= i < clk ->
              (biphase_pass clk invert bs
                 (biphaseSimBit (Z.lxor bit invert) clk ((buf, n), Z.b2z p0))).1.1
                !! Z.to_nat (n + i)
              = (biphaseSimBit (Z.lxor bit invert) clk ((buf, n), Z.b2z p0)).1.1
                  !! Z.to_nat (n + i)).
    { intros Hi. apply biphase_pass_lookup_below; [exact Hclk|].
      rewrite biphaseSimBit_cursor. cbn [fst snd]. lia. }
    unfold biphase_pass in Hslot.
    pose proof (biphaseSimBit_samples clk buf n p0 (Z.to_nat (n + i))
                  Hn Hclk ltac:(lia)) as Hs.
    cbv zeta in Hs. destruct Hs as [Hone Hzero].
    split.
    + intros Ec. rewrite Ec in Hslot |- *. split; intros Hi.
      * rewrite Hslot, Hone by lia. rewrite Z2Nat.id by lia.
        destruct (Z.leb_spec 0 (n + i - n)), (Z.ltb_spec (n + i - n) (clk / 2));
          cbn [andb]; first [reflexivity|lia].
      * rewrite Hslot, Hone by lia. rewrite Z2Nat.id by lia.
        destruct (Z.leb_spec 0 (n + i - n)), (Z.ltb_spec (n + i - n) (clk / 2)),
          (Z.leb_spec (clk / 2) (n + i - n)), (Z.ltb_spec (n + i - n) (2 * (clk / 2)));
          cbn [andb]; first [reflexivity|lia].
    + intros Ec Hi. rewrite Ec in Hslot |- *. rewrite Hslot, Hzero by lia.
      rewrite Z2Nat.id by lia.
      destruct (Z.leb_spec 0 (n + i - n)), (Z.ltb_spec (n + i - n) clk);
        cbn [andb]; first [reflexivity|lia].
  - cbn [lookup list_lookup] in Hj. subst p out.
    unfold biphase_pass. cbn [fold_left]. fold (biphase_pass clk invert bs).
    assert (Hp : (biphaseSimBit (Z.lxor bit0 invert) clk ((buf, n), Z.b2z p0)).2
                 = Z.b2z (xorb (Z.lxor bit0 invert =? 0) p0))
      by exact (biphaseSimBit_phase (Z.lxor bit0 invert) clk (buf, n) p0).
    pose proof (biphaseSimBit_cursor (Z.lxor bit0 invert) clk ((buf, n), Z.b2z p0)) as Hc.
    pose proof (biphaseSimBit_length (Z.lxor bit0 invert) clk ((buf, n), Z.b2z p0)) as Hl.
    destruct (biphaseSimBit (Z.lxor bit0 invert) clk ((buf, n), Z.b2z p0))
      as [[buf' n'] ph].
    cbn [fst snd] in Hp, Hc, Hl. subst n' ph.
    specialize (IH buf' (n + clk) (xorb (Z.lxor bit0 invert =? 0) p0) j bit
                   ltac:(lia) ltac:(lia) Hj).
    cbv zeta in IH. unfold biphase_pass in IH.
    replace (n + clk * Z.of_nat (S j) + i) with (n + clk + clk * Z.of_nat j + i) by lia.
    replace (xorb p0 (odd_zeros invert (take (S j) (bit0 :: bs))))
      with (xorb (xorb (Z.lxor bit0 invert =? 0) p0) (odd_zeros invert (take j bs))).
    + apply IH.
    + cbn [take odd_zeros foldr]. fold (odd_zeros invert (take j bs)).
      destruct (Z.lxor bit0 invert =? 0), p0, (odd_zeros invert (take j bs)); reflexivity.
Qed.

(** C8.  In [biphaseSimBit] a 1 bit writes the level of the running phase
    for the first half clock and the opposite level for the second half,
    leaving the running phase as it is; a 0 bit writes the level of the
    running phase for the whole clock and flips the running phase.  The
    levels are stated sample by sample, for one bit at any place of the
    buffer and for the slot of every bit of a stream.  In the biphase
    branch of [CmdASKsimTag] the running phase after the first pass is 0
    or 1; exactly when it is 1 the same pass is run once more over the
    same bit stream, and after it the running phase is 0: the encoder
    always ends with phase 0. *)
Theorem biphase_second_pass_closes_phase
    (clk invert : Z) (BitStream : list Z) (dest : list Z) :
  let first := biphase_pass clk invert BitStream ((dest, 0), 0) in
  let final := biphase_encode clk invert BitStream dest in
  (forall (b : wave_buf) (p : bool),
      (biphaseSimBit 1 clk (b, Z.b2z p)).2 = Z.b2z p
      /\ (biphaseSimBit 1 clk (b, Z.b2z p)).1.2 = b.2 + clk
      /\ (biphaseSimBit 0 clk (b, Z.b2z p)).2 = Z.b2z (negb p)
      /\ (biphaseSimBit 0 clk (b, Z.b2z p)).1.2 = b.2 + clk)
  /\ (forall (buf : list Z) (n : Z) (p : bool) (k : nat),
        0 <= n -> 0 <= clk -> n + clk <= Z.of_nat (length buf) ->
        let i := Z.of_nat k - n in
        (biphaseSimBit 1 clk ((buf, n), Z.b2z p)).1.1 !! k
        = (if (0 <=? i) && (i <? clk / 2) then Some (Z.b2z p)
           else if (clk / 2 <=? i) && (i <? 2 * (clk / 2)) then Some (Z.b2z (negb p))
                else buf !! k)
        /\ (biphaseSimBit 0 clk ((buf, n), Z.b2z p)).1.1 !! k
           = (if (0 <=? i) && (i <? clk) then Some (Z.b2z p) else buf !! k))
  /\ (forall (buf : list Z) (n : Z) (p0 : bool) (j : nat) (bit : Z),
        0 <= clk -> 0 <= n ->
        n + clk * Z.of_nat (length BitStream) <= Z.of_nat (length buf) ->
        BitStream !! j = Some bit ->
        let p := xorb p0 (odd_zeros invert (take j BitStream)) in
        let out := (biphase_pass clk invert BitStream ((buf, n), Z.b2z p0)).1.1 in
        forall i : Z,
          (Z.lxor bit invert = 1 ->
           (0 <= i < clk / 2 ->
            out !! Z.to_nat (n + clk * Z.of_nat j + i) = Some (Z.b2z p))
           /\ (clk / 2 <= i < 2 * (clk / 2) ->
               out !! Z.to_nat (n + clk * Z.of_nat j + i) = Some (Z.b2z (negb p))))
          /\ (Z.lxor bit invert = 0 ->
              0 <= i < clk ->
              out !! Z.to_nat (n + clk * Z.of_nat j + i) = Some (Z.b2z p)))
  /\ first.2 = Z.b2z (odd_zeros invert BitStream)
  /\ final = (if first.2 =? 1 then biphase_pass clk invert BitStream first else first)
  /\ (biphase_pass clk invert BitStream first).2 = 0
  /\ final.2 = 0
  /\ final.1.2 = (if first.2 =? 1 then 2 else 1) * (clk * Z.of_nat (length BitStream)).
Proof.
  intros first final.
  assert (Hfirst : first.2 = Z.b2z (odd_zeros invert BitStream)).
  { pose proof (biphase_pass_phase clk invert BitStream (dest, 0) false) as H.
    rewrite xorb_false_r in H. exact H. }
  assert (Hsecond : (biphase_pass clk invert BitStream first).2 = 0).
  { destruct first as [b phase] eqn:E. cbn [snd] in Hfirst. rewrite Hfirst.
    rewrite biphase_pass_phase. rewrite xorb_nilpotent. reflexivity. }
  split.
  { intros b p. rewrite !biphaseSimBit_phase, !biphaseSimBit_cursor.
    cbn [fst snd Z.eqb xorb]. destruct p; repeat split. }
  split.
  { intros buf n p k Hn Hclk Hfit. exact (biphaseSimBit_samples clk buf n p k Hn Hclk Hfit). }
  split.
  { intros buf n p0 j bit Hclk Hn Hfit Hj.
    exact (biphase_pass_samples clk invert BitStream Hclk buf n p0 j bit Hn Hfit Hj). }
  split; [exact Hfirst|]. split; [reflexivity|]. split; [exact Hsecond|].
  subst final. unfold biphase_encode. fold first.
  destruct (first.2 =? 1) eqn:E.
  - split; [exact Hsecond|]. rewrite biphase_pass_cursor. subst first.
    rewrite biphase_pass_cursor. cbn [fst snd]. lia.
  - split.
    + rewrite Hfirst in E |- *. destruct (odd_zeros invert BitStream); [discriminate|reflexivity].
    + subst first. rewrite biphase_pass_cursor. cbn [fst snd]. lia.
Qed.

Lemma biphase_second_pass_closes_phase_witness :
  (0 <= 4 /\ 0 <= 0 /\ 0 + 4 * Z.of_nat (length [1; 0; 1]) <= Z.of_nat (length (replicate 12 7))
   /\ [1; 0; 1] !! 2%nat = Some 1 /\ Z.lxor 1 0 = 1 /\ 0 <= 1 < 4 / 2 /\ 4 / 2 <= 3 < 2 * (4 / 2))
  /\ (biphase_pass 4 0 [1; 0; 1] ((replicate 12 7, 0), 0)).1.1 !! 9%nat = Some 1
  /\ (biphase_pass 4 0 [1; 0; 1] ((replicate 12 7, 0), 0)).1.1 !! 11%nat = Some 0.
Proof.
  assert (H1 : 0 <= 4) by lia.
  assert (H2 : 0 <= 0) by lia.
  assert (H3 : 0 + 4 * Z.of_nat (length [1; 0; 1]) <= Z.of_nat (length (replicate 12 7)))
    by (vm_compute; discriminate).
  assert (H4 : [1; 0; 1] !! 2%nat = Some 1) by reflexivity.
  assert (H5 : Z.lxor 1 0 = 1) by reflexivity.
  assert (H6 : 0 <= 1 < 4 / 2) by (vm_compute; split; [discriminate|reflexivity]).
  assert (H7 : 4 / 2 <= 3 < 2 * (4 / 2)) by (vm_compute; split; [discriminate|reflexivity]).
  split; [repeat split; assumption|].
  pose proof (proj1 (proj2 (proj2
                (biphase_second_pass_closes_phase 4 0 [1; 0; 1] (replicate 12 7))))
                (replicate 12 7) 0 false 2%nat 1 H1 H2 H3 H4) as H.
  split.
  - exact (proj1 (proj1 (H 1) H5) H6).
  - exact (proj2 (proj1 (H 3) H5) H7).
Defined.

(** ** FSK encoding *)

Lemma length_wave (len : Z) : 0 <= len -> Z.of_nat (length (wave len)) = len.
Proof.
  intros H. unfold wave. rewrite length_app, !length_replicate.
  Z.div_mod_to_equations. lia.
Qed.

Lemma length_waves (k : nat) (len : Z) :
  0 <= len -> Z.of_nat (length (concat (replicate k (wave len)))) = Z.of_nat k * len.
Proof.
  intros H. induction k as [|k IH]; [reflexivity|].
  cbn [replicate concat]. rewrite length_app, Nat2Z.inj_add, IH, length_wave by lia.
  lia.
Qed.

Lemma fc_wave_inserts (len : Z) (dest : list Z) (n : Z) :
  0 <= len -> 0 <= n ->
  fc_wave len (dest, n) = (list_inserts (Z.to_nat n) (wave len) dest, n + len).
Proof.
  intros Hlen Hn. unfold fc_wave, memset, wave. cbn [fst snd].
  rewrite list_inserts_app_l, length_replicate. do 3 f_equal.
  Z.div_mod_to_equations. lia.
Qed.

Lemma repeat_fc_wave_inserts (k : nat) (len : Z) (dest : list Z) (n : Z) :
  0 <= len -> 0 <= n ->
  repeat_op k (fc_wave len) (dest, n)
  = (list_inserts (Z.to_nat n) (concat (replicate k (wave len))) dest,
     n + Z.of_nat k * len).
Proof.
  intros Hlen. revert dest n. induction k as [|k IH]; intros dest n Hn.
  - cbn. destruct dest; f_equal; lia.
  - cbn [repeat_op replicate concat]. rewrite fc_wave_inserts, IH by lia.
    rewrite list_inserts_app_l. f_equal; [|lia].
    f_equal. pose proof (length_wave len Hlen). lia.
Qed.

(** A call of [fcAll] with a clock that is a multiple of [fc] divides by
    zero. *)
Lemma fcAll_division_by_zero (fc clock : Z) (st : wave_buf * Z) :
  clock mod fc = 0 -> fcAll fc clock st = None.
Proof.
  intros H. destruct st as [b modCnt]. unfold fcAll, c_div, c_mod.
  destruct (fc =? 0); [reflexivity|]. cbn [mbind option_bind].
  rewrite H. reflexivity.
Qed.

(** What one call of [fcAll] does when the clock is not a multiple of
    [fc]: no division fails, the bit is counted, and [clock / fc] whole
    waves followed by the modifier are written at the cursor. *)
Lemma fcAll_samples (fc clock : Z) (dest : list Z) (n modCnt : Z) :
  0 < fc -> 0 <= clock -> clock mod fc <> 0 -> 0 <= n ->
  let modCnt' := (modCnt + 1) mod 2 ^ 16 in
  let samples :=
    concat (replicate (Z.to_nat (clock / fc)) (wave fc)) ++ FSK_modifier fc clock modCnt' in
  fcAll fc clock ((dest, n), modCnt)
  = Some ((list_inserts (Z.to_nat n) samples dest, n + Z.of_nat (length samples)), modCnt').
Proof.
  intros Hfc Hclock Hrem Hn modCnt' samples.
  assert (Hw : 0 <= clock / fc) by (apply Z.div_pos; lia).
  assert (Hm : 0 <= clock mod fc < fc) by (apply Z.mod_pos_bound; lia).
  pose proof (length_waves (Z.to_nat (clock / fc)) fc ltac:(lia)) as Hwaves.
  rewrite Z2Nat.id in Hwaves by lia.
  unfold fcAll, c_div, c_mod.
  destruct (Z.eqb_spec fc 0) as [E|_]; [lia|]. cbn [mbind option_bind].
  destruct (Z.eqb_spec (clock mod fc) 0) as [E|_]; [lia|]. cbn [mbind option_bind].
  assert (Hpos : (0 <? clock mod fc) = true) by (apply Z.ltb_lt; lia).
  rewrite Hpos. cbn [andb]. fold modCnt'.
  rewrite repeat_fc_wave_inserts by lia.
  subst samples. unfold FSK_modifier.
  set (waves := concat (replicate (Z.to_nat (clock / fc)) (wave fc))) in *.
  rewrite Z2Nat.id by lia.
  destruct (Z.eqb_spec (fc mod (clock mod fc)) 0) as [Hdiv|Hdiv]; cbn [negb].
  - assert (Hadj : 0 < fc / (clock mod fc)) by (apply Z.div_str_pos; lia).
    destruct (Z.eqb_spec (fc / (clock mod fc)) 0) as [E|_]; [lia|].
    cbn [mbind option_bind].
    destruct (modCnt' mod (fc / (clock mod fc)) =? 0).
    + rewrite fc_wave_inserts by lia.
      rewrite list_inserts_app_l, length_app, Nat2Z.inj_add, length_wave by lia.
      do 3 f_equal; [|lia]. f_equal. lia.
    + rewrite app_nil_r. do 3 f_equal. lia.
  - cbn [mbind option_bind]. rewrite fc_wave_inserts by lia.
    rewrite list_inserts_app_l, length_app, Nat2Z.inj_add, length_wave by lia.
    do 3 f_equal; [|lia]. f_equal. lia.
Qed.

Lemma length_FSK_modifier (fc clock modCnt : Z) :
  0 < fc -> 0 <= clock ->
  Z.of_nat (length (FSK_modifier fc clock modCnt))
  = if fc mod (clock mod fc) =? 0
    then (if modCnt mod (fc / (clock mod fc)) =? 0 then fc else 0)
    else clock mod fc.
Proof.
  intros Hfc Hclock. unfold FSK_modifier.
  assert (Hm : 0 <= clock mod fc < fc) by (apply Z.mod_pos_bound; lia).
  destruct (fc mod (clock mod fc) =? 0).
  - destruct (modCnt mod (fc / (clock mod fc)) =? 0); [|reflexivity].
    apply length_wave. lia.
  - apply length_wave. lia.
Qed.

Lemma div_succ (c a : Z) :
  0 < a -> 0 <= c ->
  (c + 1) / a = c / a + (if (c + 1) mod a =? 0 then 1 else 0).
Proof.
  intros Ha Hc. destruct (Z.eqb_spec ((c + 1) mod a) 0) as [E|E];
    Z.div_mod_to_equations; nia.
Qed.

(** Once a call has divided by zero the loop yields nothing. *)
Lemma FSK_run_undefined (fcHigh fcLow clk invert : Z) (BitStream : list Z) :
  fold_left (fun st bit =>
               st ← st;
               if bit =? invert then fcAll fcLow clk st else fcAll fcHigh clk st)
            BitStream None = None.
Proof. induction BitStream as [|bit bs IH]; [reflexivity|exact IH]. Qed.

(** The cursor and the modifier counter after a run of bits that all
    select the carrier [fc], for a clock that is not a multiple of [fc]. *)
Lemma FSK_run_same_carrier (fc clk fcHigh fcLow invert : Z) (BitStream : list Z) :
  0 < fc -> 0 <= clk -> clk mod fc <> 0 ->
  Forall (fun bit => FSK_carrier fcHigh fcLow invert bit = fc) BitStream ->
  forall (dest : list Z) (n c : Z),
    0 <= n -> 0 <= c -> c + Z.of_nat (length BitStream) < 2 ^ 16 ->
    let bits := Z.of_nat (length BitStream) in
    exists r : wave_buf * Z,
      fold_left (fun st bit =>
                   st ← st;
                   if bit =? invert then fcAll fcLow clk st else fcAll fcHigh clk st)
                BitStream (Some ((dest, n), c)) = Some r
      /\ r.2 = c + bits
      /\ r.1.2 = n + clk / fc * fc * bits
                 + (if fc mod (clk mod fc) =? 0
                    then ((c + bits) / (fc / (clk mod fc)) - c / (fc / (clk mod fc))) * fc
                    else clk mod fc * bits).
Proof.
  intros Hfc Hclk Hrem Hall.
  assert (Hm : 0 <= clk mod fc < fc) by (apply Z.mod_pos_bound; lia).
  assert (Hw : 0 <= clk / fc) by (apply Z.div_pos; lia).
  induction Hall as [|bit bs Hbit Hall IH]; intros dest n c Hn Hc Hlen bits.
  - exists ((dest, n), c). subst bits. cbn [fold_left length fst snd].
    change (Z.of_nat 0) with 0. rewrite !Z.add_0_r, Z.sub_diag.
    split; [reflexivity|]. split; [reflexivity|].
    destruct (fc mod (clk mod fc) =? 0); lia.
  - subst bits. cbn [fold_left mbind option_bind].
    replace (if bit =? invert then fcAll fcLow clk (dest, n, c)
             else fcAll fcHigh clk (dest, n, c))
      with (fcAll fc clk (dest, n, c))
      by (unfold FSK_carrier in Hbit; destruct (bit =? invert); rewrite Hbit; reflexivity).
    rewrite fcAll_samples by lia.
    rewrite length_app, Nat2Z.inj_add, length_waves, Z2Nat.id by lia.
    rewrite length_FSK_modifier by lia.
    cbn [length] in Hlen. rewrite Nat2Z.inj_succ in Hlen.
    rewrite (Z.mod_small (c + 1)) by lia.
    set (modifier := FSK_modifier fc clk (c + 1)).
    set (step := if fc mod (clk mod fc) =? 0
                 then (if (c + 1) mod (fc / (clk mod fc)) =? 0 then fc else 0)
                 else clk mod fc).
    assert (Hstep : 0 <= step).
    { subst step. destruct (fc mod (clk mod fc) =? 0);
        [destruct ((c + 1) mod (fc / (clk mod fc)) =? 0)|]; lia. }
    destruct (IH (list_inserts (Z.to_nat n)
                    (concat (replicate (Z.to_nat (clk / fc)) (wave fc)) ++ modifier) dest)
                 (n + (clk / fc * fc + step)) (c + 1)
                 ltac:(lia) ltac:(lia) ltac:(lia)) as (r & Er & Hr2 & Hr1).
    exists r. split; [exact Er|]. rewrite Hr2, Hr1. cbn [length].
    rewrite Nat2Z.inj_succ. set (bits := Z.of_nat (length bs)) in *.
    split; [lia|]. subst step.
    destruct (Z.eqb_spec (fc mod (clk mod fc)) 0) as [E1|E1]; [|lia].
    assert (Ha : 0 < fc / (clk mod fc)) by (apply Z.div_str_pos; lia).
    rewrite (div_succ c (fc / (clk mod fc))) by lia.
    replace (c + Z.succ bits) with (c + 1 + bits) by lia.
    destruct ((c + 1) mod (fc / (clk mod fc)) =? 0); lia.
Qed.




(** ** Raw modulation: the timing precondition *)

(** C6 (as amended).  In bit-bang mode ([delay_off = 0]) with [period_0]
    or [period_1] below 7, the routine performs its set-up, which powers
    the field on for two seconds, then reports the warning, switches the
    field off and returns: no bit of the command is modulated, no
    acquisition is made and no acknowledgement is sent, and the field is
    off on return. *)
Theorem ModThenAcquire_short_period_aborts
    (divisor period_0 period_1 : Z) (command : list Z) :
  period_0 < 7 \/ period_1 < 7 ->
  let t := ModThenAcquireRawAdcSamples125k divisor 0 period_0 period_1 command in
  t = [ StartTicks; FpgaDownloadAndGo; FpgaWriteConfWord FPGA_MAJOR_MODE_OFF;
        WaitMS 2500; BigBuf_Clear_keep_EM; LFSetupFPGAForADC divisor true;
        WaitMS 2000;
        DbpString "Warning periods cannot be less than 7us in bit bang mode";
        FpgaWriteConfWord FPGA_MAJOR_MODE_OFF; LED_OFF LED_D ]
  /\ field_timeline idle t = []
  /\ field_after idle t = false
  /\ field_ever_on idle t = true.
Proof.
  intros H t.
  assert (E : (period_0 <? 7) || (period_1 <? 7) = true).
  { apply orb_true_iff. destruct H; [left|right]; apply Z.ltb_lt; assumption. }
  assert (Ht : t = [ StartTicks; FpgaDownloadAndGo; FpgaWriteConfWord FPGA_MAJOR_MODE_OFF;
        WaitMS 2500; BigBuf_Clear_keep_EM; LFSetupFPGAForADC divisor true;
        WaitMS 2000;
        DbpString "Warning periods cannot be less than 7us in bit bang mode";
        FpgaWriteConfWord FPGA_MAJOR_MODE_OFF; LED_OFF LED_D ]).
  { subst t. unfold ModThenAcquireRawAdcSamples125k. cbv zeta.
    change (0 =? 0) with true. cbv iota. rewrite E. reflexivity. }
  rewrite Ht. repeat split.
Qed.

Lemma ModThenAcquire_short_period_aborts_witness :
  (6 < 7 \/ 100 < 7)
  /\ field_after idle (ModThenAcquireRawAdcSamples125k 95 0 6 100 [49; 48; 49]) = false.
Proof.
  split; [left; lia|].
  exact (proj1 (proj2 (proj2
           (ModThenAcquire_short_period_aborts 95 6 100 [49; 48; 49]
              ltac:(left; lia))))).
Defined.

(** C6 as stated fails: with [period_0 = 6] in bit-bang mode the field
    has been on (since the set-up) by the time the routine returns. *)
Lemma ModThenAcquire_short_period_field_was_on :
  field_ever_on idle (ModThenAcquireRawAdcSamples125k 95 0 6 100 [49; 48; 49]) = true.
Proof. reflexivity. Qed.

(** ** Validation of the ID width *)

Lemma EM410x_reverse_lo_phase (idxs : list nat) (r h l : Z) :
  Forall (fun i => (i < 32)%nat) idxs ->
  fold_left EM410x_reverse_step idxs (r, h, l)
  = ((fold_left EM410x_reverse_step idxs (r, 0, l)).1.1, h,
     (fold_left EM410x_reverse_step idxs (r, 0, l)).2).
Proof.
  intros H. revert r l. induction H as [|i idxs Hi _ IH]; intros r l; [reflexivity|].
  cbn [fold_left]. unfold EM410x_reverse_step at 2 4 6.
  apply Nat.ltb_lt in Hi. rewrite Hi. apply IH.
Qed.

Lemma land_1_shr_low8 (h : Z) (k : nat) :
  (k < 8)%nat -> Z.land (shr (Z.land h 0xFF) k) 1 = Z.land (shr h k) 1.
Proof.
  intros Hk. apply Z.bits_inj'. intros n Hn.
  rewrite !Z.land_spec, !shr_testbit by lia.
  destruct (Z.eqb_spec n 0) as [->|Hne].
  - rewrite Z.land_spec. change 255 with (Z.ones 8).
    rewrite Z.ones_spec_low by lia. rewrite andb_true_r. reflexivity.
  - replace (Z.testbit 1 n) with false; [rewrite !andb_false_r; reflexivity|].
    symmetry. change 1 with (2 ^ 0). apply Z.pow2_bits_false. lia.
Qed.

(** Only the low 8 bits of [id_hi] enter the reversed ID. *)
Lemma EM410x_reverse_low8 (h l : Z) :
  EM410x_reverse (Z.land h 0xFF) l = EM410x_reverse h l.
Proof.
  unfold EM410x_reverse.
  change (seq 0 EM410X_ID_LENGTH) with (seq 0 32 ++ seq 32 8).
  rewrite !fold_left_app.
  rewrite (EM410x_reverse_lo_phase (seq 0 32) 0 h l)
    by (apply Forall_forall; intros i Hi; apply elem_of_seq in Hi; lia).
  rewrite (EM410x_reverse_lo_phase (seq 0 32) 0 (Z.land h 0xFF) l)
    by (apply Forall_forall; intros i Hi; apply elem_of_seq in Hi; lia).
  generalize (fold_left EM410x_reverse_step (seq 0 32) (0, 0, l)).
  intros [[r h0] l0]. cbn [fst snd].
  cbn [seq fold_left]. unfold EM410x_reverse_step. cbn [Nat.ltb Nat.leb fst snd].
  pose proof (land_1_shr_low8 h 0 ltac:(lia)) as E0.
  pose proof (land_1_shr_low8 h 1 ltac:(lia)) as E1.
  pose proof (land_1_shr_low8 h 2 ltac:(lia)) as E2.
  pose proof (land_1_shr_low8 h 3 ltac:(lia)) as E3.
  pose proof (land_1_shr_low8 h 4 ltac:(lia)) as E4.
  pose proof (land_1_shr_low8 h 5 ltac:(lia)) as E5.
  pose proof (land_1_shr_low8 h 6 ltac:(lia)) as E6.
  pose proof (land_1_shr_low8 h 7 ltac:(lia)) as E7.
  cbv beta iota delta [shr Nat.iter nat_rect] in E0, E1, E2, E3, E4, E5, E6, E7.
  rewrite E0, E1, E2, E3, E4, E5, E6, E7. reflexivity.
Qed.

Lemma WriteEM410x_low8 (P : protocols_h) (card id_hi id_lo : Z) :
  WriteEM410x P card (Z.land id_hi 0xFF) id_lo = WriteEM410x P card id_hi id_lo.
Proof.
  unfold WriteEM410x, EM410x_id. rewrite EM410x_reverse_low8. reflexivity.
Qed.

Lemma T55xx_frames_WriteT55xx_then (blockdata : list Z) (numblocks : Z)
    (pre post : trace) :
  forallb (fun e => negb (touches_field e)) pre = true ->
  T55xx_segments post = [[]] ->
  T55xx_frames (pre ++ WriteT55xx blockdata 0 numblocks ++ post)
  = map (fun c : Z * Z => write_frame c.1 c.2) (WriteT55xx_calls blockdata 0 numblocks).
Proof.
  intros Hpre Hpost. unfold T55xx_frames.
  induction pre as [|e pre IH].
  - cbn [app]. unfold WriteT55xx.
    rewrite T55xx_segments_WriteT55xx_then by assumption. reflexivity.
  - cbn in Hpre. apply andb_prop in Hpre as [He Hpre].
    cbn [app]. destruct e; try discriminate He; cbn [T55xx_segments]; apply IH, Hpre.
Qed.

Lemma T55xx_frames_WriteT55xx_post (blockdata : list Z) (numblocks : Z) (post : trace) :
  T55xx_segments post = [[]] ->
  T55xx_frames (WriteT55xx blockdata 0 numblocks ++ post)
  = map (fun c : Z * Z => write_frame c.1 c.2) (WriteT55xx_calls blockdata 0 numblocks).
Proof. intros H. exact (T55xx_frames_WriteT55xx_then _ _ [] post eq_refl H). Qed.

(** C7 (as amended).  The HID encoders check the ID width and, when it
    is exceeded, only report it: [CmdHIDsimTAG] for [hi2] above
    0x0FFFFFFF, [CopyHIDtoT55x7] for [hi2] above 0xFFFFF in the long
    format and for [hi] above 0xFFF in the short one; nothing is written
    to the sample buffer's player or to the tag.  [WriteEM410x] makes no
    check: only the low 8 bits of [id_hi] are used, the rest is ignored
    and the three blocks are written.  The Indala and Viking routines take
    whole 32-bit words that fill their blocks and always write them. *)
Theorem ID_width_validation (P : protocols_h) :
  (forall (hi2 hi lo ledcontrol : Z) (dest : list Z) (env : sim_env),
      0x0FFFFFFF < hi2 ->
      CmdHIDsimTAG hi2 hi lo ledcontrol dest env
      = ([ DbpString "Tags can only have 44 or 84 bits. - USE lf simfsk for larger tags" ],
         true))
  /\ (forall hi2 hi lo longFMT preamble : Z,
        longFMT <> 0 -> 0xFFFFF < hi2 ->
        CopyHIDtoT55x7 P hi2 hi lo longFMT preamble
        = [ DbpString "Tags can only have 84 bits." ])
  /\ (forall hi2 hi lo preamble : Z,
        0xFFF < hi ->
        CopyHIDtoT55x7 P hi2 hi lo 0 preamble
        = [ DbpString "Tags can only have 44 bits." ])
  /\ (forall card id_hi id_lo : Z,
        WriteEM410x P card id_hi id_lo = WriteEM410x P card (Z.land id_hi 0xFF) id_lo)
  /\ (forall card id_hi id_lo : Z,
        Z.land card 0xFF = 0 ->
        map frame_block (T55xx_frames (WriteEM410x P card id_hi id_lo)) = [2; 1; 0])
  /\ (forall hi lo : Z,
        map frame_block (T55xx_frames (CopyIndala64toT55x7 P hi lo)) = [2; 1; 0])
  /\ (forall uid1 uid2 uid3 uid4 uid5 uid6 uid7 : Z,
        map frame_block
            (T55xx_frames (CopyIndala224toT55x7 P uid1 uid2 uid3 uid4 uid5 uid6 uid7))
        = [7; 6; 5; 4; 3; 2; 1; 0])
  /\ (forall block1 block2 Q5 : Z,
        map frame_block (T55xx_frames (CopyVikingtoT55xx P block1 block2 Q5)) = [2; 1; 0]).
Proof.
  repeat apply conj.
  - intros hi2 hi lo ledcontrol dest env H. unfold CmdHIDsimTAG.
    apply Z.ltb_lt in H. rewrite H. reflexivity.
  - intros hi2 hi lo longFMT preamble Hfmt H. unfold CopyHIDtoT55x7.
    apply Z.ltb_lt in H. rewrite H.
    destruct (Z.eqb_spec longFMT 0); [contradiction|reflexivity].
  - intros hi2 hi lo preamble H. unfold CopyHIDtoT55x7.
    apply Z.ltb_lt in H. rewrite H. reflexivity.
  - intros card id_hi id_lo. symmetry. apply WriteEM410x_low8.
  - intros card id_hi id_lo Hcard. unfold WriteEM410x. rewrite Hcard.
    generalize (EM410x_id id_hi id_lo). intros id.
    change (negb (0 =? 0)) with false. cbv iota. cbn [list_insert insert].
    rewrite (T55xx_frames_WriteT55xx_then _ 3 [_; _; _] [_; _]) by reflexivity.
    rewrite WriteT55xx_calls_3. cbn [map fst snd].
    rewrite !frame_block_write_frame. reflexivity.
  - intros hi lo. unfold CopyIndala64toT55x7.
    rewrite T55xx_frames_WriteT55xx_post by reflexivity.
    rewrite WriteT55xx_calls_3. cbn [map fst snd].
    rewrite !frame_block_write_frame. reflexivity.
  - intros uid1 uid2 uid3 uid4 uid5 uid6 uid7. unfold CopyIndala224toT55x7.
    rewrite T55xx_frames_WriteT55xx_post by reflexivity.
    cbn [list_insert insert].
    change (WriteT55xx_calls ?d 0 8)
      with [ (d !!! 7%nat, 7); (d !!! 6%nat, 6); (d !!! 5%nat, 5); (d !!! 4%nat, 4);
             (d !!! 3%nat, 3); (d !!! 2%nat, 2); (d !!! 1%nat, 1); (d !!! 0%nat, 0) ].
    cbn [map fst snd]. rewrite !frame_block_write_frame. reflexivity.
  - intros block1 block2 Q5. unfold CopyVikingtoT55xx.
    rewrite T55xx_frames_WriteT55xx_post by reflexivity.
    destruct (negb (Q5 =? 0)); cbn [list_insert insert];
      rewrite WriteT55xx_calls_3; cbn [map fst snd];
      rewrite !frame_block_write_frame; reflexivity.
Qed.

Lemma ID_width_validation_witness :
  0x0FFFFFFF < 0x10000000
  /\ CmdHIDsimTAG 0x10000000 0 0 1 (replicate 64 0) {| ssc_clk := []; cancel := [] |}
     = ([ DbpString "Tags can only have 44 or 84 bits. - USE lf simfsk for larger tags" ],
        true)
  /\ 1 <> 0 /\ 0xFFFFF < 0x100000
  /\ CopyHIDtoT55x7 sample_protocols 0x100000 0 0 1 0x1D
     = [ DbpString "Tags can only have 84 bits." ].
Proof.
  split; [lia|].
  split; [exact (proj1 (ID_width_validation sample_protocols) 0x10000000 0 0 1
                   (replicate 64 0) {| ssc_clk := []; cancel := [] |} ltac:(lia))|].
  split; [discriminate|]. split; [lia|].
  exact (proj1 (proj2 (ID_width_validation sample_protocols)) 0x100000 0 0 1 0x1D
           ltac:(discriminate) ltac:(lia)).
Defined.

(** C7 as stated fails for EM410x: an ID of 41 bits ([id_hi = 0x100]) is
    not rejected; the tag is written, with the same blocks as for the
    ID 0. *)
Lemma WriteEM410x_oversized_id_is_written :
  map frame_block (T55xx_frames (WriteEM410x sample_protocols 0 0x100 0)) = [2; 1; 0]
  /\ field_ever_on idle (WriteEM410x sample_protocols 0 0x100 0) = true
  /\ WriteEM410x sample_protocols 0 0x100 0 = WriteEM410x sample_protocols 0 0 0.
Proof. vm_compute. repeat split. Qed.

(** ** Every operation leaves the FPGA off, except the wake-up *)

Lemma forces_off_app_r (t1 t2 : trace) : forces_off t2 -> forces_off (t1 ++ t2).
Proof. intros H a. rewrite antenna_after_app. apply H. Qed.

Lemma forces_off_app_untouched (t1 t2 : trace) :
  forces_off t1 -> forallb (fun e => negb (touches_field e)) t2 = true ->
  forces_off (t1 ++ t2).
Proof.
  intros H1 H2 a. rewrite antenna_after_app, fpga_mode_untouched by assumption.
  apply H1.
Qed.

Lemma forces_off_keeps_off (t : trace) : forces_off t -> keeps_off t.
Proof. intros H a _. apply H. Qed.

Lemma keeps_off_untouched (t : trace) :
  forallb (fun e => negb (touches_field e)) t = true -> keeps_off t.
Proof. intros H a Ha. rewrite fpga_mode_untouched; assumption. Qed.

Lemma keeps_off_app (t1 t2 : trace) : keeps_off t1 -> keeps_off t2 -> keeps_off (t1 ++ t2).
Proof. intros H1 H2 a Ha. rewrite antenna_after_app. apply H2, H1, Ha. Qed.

(** Peel the segments of a trace off its front until a literal tail is
    left, whose effect is computed. *)
Ltac solve_forces_off :=
  repeat apply forces_off_app_r;
  let a := fresh "a" in intros a; reflexivity.

Lemma T55xxResetRead_forces_off (max_traceLen : Z) :
  forces_off (T55xxResetRead max_traceLen).
Proof. unfold T55xxResetRead. solve_forces_off. Qed.

Lemma T55xxWriteBlockExt_forces_off (Data Block Pwd arg : Z) :
  forces_off (T55xxWriteBlockExt Data Block Pwd arg).
Proof. unfold T55xxWriteBlockExt. cbv zeta. solve_forces_off. Qed.

Lemma T55xxReadBlock_forces_off (arg0 Block Pwd : Z) :
  forces_off (T55xxReadBlock arg0 Block Pwd).
Proof. unfold T55xxReadBlock. cbv zeta. solve_forces_off. Qed.

Lemma WriteT55xx_keeps_off (blockdata : list Z) (startblock numblocks : Z) :
  keeps_off (WriteT55xx blockdata startblock numblocks).
Proof.
  unfold WriteT55xx. generalize (WriteT55xx_calls blockdata startblock numblocks).
  intros calls. induction calls as [|c calls IH]; intros a Ha; [exact Ha|].
  cbn [flat_map]. rewrite antenna_after_app. apply IH.
  apply T55xxWriteBlockExt_forces_off.
Qed.

Lemma WriteT55xx_then_keeps_off (blockdata : list Z) (startblock numblocks : Z)
    (pre post : trace) :
  forallb (fun e => negb (touches_field e)) pre = true ->
  forallb (fun e => negb (touches_field e)) post = true ->
  keeps_off (pre ++ WriteT55xx blockdata startblock numblocks ++ post).
Proof.
  intros Hpre Hpost.
  apply keeps_off_app; [apply keeps_off_untouched, Hpre|].
  apply keeps_off_app; [apply WriteT55xx_keeps_off|apply keeps_off_untouched, Hpost].
Qed.

Lemma CopyHIDtoT55x7_keeps_off (P : protocols_h) (hi2 hi lo longFMT preamble : Z) :
  keeps_off (CopyHIDtoT55x7 P hi2 hi lo longFMT preamble).
Proof.
  unfold CopyHIDtoT55x7. cbv zeta.
  destruct (negb (longFMT =? 0)).
  - destruct (0xFFFFF <? hi2); [apply keeps_off_untouched; reflexivity|].
    apply WriteT55xx_then_keeps_off; reflexivity.
  - destruct (0xFFF <? hi); [apply keeps_off_untouched; reflexivity|].
    apply WriteT55xx_then_keeps_off; reflexivity.
Qed.

Lemma WriteEM410x_keeps_off (P : protocols_h) (card id_hi id_lo : Z) :
  keeps_off (WriteEM410x P card id_hi id_lo).
Proof.
  unfold WriteEM410x. cbv zeta. generalize (EM410x_id id_hi id_lo). intros id.
  apply keeps_off_app; [apply keeps_off_untouched; reflexivity|].
  destruct (negb (Z.land card 0xFF =? 0)).
  - destruct (GetT55xxClockBit P (EM410x_clock card) =? 0).
    + apply keeps_off_untouched. reflexivity.
    + apply (WriteT55xx_then_keeps_off _ 0 3 []); reflexivity.
  - apply (WriteT55xx_then_keeps_off _ 0 3 []); reflexivity.
Qed.

Lemma SendForward_tail_forces_off (fwd_bit_count : Z) (s : fwd_state) (t : trace) :
  forces_off t -> forces_off (SendForward fwd_bit_count s ++ t).
Proof. apply forces_off_app_r. Qed.

Lemma EM4xReadWord_forces_off (Address Pwd PwdMode : Z) (s : fwd_state) :
  forces_off (EM4xReadWord Address Pwd PwdMode s).1.
Proof.
  unfold EM4xReadWord. destruct (PwdMode =? 1).
  - destruct (EM4xLogin Pwd s) as [login s1].
    match goal with |- context [(?m s1)] =>
      destruct (m s1) as [c s2] end.
    cbn [fst]. solve_forces_off.
  - match goal with |- context [(?m s)] =>
      destruct (m s) as [c s2] end.
    cbn [fst]. solve_forces_off.
Qed.

Lemma EM4xWriteWord_forces_off (flag Data Pwd : Z) (s : fwd_state) :
  forces_off (EM4xWriteWord flag Data Pwd s).1.
Proof.
  unfold EM4xWriteWord. cbv zeta. destruct (negb (Z.land flag 1 =? 0)).
  - destruct (EM4xLogin Pwd s) as [login s1].
    match goal with |- context [(?m s1)] =>
      destruct (m s1) as [c s2] end.
    cbn [fst]. solve_forces_off.
  - match goal with |- context [(?m s)] =>
      destruct (m s) as [c s2] end.
    cbn [fst]. solve_forces_off.
Qed.

Lemma EM4xProtect_forces_off (flag Data Pwd : Z) (s : fwd_state) :
  forces_off (EM4xProtect flag Data Pwd s).1.
Proof.
  unfold EM4xProtect. cbv zeta. destruct (negb (Z.land flag 1 =? 0)).
  - destruct (EM4xLogin Pwd s) as [login s1].
    match goal with |- context [(?m s1)] =>
      destruct (m s1) as [c s2] end.
    cbn [fst]. solve_forces_off.
  - match goal with |- context [(?m s)] =>
      destruct (m s) as [c s2] end.
    cbn [fst]. solve_forces_off.
Qed.

Lemma Cotag_forces_off (arg0 : Z) : forces_off (Cotag arg0).
Proof. unfold Cotag. cbv zeta. solve_forces_off. Qed.

Lemma ModThenAcquire_forces_off (divisor delay_off period_0 period_1 : Z)
    (command : list Z) :
  forces_off (ModThenAcquireRawAdcSamples125k divisor delay_off period_0 period_1 command).
Proof.
  unfold ModThenAcquireRawAdcSamples125k. cbv zeta.
  destruct (delay_off =? 0).
  - destruct ((period_0 <? 7) || (period_1 <? 7)); solve_forces_off.
  - solve_forces_off.
Qed.

Lemma prepend_returned (t : trace) (r : run) : (prepend t r).2 = r.2.
Proof. reflexivity. Qed.

Lemma prepend_forces_off (t : trace) (r : run) :
  forces_off r.1 -> forces_off (prepend t r).1.
Proof. apply forces_off_app_r. Qed.

Lemma and_then_returned (r : run) (t : trace) :
  (and_then r t).2 = true -> r.2 = true /\ (and_then r t).1 = r.1 ++ t.
Proof. unfold and_then. destruct r as [t0 [|]]; cbn; intros H; [auto|discriminate]. Qed.

(** When the simulation loop returns, it has just switched the FPGA off. *)
Lemma SimulateTagLowFrequency_loop_forces_off (tab : list Z) (period gap : Z)
    (ledcontrol : bool) (clk cancel : list bool) (w : sim_wait) (i ii : Z) :
  (SimulateTagLowFrequency_loop tab period gap ledcontrol clk cancel w i ii).2 = true ->
  forces_off (SimulateTagLowFrequency_loop tab period gap ledcontrol clk cancel w i ii).1.
Proof.
  revert cancel w i ii. induction clk as [|c clk IH]; intros cancel w i ii.
  - cbn. discriminate.
  - cbn [SimulateTagLowFrequency_loop].
    destruct (match w with WaitHigh => c | WaitLow => negb c end).
    + destruct w.
      * rewrite prepend_returned. intros H. apply prepend_forces_off, IH, H.
      * destruct (i + 1 =? period).
        -- rewrite prepend_returned. intros H. apply prepend_forces_off, IH, H.
        -- apply IH.
    + destruct (ii =? 1000).
      * destruct cancel as [|[|] cancel].
        -- cbn. discriminate.
        -- intros _ a. reflexivity.
        -- rewrite prepend_returned. intros H. apply prepend_forces_off, IH, H.
      * rewrite prepend_returned. intros H. apply prepend_forces_off, IH, H.
Qed.

Lemma SimulateTagLowFrequency_forces_off (tab : list Z) (period gap : Z)
    (ledcontrol : bool) (env : sim_env) :
  (SimulateTagLowFrequency tab period gap ledcontrol env).2 = true ->
  forces_off (SimulateTagLowFrequency tab period gap ledcontrol env).1.
Proof.
  unfold SimulateTagLowFrequency. rewrite prepend_returned. intros H.
  apply prepend_forces_off, SimulateTagLowFrequency_loop_forces_off, H.
Qed.

(** A command that composes a waveform, plays it and then switches an
    LED off. *)
Lemma play_forces_off (pre post : trace) (tab : list Z) (period gap : Z)
    (ledcontrol : bool) (env : sim_env) :
  forallb (fun e => negb (touches_field e)) post = true ->
  let r := prepend pre (and_then (SimulateTagLowFrequency tab period gap ledcontrol env) post) in
  r.2 = true -> forces_off r.1.
Proof.
  intros Hpost r Hr. subst r. rewrite prepend_returned in Hr.
  apply and_then_returned in Hr as [Hsim E].
  apply prepend_forces_off. rewrite E.
  apply forces_off_app_untouched; [|exact Hpost].
  apply SimulateTagLowFrequency_forces_off, Hsim.
Qed.

(** A demodulation loop writes no FPGA mode; the command switches the
    FPGA off once the loop is left. *)
Lemma demod_forces_off (pre : trace) (loop : run) (ledcontrol : bool) :
  let r := prepend pre
             (and_then loop
                ([ FpgaWriteConfWord FPGA_MAJOR_MODE_OFF; DbpString "Stopped" ]
                 ++ (if ledcontrol then [ LED_OFF LED_A ] else []))) in
  r.2 = true -> forces_off r.1.
Proof.
  intros r Hr. subst r. rewrite prepend_returned in Hr.
  apply and_then_returned in Hr as [_ E].
  apply prepend_forces_off. rewrite E. apply forces_off_app_r.
  destruct ledcontrol; intros a; reflexivity.
Qed.

Lemma AcquireTiType_then_forces_off (rxrdy : list bool) (pre post : trace) :
  forallb (fun e => negb (touches_field e)) post = true ->
  let r := prepend pre
             (and_then (AcquireTiType rxrdy)
                (FpgaWriteConfWord FPGA_MAJOR_MODE_OFF :: post)) in
  r.2 = true -> forces_off r.1.
Proof.
  intros Hpost r Hr. subst r. rewrite prepend_returned in Hr.
  apply and_then_returned in Hr as [_ E].
  apply prepend_forces_off. rewrite E. intros a.
  apply fpga_mode_ends_off, Hpost.
Qed.

Lemma ReadTItag_report_untouched (update_crc16 : Z -> Z -> Z) (st : TI_demod) :
  forallb (fun e => negb (touches_field e)) (ReadTItag_report update_crc16 st) = true.
Proof.
  unfold ReadTItag_report. destruct (negb (cycles st =? 0xF0B)); [reflexivity|].
  cbv zeta.
  destruct (negb (Z.land (shift3 st) (Z.shiftl 1 15) =? 0));
    repeat match goal with |- context [if ?c then _ else _] => destruct c end;
    reflexivity.
Qed.

(** C5 (as amended).  Every operation of the module other than
    [T55xxWakeUp], entered with the FPGA off, has the FPGA in
    [FPGA_MAJOR_MODE_OFF] and hence no reader field whenever it returns:
    on success, after a decode failure or mismatch, after a validation
    error (which returns before anything is switched on) and after
    cancellation.  [T55xxWakeUp] returns with the reader field on. *)
Theorem operations_return_with_field_off
    (P : protocols_h) (update_crc16 : Z -> Z -> Z) (op : operation) :
  (forall Pwd : Z, op <> Op_T55xxWakeUp Pwd) ->
  (perform P update_crc16 op).2 = true ->
  fpga_mode (antenna_after idle (perform P update_crc16 op).1) = FPGA_MAJOR_MODE_OFF
  /\ field_after idle (perform P update_crc16 op).1 = false
  /\ (forall Pwd : Z,
        (perform P update_crc16 (Op_T55xxWakeUp Pwd)).2 = true
        /\ field_after idle (perform P update_crc16 (Op_T55xxWakeUp Pwd)).1 = true).
Proof.
  intros Hop Hret.
  assert (Hoff : fpga_mode (antenna_after idle (perform P update_crc16 op).1)
                 = FPGA_MAJOR_MODE_OFF).
  { destruct op; cbn [perform returns fst snd] in Hret |- *.
    - apply ModThenAcquire_forces_off.
    - unfold ReadTItag in *.
      apply (AcquireTiType_then_forces_off rxrdy _ _ (ReadTItag_report_untouched _ _) Hret).
    - unfold WriteTItag in *. cbv zeta in *.
      apply (AcquireTiType_then_forces_off rxrdy _
               [ DbpString "Now use `lf ti read` to check" ] eq_refl Hret).
    - apply SimulateTagLowFrequency_forces_off, Hret.
    - reflexivity.
    - unfold CmdHIDsimTAG in *. destruct (0x0FFFFFFF <? hi2); [reflexivity|].
      cbv zeta in *. destruct (negb (ledcontrol =? 0)).
      + apply (play_forces_off _ [ LED_OFF LED_A ] _ _ _ _ _ eq_refl Hret).
      + apply (play_forces_off _ [] _ _ _ _ _ eq_refl Hret).
    - unfold CmdFSKsimTAG in *. cbv zeta in *.
      destruct (FSK_encode _ _ _ _ BitStream dest) as [[b modCnt]|]; [|discriminate Hret].
      apply (play_forces_off _ [ LED_OFF LED_A ] _ _ _ _ _ eq_refl Hret).
    - unfold CmdASKsimTag in *. cbv zeta in *.
      apply (play_forces_off _ [ LED_OFF LED_A ] _ _ _ _ _ eq_refl Hret).
    - unfold CmdPSKsimTag in *. cbv zeta in *.
      destruct (PSK_encode arg1 arg2 BitStream dest); [|discriminate Hret].
      apply (play_forces_off _ [ LED_OFF LED_A ] _ _ _ _ _ eq_refl Hret).
    - apply (demod_forces_off _ _ _ Hret).
    - apply (demod_forces_off _ _ _ Hret).
    - apply (demod_forces_off _ _ _ Hret).
    - apply (demod_forces_off _ _ _ Hret).
    - apply T55xxResetRead_forces_off.
    - apply T55xxWriteBlockExt_forces_off.
    - unfold T55xxWriteBlock.
      apply forces_off_app_untouched; [apply T55xxWriteBlockExt_forces_off|reflexivity].
    - apply T55xxReadBlock_forces_off.
    - exfalso. apply (Hop Pwd). reflexivity.
    - apply WriteT55xx_keeps_off. reflexivity.
    - apply CopyHIDtoT55x7_keeps_off. reflexivity.
    - unfold CopyIOtoT55x7. apply (WriteT55xx_then_keeps_off _ 0 3 [_] [_; _]); reflexivity.
    - unfold CopyIndala64toT55x7.
      apply (WriteT55xx_then_keeps_off _ 0 3 [] [_]); reflexivity.
    - unfold CopyIndala224toT55x7.
      apply (WriteT55xx_then_keeps_off _ 0 8 [] [_]); reflexivity.
    - unfold CopyVikingtoT55xx.
      apply (WriteT55xx_then_keeps_off _ 0 3 [] [_; _]); reflexivity.
    - apply WriteEM410x_keeps_off. reflexivity.
    - apply EM4xReadWord_forces_off.
    - apply EM4xWriteWord_forces_off.
    - apply EM4xProtect_forces_off.
    - apply Cotag_forces_off. }
  split; [exact Hoff|]. split; [apply fpga_off_field_off, Hoff|].
  intros Pwd. split; [reflexivity|].
  cbn [perform returns fst]. unfold T55xxWakeUp, field_after.
  rewrite !antenna_after_app. reflexivity.
Qed.

Lemma operations_return_with_field_off_witness :
  let op := Op_SimulateTagLowFrequency [1; 0] 2 0 true
              {| ssc_clk := replicate 1001 false; cancel := [true] |} in
  (forall Pwd : Z, op <> Op_T55xxWakeUp Pwd)
  /\ (perform sample_protocols (fun crc _ => crc) op).2 = true
  /\ field_after idle (perform sample_protocols (fun crc _ => crc) op).1 = false.
Proof.
  intros op.
  assert (Hop : forall Pwd : Z, op <> Op_T55xxWakeUp Pwd) by (intros Pwd; discriminate).
  assert (Hret : (perform sample_protocols (fun crc _ => crc) op).2 = true)
    by (vm_compute; reflexivity).
  split; [exact Hop|]. split; [exact Hret|].
  exact (proj1 (proj2 (operations_return_with_field_off sample_protocols
                         (fun crc _ => crc) op Hop Hret))).
Defined.

(** C5 as stated fails: [T55xxWakeUp] returns with the reader field on
    and the FPGA in the reader mode. *)
Lemma T55xxWakeUp_leaves_field_on :
  field_after idle (T55xxWakeUp 0x12345678) = true
  /\ fpga_mode (antenna_after idle (T55xxWakeUp 0x12345678))
     = FPGA_MAJOR_MODE_LF_ADC true.
Proof. vm_compute. split; reflexivity. Qed.

(** ** Multi-block writes in general *)

Lemma WriteT55xx_loop_range (blockdata : list Z) (s : Z) (i : nat) :
  0 <= s ->
  WriteT55xx_loop blockdata s i
  = map (fun k : nat => (blockdata !!! k, Z.of_nat k))
        (rev (seq (Z.to_nat s) (i - Z.to_nat s))).
Proof.
  intros Hs. induction i as [|i IH]; [reflexivity|].
  cbn [WriteT55xx_loop].
  destruct (Z.ltb_spec s (Z.of_nat (S i))) as [H|H].
  - replace (S i - Z.to_nat s)%nat with (S (i - Z.to_nat s)) by lia.
    rewrite seq_S, rev_app_distr. cbn [rev app map].
    replace (Z.to_nat s + (i - Z.to_nat s))%nat with i by lia.
    rewrite IH. reflexivity.
  - replace (S i - Z.to_nat s)%nat with 0%nat by lia. reflexivity.
Qed.

(** X1.  [WriteT55xx] on the blocks [startblock .. startblock+numblocks-1]
    (the sum at most 255): the blocks are written from the highest down to
    [startblock], one downlink frame each, and block [k] receives
    [blockdata[k]]: the array is indexed by the absolute block number, not
    by the offset from [startblock]. *)
Theorem WriteT55xx_block_range (blockdata : list Z) (startblock numblocks : Z) :
  0 <= startblock -> 0 <= numblocks -> startblock + numblocks <= 255 ->
  WriteT55xx_calls blockdata startblock numblocks
  = map (fun k : nat => (blockdata !!! k, Z.of_nat k))
        (rev (seq (Z.to_nat startblock) (Z.to_nat numblocks)))
  /\ Z.of_nat (length (T55xx_frames (WriteT55xx blockdata startblock numblocks)))
     = numblocks
  /\ T55xx_frames (WriteT55xx blockdata startblock numblocks)
     = map (fun k : nat => write_frame (blockdata !!! k) (Z.of_nat k))
           (rev (seq (Z.to_nat startblock) (Z.to_nat numblocks))).
Proof.
  intros Hs Hn Hsum.
  assert (E : WriteT55xx_calls blockdata startblock numblocks
              = map (fun k : nat => (blockdata !!! k, Z.of_nat k))
                    (rev (seq (Z.to_nat startblock) (Z.to_nat numblocks)))).
  { unfold WriteT55xx_calls. rewrite Z.mod_small by lia.
    rewrite WriteT55xx_loop_range by assumption. do 3 f_equal. lia. }
  split; [exact E|].
  rewrite T55xx_frames_WriteT55xx, E, map_map. cbn [fst snd].
  split; [|reflexivity].
  rewrite length_map, length_rev, length_seq. lia.
Qed.

Lemma WriteT55xx_block_range_witness :
  (0 <= 2 /\ 0 <= 3 /\ 2 + 3 <= 255)
  /\ WriteT55xx_calls [10; 11; 12; 13; 14] 2 3 = [(14, 4); (13, 3); (12, 2)].
Proof.
  split; [lia|].
  exact (proj1 (WriteT55xx_block_range [10; 11; 12; 13; 14] 2 3
                  ltac:(lia) ltac:(lia) ltac:(lia))).
Defined.

(** X2.  [WriteT55xx] writes nothing, and touches no hardware, when
    [numblocks] is 0, and also when [startblock + numblocks] does not fit
    the [uint8_t] loop counter: the counter then starts at the sum minus
    256, which is below [startblock]. *)
Theorem WriteT55xx_writes_nothing (blockdata : list Z) (startblock numblocks : Z) :
  0 <= startblock < 256 -> 0 <= numblocks < 256 ->
  numblocks = 0 \/ 256 <= startblock + numblocks ->
  WriteT55xx blockdata startblock numblocks = [].
Proof.
  intros Hs Hn H. unfold WriteT55xx, WriteT55xx_calls.
  rewrite WriteT55xx_loop_range by lia.
  replace (Z.to_nat ((numblocks + startblock) mod 256) - Z.to_nat startblock)%nat
    with 0%nat; [reflexivity|].
  destruct H as [->|H].
  - rewrite Z.add_0_l, Z.mod_small by lia. lia.
  - assert ((numblocks + startblock) mod 256 = numblocks + startblock - 256).
    { symmetry. apply (Z.mod_unique_pos _ _ 1); lia. }
    lia.
Qed.

Lemma WriteT55xx_writes_nothing_witness :
  (0 <= 250 < 256 /\ 0 <= 10 < 256 /\ 256 <= 250 + 10)
  /\ WriteT55xx [1; 2; 3] 250 10 = [].
Proof.
  split; [lia|].
  exact (WriteT55xx_writes_nothing [1; 2; 3] 250 10 ltac:(lia) ltac:(lia)
           ltac:(right; lia)).
Defined.

(** ** T55xx frames for every argument *)

Lemma land_4_testbit (x : Z) : negb (Z.land x 4 =? 0) = Z.testbit x 2.
Proof. exact (land_pow2_testbit x 2). Qed.

Lemma field_timeline_no_wait (a : antenna) (t : trace) :
  forallb (fun e => match e with WaitUS _ => false | _ => true end) t = true ->
  field_timeline a t = [].
Proof.
  revert a. induction t as [|e t IH]; intros a Ht; [reflexivity|].
  cbn [forallb] in Ht. apply andb_true_iff in Ht as [He Ht].
  destruct e; try discriminate He; cbn [field_timeline]; apply IH; assumption.
Qed.

Lemma field_timeline_then_on (a : antenna) (t t' : trace) (d : Z) :
  forallb (fun e => match e with WaitUS _ => false | _ => true end) t' = true ->
  field_timeline a ((t ++ TurnReadLFOn d) ++ t') = field_timeline a t ++ [ (true, d) ].
Proof.
  intros Ht'. rewrite !field_timeline_app.
  rewrite (field_timeline_no_wait _ t') by assumption.
  rewrite app_nil_r. reflexivity.
Qed.

(** X3.  The one downlink frame of [T55xxWriteBlockExt], for every
    argument: the opcode (1 and the page bit [arg & 2]; 0 1 in test
    mode, [arg & 4]), the 32 password bits when [arg & 1] is set, the lock
    bit 0, the 32 data bits and the three low bits of [Block], all most
    significant first: 38 bits, or 70 with the password.  The field is
    then kept on for the programming time and is off on return. *)
Theorem T55xxWriteBlockExt_frame (Data Block Pwd arg : Z) :
  let frame :=
    (if Z.testbit arg 2 then [false; true] else [true; Z.testbit arg 1])
    ++ (if Z.testbit arg 0 then bits_msb 32 Pwd else [])
    ++ [false] ++ bits_msb 32 Data ++ bits_msb 3 Block in
  T55xx_frames (T55xxWriteBlockExt Data Block Pwd arg) = [ frame ]
  /\ length frame = (if Z.testbit arg 0 then 70 else 38)%nat
  /\ last (field_timeline idle (T55xxWriteBlockExt Data Block Pwd arg))
     = Some (true, if Z.testbit arg 2 then 5184 else 20 * 1000)
  /\ field_after idle (T55xxWriteBlockExt Data Block Pwd arg) = false.
Proof.
  intros frame. subst frame. split; [|split; [|split]].
  - unfold T55xx_frames, T55xxWriteBlockExt. cbv zeta.
    rewrite land_1_testbit, land_4_testbit.
    rewrite <- ?app_assoc. cbn [app T55xx_segments]. rewrite Z.eqb_refl.
    destruct (Z.testbit arg 2), (Z.testbit arg 0); cbn [app T55xx_segments];
      rewrite !T55xx_segments_WriteBit, ?land_2_shiftr,
              ?T55xx_segments_send_password, ?T55xx_segments_WriteBit,
              ?T55xx_segments_send_password, ?T55xx_segments_send_block;
      reflexivity.
  - destruct (Z.testbit arg 2), (Z.testbit arg 0); reflexivity.
  - unfold T55xxWriteBlockExt. cbv zeta. rewrite land_4_testbit.
    destruct (Z.testbit arg 2); rewrite !app_assoc;
      rewrite field_timeline_then_on by reflexivity; apply last_snoc.
  - apply fpga_off_field_off, T55xxWriteBlockExt_forces_off.
Qed.

(** X4.  The frames of the two T55xx control commands.  [T55xxWakeUp]
    sends the opcode 1 0 followed by the 32 password bits, most significant
    first, and nothing else (no lock bit, no block address); the field is
    then switched on for 20 ms and stays on.  [T55xxResetRead] sends the
    two opcode bits 0 0 only, and acquires with the field on. *)
Theorem T55xx_control_frames (Pwd max_traceLen : Z) :
  T55xx_frames (T55xxWakeUp Pwd) = [ [true; false] ++ bits_msb 32 Pwd ]
  /\ last (field_timeline idle (T55xxWakeUp Pwd)) = Some (true, 20 * 1000)
  /\ T55xx_frames (T55xxResetRead max_traceLen) = [ [false; false] ]
  /\ (exists pre : trace,
        T55xxResetRead max_traceLen
        = pre ++ [ DoPartialAcquisition 0 true max_traceLen 0;
                   FpgaWriteConfWord FPGA_MAJOR_MODE_OFF; cmd_send_ACK; LED_OFF LED_A ]
        /\ field_after idle pre = true).
Proof.
  split; [|split; [|split]].
  - unfold T55xx_frames, T55xxWakeUp.
    cbn [app T55xx_segments]. rewrite Z.eqb_refl.
    rewrite !T55xx_segments_WriteBit, T55xx_segments_send_password. reflexivity.
  - unfold T55xxWakeUp. rewrite !app_assoc.
    rewrite <- (app_nil_r (_ ++ TurnReadLFOn _)).
    rewrite field_timeline_then_on by reflexivity. apply last_snoc.
  - reflexivity.
  - eexists. split; [unfold T55xxResetRead; rewrite !app_assoc; reflexivity|].
    reflexivity.
Qed.

(** ** The EM4x05 forward link *)

Lemma land_1_eqb_testbit (v : Z) : (Z.land v 1 =? 1) = Z.testbit v 0.
Proof.
  change 1 with (Z.ones 1) at 1. rewrite Z.land_ones by lia.
  rewrite Z.bit0_eqb. reflexivity.
Qed.

(** The sending loop modulates the low bits of the array from index [p]
    on. *)
Lemma SendForward_loop_bits (data : list Z) (k p : nat) :
  (p + k <= length data)%nat ->
  SendForward_loop data p k
  = flat_map EM4x_symbol (map (fun v => Z.testbit v 0) (take k (drop p data))).
Proof.
  revert p. induction k as [|k IH]; intros p Hp; [reflexivity|].
  cbn [SendForward_loop].
  assert (Hx : exists x, data !! p = Some x) by (apply lookup_lt_is_Some; lia).
  destruct Hx as [x Hx].
  rewrite (list_lookup_total_correct _ _ _ Hx), land_1_eqb_testbit, IH by lia.
  rewrite (drop_S _ _ _ Hx). cbn [take map flat_map].
  unfold EM4x_symbol at 2. destruct (Z.testbit x 0); reflexivity.
Qed.

Lemma take_inserts_0 {A} (ws d : list A) :
  (length ws <= length d)%nat -> take (length ws) (list_inserts 0 ws d) = ws.
Proof.
  intros H. apply list_eq. intros i.
  destruct (decide (i < length ws)%nat) as [Hi|Hi].
  - rewrite lookup_take_lt by lia. rewrite list_lookup_inserts by lia.
    f_equal. lia.
  - rewrite lookup_take_ge by lia. symmetry. apply lookup_ge_None. lia.
Qed.

Lemma uint8_small (x : Z) : 0 <= x < 256 -> uint8 x = x.
Proof.
  intros H. unfold uint8. change 255 with (Z.ones 8).
  rewrite Z.land_ones by lia. apply Z.mod_small. exact H.
Qed.

Lemma map_testbit0_uint8 (vs : list Z) :
  map (fun v => Z.testbit v 0) (map uint8 vs) = map (fun v => Z.testbit v 0) vs.
Proof. rewrite map_map. apply map_ext. intros v. apply uint8_testbit. lia. Qed.

(** Sending a frame that was built from the start of the array: the
    first value is consumed as the start pulse. *)
Lemma SendForward_pushes (vs : list Z) (s : fwd_state) :
  forward_ptr s = 0%nat -> (1 <= length vs <= 255)%nat ->
  (length vs <= length (forwardLink_data s))%nat ->
  SendForward (Z.of_nat (length vs)) (fwd_pushes vs s)
  = EM4x_frame (map (fun v => Z.testbit v 0) (tail vs)).
Proof.
  intros Hp Hl Hd. unfold SendForward, EM4x_frame, fwd_pushes.
  cbn [forwardLink_data]. rewrite Hp. f_equal.
  rewrite (uint8_small (Z.of_nat _)), uint8_small by lia.
  replace (Z.to_nat (Z.of_nat (length vs) - 1)) with (length vs - 1)%nat by lia.
  rewrite SendForward_loop_bits by (rewrite length_inserts; lia).
  rewrite take_drop_commute.
  replace (1 + (length vs - 1))%nat with (length (map uint8 vs))
    by (rewrite length_map; lia).
  rewrite take_inserts_0 by (rewrite length_map; lia).
  destruct vs as [|v vs]; [cbn in Hl; lia|].
  cbn [map skipn tail]. rewrite drop_0, map_testbit0_uint8. reflexivity.
Qed.

Lemma fwd_poked_data (v : Z) (vs : list Z) (s : fwd_state) :
  forwardLink_data (fwd_poked v (fwd_pushes vs s))
  = forwardLink_data (fwd_pushes (vs ++ [v]) s).
Proof.
  unfold fwd_poked, fwd_poke, fwd_pushes. cbn [snd forwardLink_data forward_ptr].
  rewrite map_app. cbn [map]. rewrite list_inserts_snoc, length_map. reflexivity.
Qed.

(** The same for a frame that ends with the zero byte stored by
    [Prepare_Data]. *)
Lemma SendForward_poked (vs : list Z) (s : fwd_state) :
  forward_ptr s = 0%nat -> (1 <= length vs < 255)%nat ->
  (length vs < length (forwardLink_data s))%nat ->
  SendForward (Z.of_nat (length vs) + 1) (fwd_poked 0 (fwd_pushes vs s))
  = EM4x_frame (map (fun v => Z.testbit v 0) (tail vs) ++ [false]).
Proof.
  intros Hp Hl Hd.
  transitivity (SendForward (Z.of_nat (length (vs ++ [0]))) (fwd_pushes (vs ++ [0]) s)).
  - unfold SendForward. rewrite fwd_poked_data, length_app. cbn [length].
    replace (Z.of_nat (length vs + 1)) with (Z.of_nat (length vs) + 1) by lia.
    reflexivity.
  - rewrite SendForward_pushes by (rewrite ?length_app; cbn [length]; lia).
    destruct vs as [|v vs]; [cbn in Hl; lia|].
    cbn [app tail]. rewrite map_app. reflexivity.
Qed.

Lemma fwd_pushes_pushes (v1 v2 : list Z) (s : fwd_state) :
  fwd_pushes v2 (fwd_pushes v1 s) = fwd_pushes (v1 ++ v2) s.
Proof.
  unfold fwd_pushes. cbn [forwardLink_data forward_ptr].
  rewrite map_app, list_inserts_app_l, length_map, length_app.
  f_equal; [f_equal|]; lia.
Qed.

Lemma Prepare_Cmd_pushes (cmd : Z) (vs : list Z) (s : fwd_state) :
  Prepare_Cmd cmd (fwd_pushes vs s)
  = (6, fwd_pushes (vs ++ [0; 0; cmd; shr cmd 1; shr cmd 2; shr cmd 3]) s).
Proof. unfold Prepare_Cmd. fwd_exec. reflexivity. Qed.

Lemma Prepare_Addr_pushes (addr : Z) (vs : list Z) (s : fwd_state) :
  Prepare_Addr addr (fwd_pushes vs s)
  = (7, fwd_pushes (vs ++ map (shr addr) (seq 0 6) ++ [ Z.land (line_par addr 6) 1 ]) s).
Proof. unfold Prepare_Addr. fwd_exec. reflexivity. Qed.

Lemma Prepare_Data_pushes_from (data_low data_hi : Z) (vs : list Z) (s : fwd_state) :
  Prepare_Data data_low data_hi (fwd_pushes vs s)
  = (45, fwd_poked 0 (fwd_pushes (vs ++ Prepare_Data_values data_low data_hi) s)).
Proof. rewrite Prepare_Data_pushes, fwd_pushes_pushes. reflexivity. Qed.

Lemma EM4x_cmd_values_bits (cmd : Z) :
  map (fun v => Z.testbit v 0) [cmd; shr cmd 1; shr cmd 2; shr cmd 3]
  = EM4x_cmd_bits cmd.
Proof.
  unfold EM4x_cmd_bits. cbn [seq map]. rewrite !shr_testbit by lia. reflexivity.
Qed.

Lemma EM4x_addr_values_bits (addr : Z) :
  map (fun v => Z.testbit v 0) (map (shr addr) (seq 0 6) ++ [ Z.land (line_par addr 6) 1 ])
  = EM4x_addr_bits addr.
Proof.
  unfold EM4x_addr_bits. cbv zeta. rewrite map_app, map_map. f_equal.
  - apply map_ext. intros j. rewrite shr_testbit by lia. reflexivity.
  - cbn [map]. rewrite Z.land_spec, line_par_testbit. cbn [Z.testbit].
    rewrite andb_true_r. reflexivity.
Qed.

Lemma EM4x_data_values_bits (Data : Z) :
  map (fun v => Z.testbit v 0)
      (Prepare_Data_values (Z.land Data 0xFFFF) (Z.shiftr Data 16))
  = EM4x_data_bits Data.
Proof.
  rewrite <- map_testbit0_uint8, Prepare_Data_values_bits.
  unfold EM4x_data_bits, data_frame_spec.
  f_equal.
  - apply flat_map_ext. intros i. f_equal.
    + apply map_ext. intros j. apply word_bit_halves.
    + f_equal. f_equal. apply map_ext. intros j. apply word_bit_halves.
  - apply map_ext. intros j. f_equal. apply map_ext. intros i. apply word_bit_halves.
Qed.

Lemma EM4x_frame_field_on (bits : list bool) (a : antenna) :
  fpga_mode (antenna_after a (EM4x_frame bits)) = FPGA_MAJOR_MODE_LF_ADC true.
Proof.
  unfold EM4x_frame. rewrite antenna_after_app.
  generalize (eq_refl : fpga_mode (antenna_after a
    [ LFSetupFPGAForADC 95 true; FpgaWriteConfWord FPGA_MAJOR_MODE_OFF; WaitUS (55 * 8);
      FpgaWriteConfWord (FPGA_MAJOR_MODE_LF_ADC true); WaitUS (18 * 8) ])
    = FPGA_MAJOR_MODE_LF_ADC true).
  generalize (antenna_after a
    [ LFSetupFPGAForADC 95 true; FpgaWriteConfWord FPGA_MAJOR_MODE_OFF; WaitUS (55 * 8);
      FpgaWriteConfWord (FPGA_MAJOR_MODE_LF_ADC true); WaitUS (18 * 8) ]).
  induction bits as [|b bits IH]; intros a' Ha'; [exact Ha'|].
  cbn [flat_map]. rewrite antenna_after_app. apply IH.
  destruct b; [exact Ha'|reflexivity].
Qed.

Lemma take_drop_inserts {A} (i : nat) (ws d : list A) :
  (i + length ws <= length d)%nat ->
  take (length ws) (drop i (list_inserts i ws d)) = ws.
Proof.
  intros H. apply list_eq. intros j.
  destruct (decide (j < length ws)%nat) as [Hj|Hj].
  - rewrite lookup_take_lt, lookup_drop by lia.
    rewrite list_lookup_inserts by lia. f_equal. lia.
  - rewrite lookup_take_ge by lia. symmetry. apply lookup_ge_None. lia.
Qed.

Lemma forward_bits_pushes (vs : list Z) (s : fwd_state) :
  (forward_ptr s + length vs <= length (forwardLink_data s))%nat ->
  forward_bits (forward_ptr s) (length vs) (fwd_pushes vs s)
  = map (fun v => Z.testbit v 0) vs.
Proof.
  intros H. unfold forward_bits, fwd_pushes. cbn [forwardLink_data].
  rewrite <- (length_map uint8 vs) at 1.
  rewrite take_drop_inserts by (rewrite length_map; lia).
  apply map_testbit0_uint8.
Qed.

(** X5.  [SendForward] for a count between 1 and the size of the array:
    after the set-up and the start pulse (55 periods off, 18 on) it sends
    one symbol for the low bit of each of the bytes 1 .. count-1, a one as
    32 periods of field, a zero as a gap of 23 periods and 18 periods of
    field.  The byte at index 0 is never read, and the reader field is on
    when the function returns. *)
Theorem SendForward_symbols (fwd_bit_count : Z) (s : fwd_state) (a : antenna) :
  1 <= fwd_bit_count <= 255 ->
  fwd_bit_count <= Z.of_nat (length (forwardLink_data s)) ->
  SendForward fwd_bit_count s
  = EM4x_frame (forward_bits 1 (Z.to_nat fwd_bit_count - 1) s)
  /\ (forall v : Z,
        SendForward fwd_bit_count
          {| forwardLink_data := <[ 0%nat := v ]> (forwardLink_data s);
             forward_ptr := forward_ptr s |}
        = SendForward fwd_bit_count s)
  /\ field_after a (SendForward fwd_bit_count s) = true.
Proof.
  intros Hc Hd.
  assert (E : forall s' : fwd_state,
            length (forwardLink_data s') = length (forwardLink_data s) ->
            SendForward fwd_bit_count s'
            = EM4x_frame (forward_bits 1 (Z.to_nat fwd_bit_count - 1) s')).
  { intros s' Hs'. unfold SendForward, EM4x_frame, forward_bits. f_equal.
    rewrite (uint8_small fwd_bit_count), uint8_small by lia.
    replace (Z.to_nat (fwd_bit_count - 1)) with (Z.to_nat fwd_bit_count - 1)%nat by lia.
    apply SendForward_loop_bits. lia. }
  split; [apply E; reflexivity|]. split.
  - intros v. rewrite !E by (cbn [forwardLink_data]; rewrite ?length_insert; reflexivity).
    unfold forward_bits. cbn [forwardLink_data].
    rewrite drop_insert_lt by lia. reflexivity.
  - rewrite E by reflexivity. unfold field_after, reader_field.
    rewrite EM4x_frame_field_on. reflexivity.
Qed.

Lemma SendForward_symbols_witness :
  (1 <= 3 <= 255 /\ 3 <= Z.of_nat (length [0; 1; 0; 1]))
  /\ SendForward 3 {| forwardLink_data := [0; 1; 0; 1]; forward_ptr := 0 |}
     = EM4x_frame [true; false].
Proof.
  split; [cbn; lia|].
  exact (proj1 (SendForward_symbols 3
                  {| forwardLink_data := [0; 1; 0; 1]; forward_ptr := 0 |} idle
                  ltac:(lia) ltac:(cbn; lia))).
Defined.

(** X6.  [Prepare_Addr], entered with room for 7 bytes: it returns 7,
    advances the cursor by 7 and stores bytes whose low bits are the six
    low address bits, least significant first, followed by their XOR, so
    that the seven bits have even parity.  Address bits 6 and 7 are not
    sent: addresses that differ by a multiple of 64 give the same bits. *)
Theorem Prepare_Addr_frame (addr : Z) (s : fwd_state) :
  (forward_ptr s + 7 <= length (forwardLink_data s))%nat ->
  let r := Prepare_Addr addr s in
  r.1 = 7
  /\ forward_ptr r.2 = (forward_ptr s + 7)%nat
  /\ forward_bits (forward_ptr s) 7 r.2 = EM4x_addr_bits addr
  /\ xor_all (EM4x_addr_bits addr) = false
  /\ EM4x_addr_bits (Z.land addr 0x3F) = EM4x_addr_bits addr.
Proof.
  intros Hlen r.
  assert (E : r = (7, fwd_pushes (map (shr addr) (seq 0 6)
                                   ++ [Z.land (line_par addr 6) 1]) s)).
  { subst r. transitivity (Prepare_Addr addr (fwd_pushes [] s));
      [rewrite fwd_pushes_nil; reflexivity|apply Prepare_Addr_pushes]. }
  rewrite E. cbn [fst snd].
  split; [reflexivity|]. split; [reflexivity|]. split; [|split].
  - rewrite <- EM4x_addr_values_bits.
    apply (forward_bits_pushes (map (shr addr) (seq 0 6) ++ [Z.land (line_par addr 6) 1])).
    exact Hlen.
  - unfold EM4x_addr_bits. cbv zeta. rewrite xor_all_snoc. apply xorb_nilpotent.
  - unfold EM4x_addr_bits. cbv zeta.
    assert (E6 : map (fun i : nat => Z.testbit (Z.land addr 63) (Z.of_nat i)) (seq 0 6)
                = map (fun i : nat => Z.testbit addr (Z.of_nat i)) (seq 0 6)).
    { apply map_ext_in. intros i Hi. apply in_seq in Hi.
      change 63 with (Z.ones 6). rewrite Z.land_spec, Z.ones_spec_low by lia.
      apply andb_true_r. }
    rewrite E6. reflexivity.
Qed.

Lemma Prepare_Addr_frame_witness :
  (forward_ptr fwd_init + 7 <= length (forwardLink_data fwd_init))%nat
  /\ forward_bits 0 7 (Prepare_Addr 0x25 fwd_init).2
     = [true; false; true; false; false; true; true].
Proof.
  split; [cbn; lia|].
  exact (proj1 (proj2 (proj2 (Prepare_Addr_frame 0x25 fwd_init ltac:(cbn; lia))))).
Defined.

(** The frame builders run from the rewound cursor. *)
Lemma fwd_rewind_pushes (s : fwd_state) :
  fwd_rewind s
  = (tt, fwd_pushes [] {| forwardLink_data := forwardLink_data s; forward_ptr := 0 |}).
Proof. reflexivity. Qed.

Lemma length_fwd_poked_pushes (v : Z) (vs : list Z) (s : fwd_state) :
  length (forwardLink_data (fwd_poked v (fwd_pushes vs s)))
  = length (forwardLink_data s).
Proof.
  rewrite fwd_poked_data. unfold fwd_pushes. cbn [forwardLink_data].
  apply length_inserts.
Qed.

Lemma EM4xLogin_frame (Password : Z) (s : fwd_state) :
  (51 <= length (forwardLink_data s))%nat ->
  (EM4xLogin Password s).1 = EM4x_login_trace Password
  /\ length (forwardLink_data (EM4xLogin Password s).2) = length (forwardLink_data s).
Proof.
  intros Hlen. unfold EM4xLogin, fwd_bind, fwd_ret.
  rewrite fwd_rewind_pushes.
  rewrite Prepare_Cmd_pushes. cbv beta iota zeta.
  rewrite Prepare_Data_pushes_from. cbv beta iota zeta. cbn [app fst snd].
  assert (HL : length (Prepare_Data_values (Z.land Password 65535) (Z.shiftr Password 16))
               = 44%nat) by reflexivity.
  pose proof (EM4x_data_values_bits Password) as HB.
  revert HL HB.
  generalize (Prepare_Data_values (Z.land Password 65535) (Z.shiftr Password 16)).
  intros vs HL HB.
  split; [|rewrite length_fwd_poked_pushes; reflexivity].
  unfold EM4x_login_trace. f_equal.
  change (uint8 (6 + 45)) with (Z.of_nat 50 + 1).
  change 50%nat with (6 + 44)%nat. rewrite <- HL.
  change (6 + length vs)%nat
    with (length (0 :: 0 :: FWD_CMD_LOGIN :: shr FWD_CMD_LOGIN 1 :: shr FWD_CMD_LOGIN 2
                    :: shr FWD_CMD_LOGIN 3 :: vs)).
  rewrite SendForward_poked by (cbn [length forwardLink_data forward_ptr]; lia).
  cbn [tail map app]. rewrite HB. reflexivity.
Qed.

Lemma EM4x_read_builder (Address : Z) (s : fwd_state) :
  (13 <= length (forwardLink_data s))%nat ->
  let r := (fwd_rewind ;;;
            c1 <- Prepare_Cmd FWD_CMD_READ ;;
            c2 <- Prepare_Addr Address ;;
            fwd_ret (uint8 (c1 + c2))) s in
  SendForward r.1 r.2
  = EM4x_frame ([false] ++ EM4x_cmd_bits FWD_CMD_READ ++ EM4x_addr_bits Address).
Proof.
  intros Hlen. unfold fwd_bind, fwd_ret. rewrite fwd_rewind_pushes.
  rewrite Prepare_Cmd_pushes. cbv beta iota zeta.
  rewrite Prepare_Addr_pushes. cbv beta iota zeta. cbn [app fst snd].
  pose proof (EM4x_addr_values_bits Address) as HB. revert HB.
  assert (HL : length (map (shr Address) (seq 0 6) ++ [Z.land (line_par Address 6) 1])
               = 7%nat) by reflexivity.
  revert HL.
  generalize (map (shr Address) (seq 0 6) ++ [Z.land (line_par Address 6) 1]).
  intros vs HL HB.
  change (uint8 (6 + 7)) with (Z.of_nat (6 + 7)). rewrite <- HL.
  change (6 + length vs)%nat
    with (length (0 :: 0 :: FWD_CMD_READ :: shr FWD_CMD_READ 1 :: shr FWD_CMD_READ 2
                    :: shr FWD_CMD_READ 3 :: vs)).
  rewrite SendForward_pushes by (cbn [length forwardLink_data forward_ptr]; lia).
  cbn [tail map app]. rewrite HB. reflexivity.
Qed.

Lemma EM4x_write_builder (cmd Address Data : Z) (s : fwd_state) :
  (58 <= length (forwardLink_data s))%nat ->
  let r := (fwd_rewind ;;;
            c1 <- Prepare_Cmd cmd ;;
            c2 <- Prepare_Addr Address ;;
            c3 <- Prepare_Data (Z.land Data 0xFFFF) (Z.shiftr Data 16) ;;
            fwd_ret (uint8 (uint8 (c1 + c2) + c3))) s in
  SendForward r.1 r.2
  = EM4x_frame ([false] ++ EM4x_cmd_bits cmd ++ EM4x_addr_bits Address
                ++ EM4x_data_bits Data ++ [false]).
Proof.
  intros Hlen. unfold fwd_bind, fwd_ret. rewrite fwd_rewind_pushes.
  rewrite Prepare_Cmd_pushes. cbv beta iota zeta.
  rewrite Prepare_Addr_pushes. cbv beta iota zeta.
  rewrite Prepare_Data_pushes_from. cbv beta iota zeta. cbn [app fst snd].
  pose proof (EM4x_addr_values_bits Address) as HA. revert HA.
  assert (HLa : length (map (shr Address) (seq 0 6) ++ [Z.land (line_par Address 6) 1])
                = 7%nat) by reflexivity.
  revert HLa.
  generalize (map (shr Address) (seq 0 6) ++ [Z.land (line_par Address 6) 1]).
  intros va HLa HA.
  pose proof (EM4x_data_values_bits Data) as HB. revert HB.
  assert (HL : length (Prepare_Data_values (Z.land Data 65535) (Z.shiftr Data 16))
               = 44%nat) by reflexivity.
  revert HL.
  generalize (Prepare_Data_values (Z.land Data 65535) (Z.shiftr Data 16)).
  intros vs HL HB.
  pose proof (EM4x_cmd_values_bits cmd) as HC.
  change (uint8 (uint8 (6 + 7) + 45)) with (Z.of_nat (6 + (7 + 44)) + 1).
  rewrite <- HL, <- HLa, <- length_app.
  change (6 + length (va ++ vs))%nat
    with (length (0 :: 0 :: cmd :: shr cmd 1 :: shr cmd 2 :: shr cmd 3 :: va ++ vs)).
  rewrite SendForward_poked
    by (cbn [length forwardLink_data forward_ptr]; rewrite ?length_app; lia).
  cbn [tail]. f_equal.
  change (0 :: cmd :: shr cmd 1 :: shr cmd 2 :: shr cmd 3 :: va ++ vs)
    with ([0] ++ [cmd; shr cmd 1; shr cmd 2; shr cmd 3] ++ va ++ vs).
  rewrite !map_app, HC, HA, HB, <- !app_assoc. reflexivity.
Qed.

Lemma EM4x_protect_builder (Data : Z) (s : fwd_state) :
  (51 <= length (forwardLink_data s))%nat ->
  let r := (fwd_rewind ;;;
            c1 <- Prepare_Cmd FWD_CMD_PROTECT ;;
            c2 <- Prepare_Data (Z.land Data 0xFFFF) (Z.shiftr Data 16) ;;
            fwd_ret (uint8 (c1 + c2))) s in
  SendForward r.1 r.2
  = EM4x_frame ([false] ++ EM4x_cmd_bits FWD_CMD_PROTECT ++ EM4x_data_bits Data
                ++ [false]).
Proof.
  intros Hlen. unfold fwd_bind, fwd_ret. rewrite fwd_rewind_pushes.
  rewrite Prepare_Cmd_pushes. cbv beta iota zeta.
  rewrite Prepare_Data_pushes_from. cbv beta iota zeta. cbn [app fst snd].
  pose proof (EM4x_data_values_bits Data) as HB. revert HB.
  assert (HL : length (Prepare_Data_values (Z.land Data 65535) (Z.shiftr Data 16))
               = 44%nat) by reflexivity.
  revert HL.
  generalize (Prepare_Data_values (Z.land Data 65535) (Z.shiftr Data 16)).
  intros vs HL HB.
  change (uint8 (6 + 45)) with (Z.of_nat (6 + 44) + 1). rewrite <- HL.
  change (6 + length vs)%nat
    with (length (0 :: 0 :: FWD_CMD_PROTECT :: shr FWD_CMD_PROTECT 1
                    :: shr FWD_CMD_PROTECT 2 :: shr FWD_CMD_PROTECT 3 :: vs)).
  rewrite SendForward_poked by (cbn [length forwardLink_data forward_ptr]; lia).
  cbn [tail map app]. rewrite HB. reflexivity.
Qed.

(** An operation of the forward link: an optional login, then one frame. *)
Ltac EM4x_operation login builder :=
  match goal with
  | |- context [if ?c then _ else _] =>
      destruct c;
      [ let E1 := fresh "E1" in
        let E2 := fresh "E2" in
        let tr := fresh "tr" in
        let s1 := fresh "s" in
        lazymatch goal with
        | |- context [EM4xLogin ?Pwd ?s] =>
            destruct (login Pwd s ltac:(lia)) as [E1 E2];
            destruct (EM4xLogin Pwd s) as [tr s1]
        end;
        cbn [fst snd] in E1, E2; subst tr
      | ]
  end;
  lazymatch goal with
  | |- context [fwd_bind fwd_rewind ?k ?s] =>
      let HB := fresh "HB" in
      let c := fresh "c" in
      let s2 := fresh "s" in
      pose proof (builder s ltac:(lia)) as HB; cbv zeta in HB;
      destruct (fwd_bind fwd_rewind k s) as [c s2];
      cbn [fst snd] in HB |- *; rewrite HB; reflexivity
  end.

(** X7.  What [EM4xReadWord] puts on the air, for the 64-byte forward
    array in any state: when [PwdMode] is 1 first the login frame (start
    pulse, a zero, the command LOGIN, the data sub-frame of [Pwd], a zero)
    and a 20 ms wait; then the read frame: start pulse, a zero, the four
    bits of the command READ, the six low address bits and their parity;
    then 400 us of field, the acquisition, and the field is switched off.
    Nothing that the array held before is sent. *)
Theorem EM4xReadWord_frame (Address Pwd PwdMode : Z) (s : fwd_state) :
  length (forwardLink_data s) = 64%nat ->
  (EM4xReadWord Address Pwd PwdMode s).1
  = [ BigBuf_Clear_ext false; LED_ON LED_A; StartTicks ]
    ++ (if PwdMode =? 1 then EM4x_login_trace Pwd else [])
    ++ EM4x_frame ([false] ++ EM4x_cmd_bits FWD_CMD_READ ++ EM4x_addr_bits Address)
    ++ [ WaitUS 400; DoPartialAcquisition 20 true 6000 1000;
         FpgaWriteConfWord FPGA_MAJOR_MODE_OFF; LED_OFF LED_A; cmd_send_ACK ].
Proof.
  intros Hlen. unfold EM4xReadWord.
  EM4x_operation EM4xLogin_frame (EM4x_read_builder Address).
Qed.

Lemma EM4xReadWord_frame_witness :
  length (forwardLink_data fwd_init) = 64%nat
  /\ (EM4xReadWord 5 0 0 fwd_init).1
     = [ BigBuf_Clear_ext false; LED_ON LED_A; StartTicks ]
       ++ EM4x_frame [false; true; false; false; true;
                      true; false; true; false; false; false; false]
       ++ [ WaitUS 400; DoPartialAcquisition 20 true 6000 1000;
            FpgaWriteConfWord FPGA_MAJOR_MODE_OFF; LED_OFF LED_A; cmd_send_ACK ].
Proof.
  split; [reflexivity|].
  exact (EM4xReadWord_frame 5 0 0 fwd_init eq_refl).
Defined.

(** X8.  What [EM4xWriteWord] puts on the air, for the 64-byte forward
    array in any state: the login exchange when bit 0 of [flag] is set;
    then one frame of 57 symbols after the start pulse: a zero, the command
    WRITE, the six low bits of the address in bits 8..15 of [flag] with
    their parity, the data sub-frame of [Data] and a closing zero; then
    6.5 ms of field, the acquisition, and the field is switched off. *)
Theorem EM4xWriteWord_frame (flag Data Pwd : Z) (s : fwd_state) :
  length (forwardLink_data s) = 64%nat ->
  let frame := [false] ++ EM4x_cmd_bits FWD_CMD_WRITE
               ++ EM4x_addr_bits (Z.land (Z.shiftr flag 8) 0xFF)
               ++ EM4x_data_bits Data ++ [false] in
  (EM4xWriteWord flag Data Pwd s).1
  = [ BigBuf_Clear_ext false; LED_ON LED_A; StartTicks ]
    ++ (if negb (Z.land flag 1 =? 0) then EM4x_login_trace Pwd else [])
    ++ EM4x_frame frame
    ++ [ WaitUS 6500; DoPartialAcquisition 20 true 6000 1000;
         FpgaWriteConfWord FPGA_MAJOR_MODE_OFF; LED_OFF LED_A; cmd_send_ACK ]
  /\ length frame = 57%nat.
Proof.
  intros Hlen frame. subst frame. split; [|reflexivity].
  unfold EM4xWriteWord. cbv zeta.
  EM4x_operation EM4xLogin_frame
    (EM4x_write_builder FWD_CMD_WRITE (Z.land (Z.shiftr flag 8) 255) Data).
Qed.

Lemma EM4xWriteWord_frame_witness :
  length (forwardLink_data fwd_init) = 64%nat
  /\ (EM4xWriteWord 0x0400 0x12345678 0 fwd_init).1
     = [ BigBuf_Clear_ext false; LED_ON LED_A; StartTicks ]
       ++ EM4x_frame ([false] ++ EM4x_cmd_bits FWD_CMD_WRITE ++ EM4x_addr_bits 4
                      ++ EM4x_data_bits 0x12345678 ++ [false])
       ++ [ WaitUS 6500; DoPartialAcquisition 20 true 6000 1000;
            FpgaWriteConfWord FPGA_MAJOR_MODE_OFF; LED_OFF LED_A; cmd_send_ACK ].
Proof.
  split; [reflexivity|].
  exact (proj1 (EM4xWriteWord_frame 0x0400 0x12345678 0 fwd_init eq_refl)).
Defined.

(** X9.  What [EM4xProtect] puts on the air, for the 64-byte forward
    array in any state: the login exchange when bit 0 of [flag] is set;
    then one frame: a zero, the command PROTECT, the data sub-frame of
    [Data] and a closing zero, with no address; then 6.5 ms of field, the
    acquisition, and the field is switched off.  The other bits of [flag]
    have no effect. *)
Theorem EM4xProtect_frame (flag Data Pwd : Z) (s : fwd_state) :
  length (forwardLink_data s) = 64%nat ->
  (EM4xProtect flag Data Pwd s).1
  = [ BigBuf_Clear_ext false; LED_ON LED_A; StartTicks ]
    ++ (if negb (Z.land flag 1 =? 0) then EM4x_login_trace Pwd else [])
    ++ EM4x_frame ([false] ++ EM4x_cmd_bits FWD_CMD_PROTECT ++ EM4x_data_bits Data
                   ++ [false])
    ++ [ WaitUS 6500; DoPartialAcquisition 20 true 6000 1000;
         FpgaWriteConfWord FPGA_MAJOR_MODE_OFF; LED_OFF LED_A; cmd_send_ACK ].
Proof.
  intros Hlen. unfold EM4xProtect. cbv zeta.
  EM4x_operation EM4xLogin_frame (EM4x_protect_builder Data).
Qed.

Lemma EM4xProtect_frame_witness :
  length (forwardLink_data fwd_init) = 64%nat
  /\ (EM4xProtect 1 0x00008002 0xCAFEBABE fwd_init).1
     = [ BigBuf_Clear_ext false; LED_ON LED_A; StartTicks ]
       ++ EM4x_login_trace 0xCAFEBABE
       ++ EM4x_frame ([false] ++ EM4x_cmd_bits FWD_CMD_PROTECT
                      ++ EM4x_data_bits 0x00008002 ++ [false])
       ++ [ WaitUS 6500; DoPartialAcquisition 20 true 6000 1000;
            FpgaWriteConfWord FPGA_MAJOR_MODE_OFF; LED_OFF LED_A; cmd_send_ACK ].
Proof.
  split; [reflexivity|].
  exact (EM4xProtect_frame 1 0x00008002 0xCAFEBABE fwd_init eq_refl).
Defined.

(** ** The EM410x pattern *)

Lemma bits_value_snoc (bs : list bool) (b : bool) :
  bits_value (bs ++ [b]) = 2 * bits_value bs + Z.b2z b.
Proof. unfold bits_value. rewrite fold_left_app. reflexivity. Qed.

Lemma bits_value_bound (bs : list bool) :
  0 <= bits_value bs < 2 ^ Z.of_nat (length bs).
Proof.
  induction bs as [|b bs IH] using rev_ind; [cbn; lia|].
  rewrite bits_value_snoc, length_app. cbn [length].
  replace (Z.of_nat (length bs + 1)) with (Z.succ (Z.of_nat (length bs))) by lia.
  rewrite Z.pow_succ_r by lia. destruct b; cbn [Z.b2z]; lia.
Qed.

Lemma lor_shiftl_bit (v : Z) (b : bool) :
  Z.lor (Z.shiftl v 1) (Z.b2z b) = 2 * v + Z.b2z b.
Proof.
  rewrite Z.shiftl_mul_pow2 by lia. change (2 ^ 1) with 2.
  rewrite (Z.mul_comm v 2).
  destruct b; cbn [Z.b2z]; [|rewrite Z.lor_0_r; lia].
  apply Z.bits_inj'. intros n Hn. rewrite Z.lor_spec.
  destruct (Z.eqb_spec n 0) as [->|Hne].
  - rewrite Z.testbit_odd_0. apply orb_true_r.
  - replace n with (Z.succ (Z.pred n)) by lia.
    rewrite Z.testbit_odd_succ, Z.testbit_even_succ by lia.
    replace (Z.testbit 1 (Z.succ (Z.pred n))) with false; [apply orb_false_r|].
    symmetry. change 1 with (2 ^ 0). apply Z.pow2_bits_false. lia.
Qed.

(** Shifting one bit into a pattern of fewer than 64 bits. *)
Lemma bits_value_push (bs : list bool) (b : bool) :
  (length bs < 64)%nat ->
  uint64 (Z.lor (Z.shiftl (bits_value bs) 1) (Z.b2z b)) = bits_value (bs ++ [b]).
Proof.
  intros H. rewrite lor_shiftl_bit, <- bits_value_snoc. unfold uint64.
  apply Z.mod_small. pose proof (bits_value_bound (bs ++ [b])) as Hb.
  rewrite length_app in Hb. cbn [length] in Hb.
  assert (2 ^ Z.of_nat (length bs + 1) <= 2 ^ 64) by (apply Z.pow_le_mono_r; lia).
  lia.
Qed.

Lemma bits_msb_S (n : nat) (x : Z) :
  bits_msb (S n) x = bits_msb n (Z.shiftr x 1) ++ [ Z.testbit x 0 ].
Proof.
  unfold bits_msb. change (seq 0 (S n)) with (0%nat :: seq 1 n).
  cbn [rev]. rewrite map_app. cbn [map]. f_equal.
  rewrite <- seq_shift, <- map_rev, map_map. apply map_ext. intros i.
  rewrite Z.shiftr_spec by lia. f_equal. lia.
Qed.

(** Reading back the bits of a pattern. *)
Lemma bits_msb_bits_value (bs : list bool) :
  bits_msb (length bs) (bits_value bs) = bs.
Proof.
  induction bs as [|b bs IH] using rev_ind; [reflexivity|].
  rewrite length_app. cbn [length]. rewrite Nat.add_1_r, bits_msb_S.
  rewrite bits_value_snoc.
  replace (Z.shiftr (2 * bits_value bs + Z.b2z b) 1) with (bits_value bs).
  2:{ rewrite Z.shiftr_div_pow2 by lia. change (2 ^ 1) with 2.
      destruct b; cbn [Z.b2z]; Z.div_mod_to_equations; lia. }
  rewrite IH. f_equal. f_equal.
  destruct b; cbn [Z.b2z]; [rewrite Z.testbit_odd_0|rewrite Z.add_0_r, Z.testbit_even_0];
    reflexivity.
Qed.

Lemma land_1_b2z (x : Z) : Z.land x 1 = Z.b2z (Z.testbit x 0).
Proof.
  change 1 with (Z.ones 1). rewrite Z.land_ones by lia. change (2 ^ 1) with 2.
  rewrite Z.bit0_mod. reflexivity.
Qed.

Lemma lxor_b2z (a b : bool) : Z.lxor (Z.b2z a) (Z.b2z b) = Z.b2z (xorb a b).
Proof. destruct a, b; reflexivity. Qed.

Lemma insert_map_b2z (i : nat) (b : bool) (cp : list bool) :
  <[ i := Z.b2z b ]> (map Z.b2z cp) = map Z.b2z (<[ i := b ]> cp).
Proof.
  revert i. induction cp as [|c cp IH]; intros i; [reflexivity|].
  destruct i as [|i]; [reflexivity|]. cbn [map]. cbn. f_equal. apply IH.
Qed.

Lemma lookup_total_map_b2z (k : nat) (cp : list bool) :
  (k < length cp)%nat -> map Z.b2z cp !!! k = Z.b2z (nth k cp false).
Proof.
  revert k. induction cp as [|c cp IH]; intros k Hk; [cbn in Hk; lia|].
  destruct k as [|k]; [reflexivity|]. cbn [length] in Hk.
  cbn [map nth]. rewrite <- IH by lia. reflexivity.
Qed.

(** One step of the second loop of [WriteEM410x] on numbers is one step
    on bit lists. *)
Lemma EM410x_frame_step_sim (rev : Z) (bs : list bool) (rp : bool) (cp : list bool)
    (i : nat) :
  length cp = 4%nat -> (length bs + 2 <= 64)%nat ->
  EM410x_frame_step (bits_value bs, shr rev i, Z.b2z rp, map Z.b2z cp) i
  = (let '(bs', rp', cp') :=
       EM410x_frame_step_bits (fun j => Z.testbit rev (Z.of_nat j)) (bs, rp, cp) i in
     (bits_value bs', shr rev (S i), Z.b2z rp', map Z.b2z cp')).
Proof.
  intros Hcp Hbs. unfold EM410x_frame_step, EM410x_frame_step_bits.
  rewrite land_1_b2z, shr_testbit by lia. rewrite Z.add_0_l.
  change (Z.shiftr (shr rev i) 1) with (shr rev (S i)).
  assert (Hm : (i mod 4 < length cp)%nat)
    by (rewrite Hcp; apply Nat.mod_upper_bound; lia).
  rewrite lookup_total_map_b2z, lxor_b2z, !insert_map_b2z by exact Hm.
  destruct (i mod 4 =? 0)%nat, (i =? 0)%nat, (i <? 4)%nat;
    rewrite ?lxor_b2z, ?insert_map_b2z, ?bits_value_push
      by (rewrite ?length_app; cbn [length]; lia);
    reflexivity.
Qed.

Lemma uint64_shift_in_testbit (r x j : Z) :
  0 <= j < 64 ->
  Z.testbit (uint64 (Z.lor (Z.shiftl r 1) (Z.land x 1))) j
  = if j =? 0 then Z.testbit x 0 else Z.testbit r (j - 1).
Proof.
  intros Hj. unfold uint64. rewrite Z.mod_pow2_bits_low by lia.
  rewrite Z.lor_spec, Z.shiftl_spec, Z.land_spec by lia.
  destruct (Z.eqb_spec j 0) as [->|Hne].
  - rewrite Z.testbit_neg_r by lia. cbn. apply andb_true_r.
  - replace (Z.testbit 1 j) with false; [rewrite andb_false_r; apply orb_false_r|].
    symmetry. change 1 with (2 ^ 0). apply Z.pow2_bits_false. lia.
Qed.

(** Shifting in the [n] low bits of [x] reverses their order. *)
Lemma EM410x_shift_in_iter (n : nat) (r x : Z) :
  let st := Nat.iter n EM410x_shift_in (r, x) in
  st.2 = shr x n
  /\ forall j : Z, 0 <= j < 64 ->
       Z.testbit st.1 j
       = if j <? Z.of_nat n then Z.testbit x (Z.of_nat n - 1 - j)
         else Z.testbit r (j - Z.of_nat n).
Proof.
  induction n as [|n IH]; cbv zeta.
  - split; [reflexivity|]. intros j Hj.
    destruct (Z.ltb_spec j (Z.of_nat 0)); [lia|]. cbn. f_equal. lia.
  - cbv zeta in IH. rewrite Nat.iter_succ.
    destruct (Nat.iter n EM410x_shift_in (r, x)) as [rn xn].
    cbn [fst snd] in IH. destruct IH as [IH2 IH1]. subst xn.
    unfold EM410x_shift_in. cbn [fst snd].
    split; [reflexivity|]. intros j Hj.
    rewrite uint64_shift_in_testbit, shr_testbit by lia.
    destruct (Z.eqb_spec j 0) as [->|Hne].
    + destruct (Z.ltb_spec 0 (Z.of_nat (S n))); [|lia]. f_equal. lia.
    + rewrite IH1 by lia.
      destruct (Z.ltb_spec (j - 1) (Z.of_nat n)), (Z.ltb_spec j (Z.of_nat (S n)));
        try lia; f_equal; lia.
Qed.

Lemma EM410x_bits_loop_pattern (bit : nat -> bool) :
  let '(bs, rp, cp) :=
    fold_left (EM410x_frame_step_bits bit) (seq 0 40)
              (replicate 9 true, false, replicate 4 false) in
  bs ++ [rp] ++ cp ++ [false] = EM410x_pattern bit.
Proof.
  cbv [fold_left seq EM410x_frame_step_bits replicate Nat.modulo Nat.divmod
       Nat.eqb Nat.ltb Nat.leb fst snd Nat.sub app nth
       insert list_insert EM410x_pattern flat_map map Nat.mul Nat.add xor_all foldr].
  repeat (apply cons_eq; [ try reflexivity; btauto | ]).
  reflexivity.
Qed.

Lemma EM410x_reverse_lo_iter (idxs : list nat) (r h l : Z) :
  Forall (fun i => (i < 32)%nat) idxs ->
  fold_left EM410x_reverse_step idxs (r, h, l)
  = ((Nat.iter (length idxs) EM410x_shift_in (r, l)).1, h,
     (Nat.iter (length idxs) EM410x_shift_in (r, l)).2).
Proof.
  intros H. revert r l. induction H as [|i idxs Hi _ IH]; intros r l; [reflexivity|].
  cbn [fold_left length]. rewrite !Nat.iter_succ_r.
  unfold EM410x_reverse_step at 2. apply Nat.ltb_lt in Hi. rewrite Hi.
  rewrite IH. reflexivity.
Qed.

Lemma EM410x_reverse_hi_iter (idxs : list nat) (r h l : Z) :
  Forall (fun i => (32 <= i)%nat) idxs ->
  fold_left EM410x_reverse_step idxs (r, h, l)
  = ((Nat.iter (length idxs) EM410x_shift_in (r, h)).1,
     (Nat.iter (length idxs) EM410x_shift_in (r, h)).2, l).
Proof.
  intros H. revert r h. induction H as [|i idxs Hi _ IH]; intros r h; [reflexivity|].
  cbn [fold_left length]. rewrite !Nat.iter_succ_r.
  unfold EM410x_reverse_step at 2. apply Nat.ltb_ge in Hi. rewrite Hi.
  rewrite IH. reflexivity.
Qed.

(** Bit [i] of the reversed ID is bit [39 - i] of the ID. *)
Lemma EM410x_reverse_testbit (id_hi id_lo : Z) (i : nat) :
  (i < 40)%nat ->
  Z.testbit (EM410x_reverse id_hi id_lo) (Z.of_nat i) = EM410x_id_bit id_hi id_lo i.
Proof.
  intros Hi. unfold EM410x_reverse, EM410x_id_bit.
  change (seq 0 EM410X_ID_LENGTH) with (seq 0 32 ++ seq 32 8).
  rewrite fold_left_app.
  rewrite EM410x_reverse_lo_iter
    by (apply Forall_forall; intros k Hk; apply elem_of_seq in Hk; lia).
  rewrite EM410x_reverse_hi_iter
    by (apply Forall_forall; intros k Hk; apply elem_of_seq in Hk; lia).
  rewrite !length_seq. cbn [fst snd].
  destruct (EM410x_shift_in_iter 32 0 id_lo) as [_ Hlo]. cbv zeta in Hlo.
  revert Hlo. generalize (Nat.iter 32 EM410x_shift_in (0, id_lo)).1. intros r32 Hlo.
  destruct (EM410x_shift_in_iter 8 r32 id_hi) as [_ Hhi]. cbv zeta in Hhi.
  rewrite Hhi by lia.
  destruct (Nat.ltb_spec i 8) as [H8|H8].
  - destruct (Z.ltb_spec (Z.of_nat i) (Z.of_nat 8)); [|lia]. f_equal. lia.
  - destruct (Z.ltb_spec (Z.of_nat i) (Z.of_nat 8)); [lia|].
    rewrite Hlo by lia.
    destruct (Z.ltb_spec (Z.of_nat i - Z.of_nat 8) (Z.of_nat 32)); [|lia].
    f_equal. lia.
Qed.

(** The second loop of [WriteEM410x] on numbers follows the loop on bit
    lists for all 40 ID bits. *)
Lemma EM410x_frame_loop_sim (rev : Z) (n : nat) :
  (n <= 40)%nat ->
  let bit := fun j : nat => Z.testbit rev (Z.of_nat j) in
  let st := fold_left (EM410x_frame_step_bits bit) (seq 0 n)
                      (replicate 9 true, false, replicate 4 false) in
  fold_left EM410x_frame_step (seq 0 n) (EM410X_HEADER, rev, 0, [0; 0; 0; 0])
  = (bits_value st.1.1, shr rev n, Z.b2z st.1.2, map Z.b2z st.2)
  /\ length st.1.1 = (9 + n + (n - 1) / 4)%nat
  /\ length st.2 = 4%nat.
Proof.
  intros Hn bit. induction n as [|n IH]; [repeat split|].
  cbv zeta in IH |- *. rewrite seq_S, !fold_left_app. cbn [fold_left plus].
  destruct IH as (IH & Hbs & Hcp); [lia|].
  rewrite IH.
  destruct (fold_left (EM410x_frame_step_bits bit) (seq 0 n)
                      (replicate 9 true, false, replicate 4 false)) as [[bs rp] cp].
  cbn [fst snd] in Hbs, Hcp |- *.
  assert (Hq : ((n - 1) / 4 <= 9)%nat).
  { pose proof (Nat.div_mod_eq (n - 1) 4). lia. }
  rewrite EM410x_frame_step_sim by lia.
  fold bit.
  unfold EM410x_frame_step_bits.
  split; [|split].
  - destruct (n mod 4 =? 0)%nat, (n =? 0)%nat, (n <? 4)%nat; reflexivity.
  - assert (Hlen : length (if (n mod 4 =? 0)%nat
                           then (if (n =? 0)%nat then bs else bs ++ [rp]) else bs)
                   = (9 + n + n / 4)%nat).
    { pose proof (Nat.div_mod_eq n 4) as E1.
      pose proof (Nat.mod_upper_bound n 4 ltac:(lia)) as B1.
      pose proof (Nat.div_mod_eq (n - 1) 4) as E2.
      pose proof (Nat.mod_upper_bound (n - 1) 4 ltac:(lia)) as B2.
      destruct (Nat.eqb_spec (n mod 4) 0) as [Hm|Hm];
        [destruct (Nat.eqb_spec n 0) as [Hz|Hz]|];
        rewrite ?length_app, Hbs; cbn [length]; lia. }
    replace (S n - 1)%nat with n by lia.
    destruct (n mod 4 =? 0)%nat, (n =? 0)%nat, (n <? 4)%nat;
      cbn [fst snd]; rewrite length_app; cbn [length]; lia.
  - destruct (n mod 4 =? 0)%nat, (n =? 0)%nat, (n <? 4)%nat;
      cbn [fst snd]; rewrite length_insert; exact Hcp.
Qed.

Lemma EM410x_pattern_ext (f g : nat -> bool) :
  (forall i : nat, (i < 40)%nat -> f i = g i) ->
  EM410x_pattern f = EM410x_pattern g.
Proof.
  intros H. unfold EM410x_pattern. f_equal. f_equal; [|f_equal].
  - rewrite !flat_map_concat_map. f_equal.
    apply map_ext_in. intros r Hr. apply in_seq in Hr.
    assert (E : map (fun k : nat => f (4 * r + k)%nat) (seq 0 4)
                = map (fun k : nat => g (4 * r + k)%nat) (seq 0 4)).
    { apply map_ext_in. intros k Hk. apply in_seq in Hk. apply H. lia. }
    rewrite E. reflexivity.
  - apply map_ext_in. intros k Hk. apply in_seq in Hk. f_equal.
    apply map_ext_in. intros r Hr. apply in_seq in Hr. apply H. lia.
Qed.

Lemma EM410x_id_value (id_hi id_lo : Z) :
  EM410x_id id_hi id_lo = bits_value (EM410x_pattern (EM410x_id_bit id_hi id_lo)).
Proof.
  rewrite <- (EM410x_pattern_ext
                (fun j : nat => Z.testbit (EM410x_reverse id_hi id_lo) (Z.of_nat j)))
    by (intros i Hi; apply EM410x_reverse_testbit; exact Hi).
  unfold EM410x_id. cbv zeta.
  generalize (EM410x_reverse id_hi id_lo). intros rev.
  destruct (EM410x_frame_loop_sim rev 40 ltac:(lia)) as (E & Hbs & Hcp).
  cbv zeta in E, Hbs, Hcp. change (seq 0 EM410X_ID_LENGTH) with (seq 0 40). rewrite E.
  pose proof (EM410x_bits_loop_pattern (fun j : nat => Z.testbit rev (Z.of_nat j))) as HP.
  revert HP Hbs Hcp. clear E.
  generalize (EM410x_pattern (fun j : nat => Z.testbit rev (Z.of_nat j))). intros pat.
  destruct (fold_left _ (seq 0 40) (replicate 9 true, false, replicate 4 false))
    as [[bs rp] cp].
  cbn [fst snd]. intros HP Hbs Hcp.
  change ((9 + 40 + (40 - 1) / 4)%nat) with 58%nat in Hbs.
  destruct cp as [|c0 [|c1 [|c2 [|c3 [|c4 cp]]]]]; try discriminate Hcp.
  cbn [seq fold_left map lookup_total list_lookup_total].
  rewrite <- (Z.lor_0_r (Z.shiftl _ 1)). change 0 with (Z.b2z false) at 1.
  rewrite !bits_value_push by (rewrite ?length_app; cbn [length]; lia).
  rewrite <- HP, <- !app_assoc. reflexivity.
Qed.

Lemma EM410x_id_bits (id_hi id_lo : Z) :
  bits_msb 64 (EM410x_id id_hi id_lo) = EM410x_pattern (EM410x_id_bit id_hi id_lo).
Proof.
  rewrite EM410x_id_value.
  exact (bits_msb_bits_value (EM410x_pattern (EM410x_id_bit id_hi id_lo))).
Qed.

(** X10.  The 64-bit pattern that [WriteEM410x] computes for an ID, read
    most significant bit first: nine header ones; the 40 ID bits
    ([id_hi[7:0]] then [id_lo[31:0]], most significant first) in ten rows
    of four, each row followed by its XOR (even row parity); four bits
    holding the XOR of each column; and a stop bit 0. *)
Theorem EM410x_id_pattern (id_hi id_lo : Z) :
  bits_msb 64 (EM410x_id id_hi id_lo) = EM410x_pattern (EM410x_id_bit id_hi id_lo)
  /\ EM410x_id id_hi id_lo = bits_value (EM410x_pattern (EM410x_id_bit id_hi id_lo)).
Proof. split; [apply EM410x_id_bits|apply EM410x_id_value]. Qed.

Lemma bits_msb_cons (k : nat) (x : Z) :
  bits_msb (S k) x = Z.testbit x (Z.of_nat k) :: bits_msb k x.
Proof. unfold bits_msb. rewrite seq_S, rev_app_distr. reflexivity. Qed.

Lemma bits_msb_split (n m : nat) (x : Z) :
  bits_msb (n + m) x = bits_msb n (Z.shiftr x (Z.of_nat m)) ++ bits_msb m x.
Proof.
  induction n as [|n IH]; [reflexivity|].
  cbn [plus]. rewrite !bits_msb_cons, IH. cbn [app]. f_equal.
  rewrite Z.shiftr_spec by lia. f_equal. lia.
Qed.

Lemma bits_msb_low (k : nat) (x y : Z) :
  (forall i : Z, 0 <= i < Z.of_nat k -> Z.testbit x i = Z.testbit y i) ->
  bits_msb k x = bits_msb k y.
Proof.
  intros H. unfold bits_msb. apply map_ext_in. intros i Hi.
  apply in_rev, in_seq in Hi. apply H. lia.
Qed.

Lemma length_bits_msb (k : nat) (x : Z) : length (bits_msb k x) = k.
Proof. unfold bits_msb. rewrite length_map, length_rev. apply length_seq. Qed.

(** X11.  When [WriteEM410x] writes (a T5555 target, or a T55x7 target
    with a clock rate of the table), it sends three frames, in this order:
    block 2 with the low 32 bits of the EM410x pattern, block 1 with its
    high 32 bits, and block 0 with the configuration word, each as a plain
    write (opcode 1 0, lock bit 0). *)
Theorem WriteEM410x_blocks (P : protocols_h) (card id_hi id_lo : Z) :
  Z.land card 0xFF = 0 \/ GetT55xxClockBit P (EM410x_clock card) <> 0 ->
  let pattern := EM410x_pattern (EM410x_id_bit id_hi id_lo) in
  let config :=
    if Z.land card 0xFF =? 0
    then Z.lor (Z.lor (T5555_SET_BITRATE P (EM410x_clock card))
                      (T5555_MODULATION_MANCHESTER P))
               (uint32 (Z.shiftl 2 (T5555_MAXBLOCK_SHIFT P)))
    else Z.lor (Z.lor (GetT55xxClockBit P (EM410x_clock card))
                      (T55x7_MODULATION_MANCHESTER P))
               (uint32 (Z.shiftl 2 (T55x7_MAXBLOCK_SHIFT P))) in
  T55xx_frames (WriteEM410x P card id_hi id_lo)
  = [ [true; false; false] ++ drop 32 pattern ++ [false; true; false];
      [true; false; false] ++ take 32 pattern ++ [false; false; true];
      [true; false; false] ++ bits_msb 32 config ++ [false; false; false] ].
Proof.
  intros H pattern config. subst pattern config.
  rewrite <- (EM410x_id_bits id_hi id_lo).
  change 64%nat with (32 + 32)%nat. rewrite bits_msb_split.
  rewrite take_app_length', drop_app_length' by (symmetry; apply length_bits_msb).
  unfold WriteEM410x, T55xx_frames.
  generalize (EM410x_id id_hi id_lo). intros id.
  assert (Hhi : bits_msb 32 (uint32 (Z.shiftr id 32)) = bits_msb 32 (Z.shiftr id 32)).
  { apply bits_msb_low. intros i Hi. unfold uint32.
    apply Z.mod_pow2_bits_low. lia. }
  assert (Hlo : bits_msb 32 (Z.land id 0xFFFFFFFF) = bits_msb 32 id).
  { apply bits_msb_low. intros i Hi. change 0xFFFFFFFF with (Z.ones 32).
    rewrite Z.land_spec, Z.ones_spec_low by lia. apply andb_true_r. }
  destruct (Z.eqb_spec (Z.land card 0xFF) 0) as [E0|E0]; cbn [negb].
  - cbn [app T55xx_segments].
    unfold WriteT55xx. cbn [list_insert insert].
    rewrite WriteT55xx_calls_3, T55xx_segments_WriteT55xx_then by reflexivity.
    cbn [tail map fst snd]. unfold write_frame. rewrite Hhi, Hlo. reflexivity.
  - destruct H as [H|H]; [contradiction|].
    destruct (Z.eqb_spec (GetT55xxClockBit P (EM410x_clock card)) 0) as [E|_];
      [contradiction|].
    cbn [app T55xx_segments].
    unfold WriteT55xx. cbn [list_insert insert].
    rewrite WriteT55xx_calls_3, T55xx_segments_WriteT55xx_then by reflexivity.
    cbn [tail map fst snd]. unfold write_frame. rewrite Hhi, Hlo. reflexivity.
Qed.

Lemma WriteEM410x_blocks_witness :
  (Z.land 0 0xFF = 0 \/ GetT55xxClockBit sample_protocols (EM410x_clock 0) <> 0)
  /\ T55xx_frames (WriteEM410x sample_protocols 0 0x12 0x3456789A)
     = [ [true; false; false]
         ++ drop 32 (EM410x_pattern (EM410x_id_bit 0x12 0x3456789A))
         ++ [false; true; false];
         [true; false; false]
         ++ take 32 (EM410x_pattern (EM410x_id_bit 0x12 0x3456789A))
         ++ [false; false; true];
         [true; false; false] ++ bits_msb 32 0x1F004 ++ [false; false; false] ].
Proof.
  split; [left; reflexivity|].
  exact (WriteEM410x_blocks sample_protocols 0 0x12 0x3456789A ltac:(left; reflexivity)).
Defined.

(** ** Lengths of the simulation waveforms *)

Lemma put_cursor (v : Z) (b : wave_buf) : (put v b).2 = b.2 + 1.
Proof. reflexivity. Qed.

Lemma repeat_op_cursor (k : nat) (f : wave_buf -> wave_buf) (d : Z) (b : wave_buf) :
  (forall b' : wave_buf, (f b').2 = b'.2 + d) ->
  (repeat_op k f b).2 = b.2 + Z.of_nat k * d.
Proof.
  intros Hf. revert b. induction k as [|k IH]; intros b; [cbn; lia|].
  cbn [repeat_op]. rewrite IH, Hf. lia.
Qed.

(** [fc] advances the cursor by 8 samples for the filler, by 48 for an
    fc/8 bit half and by 50 for an fc/10 bit half; any other argument
    writes nothing. *)
Lemma fc_cursor (c : Z) (b : wave_buf) :
  (fc c b).2
  = b.2 + (if c =? 0 then 8 else if c =? 8 then 48 else if c =? 10 then 50 else 0).
Proof.
  unfold fc. cbv zeta.
  destruct (Z.eqb_spec c 0) as [->|H0]; [cbn [Z.eqb]; rewrite !put_cursor; lia|].
  destruct (Z.eqb_spec c 8) as [->|H8].
  - cbn [Z.eqb Pos.eqb].
    rewrite (repeat_op_cursor 6 _ 8) by (intros b'; rewrite !put_cursor; lia). lia.
  - destruct (Z.eqb_spec c 10) as [->|H10]; [|lia].
    rewrite (repeat_op_cursor 5 _ 10) by (intros b'; rewrite !put_cursor; lia). lia.
Qed.

Lemma HID_bits_cursor (count : nat) (v : Z) (b : wave_buf) :
  (HID_bits count v b).2 = b.2 + 98 * Z.of_nat count + 8 * Z.of_nat (count / 4).
Proof.
  unfold HID_bits. revert b. induction count as [|n IH]; intros b; [cbn; lia|].
  rewrite seq_S, rev_app_distr. cbn [rev app fold_left plus].
  rewrite IH.
  assert (Hstep : forall b0 : wave_buf,
            (if Z.land (Z.shiftr v (Z.of_nat n)) 1 =? 1
             then fc 8 (fc 10 b0) else fc 10 (fc 8 b0)).2 = b0.2 + 98).
  { intros b0. destruct (Z.land (Z.shiftr v (Z.of_nat n)) 1 =? 1);
      rewrite !fc_cursor; cbn [Z.eqb Pos.eqb]; lia. }
  rewrite Hstep.
  pose proof (Nat.div_mod_eq n 4) as E1.
  pose proof (Nat.mod_upper_bound n 4 ltac:(lia)) as B1.
  pose proof (Nat.div_mod_eq (S n) 4) as E2.
  pose proof (Nat.mod_upper_bound (S n) 4 ltac:(lia)) as B2.
  destruct (Nat.eqb_spec (n mod 4) 3) as [H3|H3]; rewrite ?fc_cursor; cbn [Z.eqb]; lia.
Qed.

(** X12.  The HID waveform has a length that does not depend on the ID:
    4800 samples for the 44-bit format and 9600 samples when [hi2] is
    positive or [hi] exceeds 0xFFF.  Every ID bit takes 98 samples (an
    fc/8 and an fc/10 half, in the order given by the bit), with a filler
    of 8 samples for every group of four bits. *)
Theorem HID_encode_length (hi2 hi lo : Z) (dest : list Z) :
  (HID_encode hi2 hi lo dest).2
  = (if (0 <? hi2) || (0xFFF <? hi) then 9600 else 4800)
  /\ (forall (count : nat) (v : Z) (b : wave_buf),
        (HID_bits count v b).2
        = b.2 + 98 * Z.of_nat count + 8 * Z.of_nat (count / 4)).
Proof.
  split; [|apply HID_bits_cursor].
  unfold HID_encode. cbv zeta.
  destruct ((0 <? hi2) || (0xFFF <? hi));
    rewrite !HID_bits_cursor, !fc_cursor; cbn; lia.
Qed.

Lemma askSimBit_cursor (c clock manchester : Z) (b : wave_buf) :
  (askSimBit c clock manchester b).2 = b.2 + clock.
Proof. reflexivity. Qed.

Lemma ask_pass_cursor (f : Z -> Z) (clk encoding : Z) (BitStream : list Z) (b : wave_buf) :
  (fold_left (fun b bit => askSimBit (f bit) clk encoding b) BitStream b).2
  = b.2 + clk * Z.of_nat (length BitStream).
Proof.
  revert b. induction BitStream as [|bit bs IH]; intros b; [cbn; lia|].
  cbn [fold_left length]. rewrite IH, askSimBit_cursor. lia.
Qed.

Lemma biphase_encode_cursor (clk invert : Z) (BitStream dest : list Z) :
  (biphase_encode clk invert BitStream dest).1.2
  = (if odd_zeros invert BitStream then 2 else 1) * (clk * Z.of_nat (length BitStream)).
Proof.
  unfold biphase_encode.
  set (first := biphase_pass clk invert BitStream ((dest, 0), 0)).
  assert (Hfirst : first.2 = Z.b2z (odd_zeros invert BitStream)).
  { pose proof (biphase_pass_phase clk invert BitStream (dest, 0) false) as H.
    rewrite xorb_false_r in H. exact H. }
  cbv zeta. rewrite Hfirst.
  destruct (odd_zeros invert BitStream); cbn [Z.b2z Z.eqb Pos.eqb];
    subst first; rewrite !biphase_pass_cursor; cbn [fst snd]; lia.
Qed.

(** X13.  The number of samples that [CmdASKsimTag] composes, and then
    plays as one period: [clk] samples per bit, for one pass over the bit
    stream or for two.  The second pass is made in the biphase encoding
    when the stream holds an odd number of zeros to send, and in the raw
    encoding when the first and the last bit of the stream are equal;
    Manchester never has one.  The sequence terminator adds four clocks,
    and only in the Manchester encoding. *)
Theorem ASK_encode_length (arg1 arg2 : Z) (BitStream dest : list Z) :
  let clk := Z.land (Z.shiftr arg1 8) 0xFF in
  let encoding := Z.land arg1 0xFF in
  let separator := Z.land arg2 1 in
  let invert := Z.land (Z.shiftr arg2 8) 1 in
  let passes :=
    if encoding =? 2 then (if odd_zeros invert BitStream then 2 else 1)
    else if (encoding =? 0)
            && (BitStream !!! 0%nat =? BitStream !!! (length BitStream - 1)%nat)
         then 2 else 1 in
  (ASK_encode arg1 arg2 BitStream dest).2
  = passes * (clk * Z.of_nat (length BitStream))
    + (if (separator =? 1) && (encoding =? 1) then 4 * clk else 0).
Proof.
  intros clk encoding separator invert passes. subst passes.
  unfold ASK_encode. fold clk encoding separator invert.
  assert (Hst : forall b : wave_buf,
            (if (separator =? 1) && (encoding =? 1) then stAskSimBit clk b else b).2
            = b.2 + (if (separator =? 1) && (encoding =? 1) then 4 * clk else 0)).
  { intros b. destruct ((separator =? 1) && (encoding =? 1));
      [unfold stAskSimBit; cbn [snd]|]; lia. }
  rewrite Hst. f_equal.
  destruct (encoding =? 2).
  - apply biphase_encode_cursor.
  - unfold ask_encode.
    destruct ((encoding =? 0)
              && (BitStream !!! 0%nat =? BitStream !!! (length BitStream - 1)%nat));
      rewrite ?ask_pass_cursor; cbn [snd]; lia.
Qed.

(** X14.  With an odd clock the Manchester bit of [askSimBit] leaves the
    last sample of its slot as it was: the two halves cover
    [2 * (clock / 2)] samples while the cursor advances by [clock]. *)
Theorem askSimBit_odd_clock_gap (c clock n : Z) (dest : list Z) :
  0 <= n -> 0 < clock -> clock mod 2 = 1 ->
  let b := askSimBit c clock 1 (dest, n) in
  b.2 = n + clock
  /\ b.1 !! Z.to_nat (n + clock - 1) = dest !! Z.to_nat (n + clock - 1).
Proof.
  intros Hn Hc Hodd b. subst b. split; [reflexivity|].
  unfold askSimBit, memset. cbn [fst snd Z.eqb Pos.eqb].
  assert (Hh : clock = 2 * (clock / 2) + 1)
    by (pose proof (Z.div_mod clock 2 ltac:(lia)); lia).
  assert (0 <= clock / 2) by (apply Z.div_pos; lia).
  rewrite !list_lookup_inserts_ge by (rewrite ?length_replicate; lia).
  reflexivity.
Qed.

Lemma askSimBit_odd_clock_gap_witness :
  (0 <= 0 /\ 0 < 5 /\ 5 mod 2 = 1)
  /\ (askSimBit 1 5 1 ([7; 7; 7; 7; 7; 7], 0)).1 !! 4%nat = Some 7.
Proof.
  split; [repeat split; lia|].
  exact (proj2 (askSimBit_odd_clock_gap 1 5 0 [7; 7; 7; 7; 7; 7]
                  ltac:(lia) ltac:(lia) eq_refl)).
Defined.

(** The wave loop of [pskSimBit] with a positive wave length and enough
    fuel: it ends, having written whole waves up to the bit clock. *)
Lemma pskSimBit_loop_cursor (fuel : nat) (waveLen clk curPhase i : Z) (b : wave_buf) :
  0 < waveLen -> clk - i <= Z.of_nat fuel * waveLen ->
  exists b' : wave_buf,
    pskSimBit_loop fuel waveLen clk curPhase i b = Some b'
    /\ b'.2 = b.2 + (if i <? clk then (clk - i + waveLen - 1) / waveLen * waveLen else 0).
Proof.
  intros Hw. revert i b. induction fuel as [|fuel IH]; intros i b Hf.
  - assert (Hi : clk <= i) by lia.
    exists b. cbn [pskSimBit_loop].
    destruct (Z.leb_spec clk i); [|lia]. destruct (Z.ltb_spec i clk); [lia|].
    split; [reflexivity|lia].
  - cbn [pskSimBit_loop]. destruct (Z.leb_spec clk i) as [Hi|Hi].
    + exists b. destruct (Z.ltb_spec i clk); [lia|]. split; [reflexivity|lia].
    + destruct (IH (i + waveLen)
                   (memset (memset b.1 b.2 curPhase (waveLen / 2))
                           (b.2 + waveLen / 2) (Z.lxor curPhase 1) (waveLen / 2),
                    b.2 + waveLen)) as (b' & E & Hc); [lia|].
      exists b'. split; [exact E|]. rewrite Hc. cbn [snd].
      destruct (Z.ltb_spec i clk); [|lia].
      destruct (Z.ltb_spec (i + waveLen) clk) as [Hn|Hn].
      * replace (clk - i + waveLen - 1) with (clk - (i + waveLen) + waveLen - 1 + 1 * waveLen)
          by lia.
        rewrite Z.div_add by lia. lia.
      * replace ((clk - i + waveLen - 1) / waveLen) with 1; [cbn [snd]; lia|].
        apply (Z.div_unique _ _ 1 (clk - i - 1)); lia.
Qed.

(** Without fuel left the loop of a zero wave length is still running,
    whatever the fuel was: the C loop does not end. *)
Lemma pskSimBit_loop_zero_wave (fuel : nat) (clk curPhase i : Z) (b : wave_buf) :
  i < clk -> pskSimBit_loop fuel 0 clk curPhase i b = None.
Proof.
  intros Hi. revert b. induction fuel as [|fuel IH]; intros b; cbn [pskSimBit_loop];
    destruct (Z.leb_spec clk i); try lia; [reflexivity|].
  rewrite Z.add_0_r. apply IH.
Qed.

Lemma pskSimBit_cursor (waveLen clk : Z) (phaseChg : bool) (st : wave_buf * Z) :
  0 < waveLen -> 0 < clk ->
  exists st' : wave_buf * Z,
    pskSimBit waveLen clk phaseChg st = Some st'
    /\ st'.1.2 = st.1.2 + (clk + waveLen - 1) / waveLen * waveLen.
Proof.
  intros Hw Hc. destruct st as [b curPhase]. unfold pskSimBit.
  destruct phaseChg.
  - destruct (pskSimBit_loop_cursor (Z.to_nat clk) waveLen clk (Z.lxor curPhase 1) waveLen
                (memset (memset b.1 b.2 (Z.lxor curPhase 1) (waveLen / 2))
                        (b.2 + waveLen / 2) curPhase (waveLen / 2), b.2 + waveLen))
      as (b' & E & Hb); [lia|nia|].
    rewrite E. eexists. split; [reflexivity|]. cbn [fst snd]. rewrite Hb. cbn [snd].
    destruct (Z.ltb_spec waveLen clk) as [Hn|Hn].
    + replace (clk + waveLen - 1) with (clk - waveLen + waveLen - 1 + 1 * waveLen) by lia.
      rewrite Z.div_add by lia. lia.
    + replace ((clk + waveLen - 1) / waveLen) with 1; [lia|].
      apply (Z.div_unique _ _ 1 (clk - 1)); lia.
  - destruct (pskSimBit_loop_cursor (Z.to_nat clk) waveLen clk curPhase 0 b)
      as (b' & E & Hb); [lia|nia|].
    rewrite E. eexists. split; [reflexivity|]. cbn [fst snd]. rewrite Hb.
    destruct (Z.ltb_spec 0 clk); [|lia]. rewrite Z.sub_0_r. reflexivity.
Qed.

(** X15.  With a non-zero carrier and a non-zero bit clock the PSK
    composer terminates, and every bit takes the same number of samples
    whether or not it changes the phase: the bit clock rounded up to whole
    carrier waves, which is the bit clock itself when the carrier divides
    it. *)
Theorem PSK_encode_length (arg1 arg2 : Z) (BitStream dest : list Z) :
  let clk := Z.shiftr arg1 8 in
  let carrier := Z.land arg1 0xFF in
  0 < carrier -> 0 < clk ->
  exists b : wave_buf,
    PSK_encode arg1 arg2 BitStream dest = Some b
    /\ b.2 = Z.of_nat (length BitStream) * ((clk + carrier - 1) / carrier * carrier)
    /\ (clk mod carrier = 0 -> b.2 = Z.of_nat (length BitStream) * clk).
Proof.
  intros clk carrier Hcar Hclk. unfold PSK_encode. fold clk carrier.
  assert (H : forall (bs : list Z) (st : wave_buf * Z),
            exists st' : wave_buf * Z,
              fold_left (fun st bit =>
                           match st with
                           | Some st => pskSimBit carrier clk (negb (bit =? st.2)) st
                           | None => None
                           end) bs (Some st) = Some st'
              /\ st'.1.2 = st.1.2
                           + Z.of_nat (length bs) * ((clk + carrier - 1) / carrier * carrier)).
  { induction bs as [|bit bs IH]; intros st.
    - exists st. split; [reflexivity|cbn; lia].
    - cbn [fold_left length].
      destruct (pskSimBit_cursor carrier clk (negb (bit =? st.2)) st Hcar Hclk)
        as (st1 & E1 & H1).
      rewrite E1. destruct (IH st1) as (st' & E' & H').
      exists st'. split; [exact E'|]. rewrite H', H1. lia. }
  destruct (H BitStream ((dest, 0), 0)) as (st' & E & Hc).
  unfold wave_buf in *. rewrite E. exists st'.1. split; [reflexivity|]. cbn [fst snd] in Hc.
  split; [rewrite Hc; lia|].
  intros Hdiv. rewrite Hc. f_equal.
  pose proof (Z.div_mod clk carrier ltac:(lia)) as Hdm. rewrite Hdiv in Hdm.
  replace (clk + carrier - 1) with (carrier - 1 + clk / carrier * carrier) by lia.
  rewrite Z.div_add, Z.div_small by lia. lia.
Qed.

Lemma PSK_encode_length_witness :
  (0 < Z.land 0x2002 0xFF /\ 0 < Z.shiftr 0x2002 8)
  /\ exists b : wave_buf,
       PSK_encode 0x2002 0 [1; 0; 0; 1] (replicate 200 0) = Some b /\ b.2 = 4 * 32.
Proof.
  split; [split; reflexivity|].
  destruct (PSK_encode_length 0x2002 0 [1; 0; 0; 1] (replicate 200 0) eq_refl eq_refl)
    as (b & E & _ & H).
  exists b. split; [exact E|]. exact (H eq_refl).
Defined.

(** X16.  With a carrier of 0 and a non-zero bit clock the wave loop of
    [pskSimBit] makes no progress: no amount of fuel lets it end, and
    [CmdPSKsimTag] does not return for any non-empty bit stream, whatever
    the button and the host do. *)
Theorem PSK_zero_carrier_hangs (arg1 arg2 : Z) (bit : Z) (BitStream dest : list Z)
    (env : sim_env) :
  Z.land arg1 0xFF = 0 -> 0 < Z.shiftr arg1 8 ->
  (forall (fuel : nat) (curPhase i : Z) (b : wave_buf),
      i < Z.shiftr arg1 8 ->
      pskSimBit_loop fuel 0 (Z.shiftr arg1 8) curPhase i b = None)
  /\ (CmdPSKsimTag arg1 arg2 (bit :: BitStream) dest env).2 = false.
Proof.
  intros Hcar Hclk. split.
  - intros fuel curPhase i b Hi. apply pskSimBit_loop_zero_wave. exact Hi.
  - unfold CmdPSKsimTag, PSK_encode. rewrite Hcar. cbn [fold_left].
    assert (E : forall (phaseChg : bool) (st : wave_buf * Z),
              pskSimBit 0 (Z.shiftr arg1 8) phaseChg st = None).
    { intros phaseChg [b p]. unfold pskSimBit.
      destruct phaseChg; rewrite pskSimBit_loop_zero_wave by lia; reflexivity. }
    rewrite E.
    assert (F : forall bs : list Z,
              fold_left (fun (st : option (wave_buf * Z)) (bit0 : Z) =>
                           match st with
                           | Some st0 => pskSimBit 0 (Z.shiftr arg1 8)
                                           (negb (bit0 =? st0.2)) st0
                           | None => None
                           end) bs None = None).
    { induction bs as [|x bs IH]; [reflexivity|exact IH]. }
    rewrite F. reflexivity.
Qed.

Lemma PSK_zero_carrier_hangs_witness :
  (Z.land 0x2000 0xFF = 0 /\ 0 < Z.shiftr 0x2000 8)
  /\ (CmdPSKsimTag 0x2000 0 [1] (replicate 64 0)
        {| ssc_clk := [true; false]; cancel := [true] |}).2 = false.
Proof.
  split; [split; reflexivity|].
  exact (proj2 (PSK_zero_carrier_hangs 0x2000 0 1 [] (replicate 64 0)
                  {| ssc_clk := [true; false]; cancel := [true] |} eq_refl eq_refl)).
Defined.

(** ** Playing a waveform *)

Lemma flat_map_seq_shift {A} (f : nat -> list A) (s k : nat) :
  flat_map f (seq (S s) k) = flat_map (fun j => f (S j)) (seq s k).
Proof.
  rewrite <- seq_shift, !flat_map_concat_map, map_map. reflexivity.
Qed.

Lemma SimulateTagLowFrequency_loop_cycles (tab : list Z) (period : Z) (ledcontrol : bool)
    (cancel : list bool) (k : nat) (i : Z) :
  0 <= i < period ->
  SimulateTagLowFrequency_loop tab period 0 ledcontrol
    (concat (replicate k [true; false])) cancel WaitHigh i 0
  = (flat_map (fun j : nat =>
                 play_sample ledcontrol (tab !!! Z.to_nat ((i + Z.of_nat j) mod period)))
              (seq 0 k), false).
Proof.
  revert i. induction k as [|k IH]; intros i Hi; [reflexivity|].
  cbn [replicate concat app SimulateTagLowFrequency_loop negb].
  change (0 =? 0) with true. cbn [negb].
  assert (Hnext : (if i + 1 =? period
                   then prepend []
                          (SimulateTagLowFrequency_loop tab period 0 ledcontrol
                             (concat (replicate k [true; false])) cancel WaitHigh 0 0)
                   else SimulateTagLowFrequency_loop tab period 0 ledcontrol
                          (concat (replicate k [true; false])) cancel WaitHigh (i + 1) 0)
                  = (flat_map (fun j : nat =>
                       play_sample ledcontrol
                         (tab !!! Z.to_nat ((i + Z.of_nat (S j)) mod period)))
                       (seq 0 k), false)).
  { destruct (Z.eqb_spec (i + 1) period) as [E|E].
    - rewrite IH by lia. unfold prepend. cbn [fst snd app]. f_equal.
      apply flat_map_ext. intros j. do 3 f_equal.
      replace (i + Z.of_nat (S j)) with (Z.of_nat j + 1 * period) by lia.
      rewrite Z.mod_add by lia. rewrite Z.add_0_l. reflexivity.
    - rewrite IH by lia. f_equal. apply flat_map_ext. intros j. do 4 f_equal. lia. }
  rewrite Hnext. unfold prepend. cbn [fst snd]. f_equal.
  cbn [seq flat_map]. rewrite flat_map_seq_shift.
  unfold play_sample at 2. rewrite Z.add_0_r, Z.mod_small by lia.
  rewrite <- !app_assoc. reflexivity.
Qed.

(** X17.  While the clock line toggles, [SimulateTagLowFrequency] plays
    the buffer in order, one sample at each rising edge, and starts over
    after [period] samples; it does not return and never looks at the
    button or the host.  (Shown for [gap] 0, as all the simulators call
    it.) *)
Theorem SimulateTagLowFrequency_plays_in_order (tab : list Z) (period : Z)
    (ledcontrol : bool) (polls : list bool) (k : nat) :
  0 < period ->
  SimulateTagLowFrequency tab period 0 ledcontrol
    {| ssc_clk := concat (replicate k [true; false]); cancel := polls |}
  = (FpgaWriteConfWord FPGA_MAJOR_MODE_LF_EDGE_DETECT
     :: flat_map (fun j : nat =>
                    play_sample ledcontrol (tab !!! Z.to_nat (Z.of_nat j mod period)))
                 (seq 0 k), false).
Proof.
  intros Hp. unfold SimulateTagLowFrequency. cbn [ssc_clk cancel].
  rewrite SimulateTagLowFrequency_loop_cycles by lia. reflexivity.
Qed.

Lemma SimulateTagLowFrequency_plays_in_order_witness :
  0 < 2
  /\ SimulateTagLowFrequency [1; 0] 2 0 false
       {| ssc_clk := [true; false; true; false; true; false]; cancel := [true] |}
     = ([ FpgaWriteConfWord FPGA_MAJOR_MODE_LF_EDGE_DETECT;
          OPEN_COIL; SHORT_COIL; OPEN_COIL ], false).
Proof.
  split; [lia|].
  exact (SimulateTagLowFrequency_plays_in_order [1; 0] 2 false [true] 3 ltac:(lia)).
Defined.

Lemma SimulateTagLowFrequency_loop_short (tab : list Z) (period gap : Z)
    (ledcontrol : bool) (clk polls : list bool) (w : sim_wait) (i ii : Z) :
  0 <= ii -> Z.of_nat (length clk) + ii <= 1000 ->
  (SimulateTagLowFrequency_loop tab period gap ledcontrol clk polls w i ii).2 = false.
Proof.
  revert polls w i ii. induction clk as [|c clk IH]; intros polls w i ii H0 Hlen;
    [reflexivity|].
  cbn [length] in Hlen. cbn [SimulateTagLowFrequency_loop].
  destruct (match w with WaitHigh => c | WaitLow => negb c end).
  - destruct w.
    + rewrite prepend_returned. apply IH; lia.
    + destruct (i + 1 =? period); [rewrite prepend_returned|]; apply IH; lia.
  - destruct (Z.eqb_spec ii 1000) as [E|E]; [lia|].
    rewrite prepend_returned. apply IH; lia.
Qed.

Lemma SimulateTagLowFrequency_loop_stuck (tab : list Z) (period gap : Z)
    (ledcontrol : bool) (polls : list bool) (n : nat) (i ii : Z) :
  ii + Z.of_nat n = 1000 ->
  SimulateTagLowFrequency_loop tab period gap ledcontrol
    (replicate n false ++ [false]) (true :: polls) WaitHigh i ii
  = (replicate n WDT_HIT
     ++ [ FpgaWriteConfWord FPGA_MAJOR_MODE_OFF; DbpString "Stopped" ], true).
Proof.
  revert ii. induction n as [|n IH]; intros ii Hn.
  - cbn [replicate app SimulateTagLowFrequency_loop].
    destruct (Z.eqb_spec ii 1000); [reflexivity|lia].
  - cbn [replicate app SimulateTagLowFrequency_loop].
    destruct (Z.eqb_spec ii 1000); [lia|].
    rewrite IH by lia. reflexivity.
Qed.

(** X18.  [SimulateTagLowFrequency] polls the button and the host only
    when the clock line has kept its level for 1000 consecutive reads.
    Within 1000 reads of the clock it cannot return, whatever is
    requested; when the clock is stuck and cancellation is requested it
    returns at the 1001st read, after 1000 watchdog hits, with the FPGA
    switched off. *)
Theorem SimulateTagLowFrequency_poll_latency (tab : list Z) (period gap : Z)
    (ledcontrol : bool) :
  (forall env : sim_env,
      (length (ssc_clk env) <= 1000)%nat ->
      (SimulateTagLowFrequency tab period gap ledcontrol env).2 = false)
  /\ (forall polls : list bool,
        SimulateTagLowFrequency tab period gap ledcontrol
          {| ssc_clk := replicate 1001 false; cancel := true :: polls |}
        = (FpgaWriteConfWord FPGA_MAJOR_MODE_LF_EDGE_DETECT
           :: replicate 1000 WDT_HIT
           ++ [ FpgaWriteConfWord FPGA_MAJOR_MODE_OFF; DbpString "Stopped" ], true)).
Proof.
  split.
  - intros env Hlen. unfold SimulateTagLowFrequency. rewrite prepend_returned.
    apply SimulateTagLowFrequency_loop_short; lia.
  - intros polls. unfold SimulateTagLowFrequency. cbn [ssc_clk cancel].
    change (replicate 1001 false) with (replicate 1000 false ++ [false]).
    rewrite SimulateTagLowFrequency_loop_stuck by reflexivity. reflexivity.
Qed.

Lemma SimulateTagLowFrequency_poll_latency_witness :
  (length (ssc_clk {| ssc_clk := replicate 1000 false; cancel := [true] |}) <= 1000)%nat
  /\ (SimulateTagLowFrequency [1; 0] 2 0 false
        {| ssc_clk := replicate 1000 false; cancel := [true] |}).2 = false.
Proof.
  assert (H : (length (ssc_clk {| ssc_clk := replicate 1000 false; cancel := [true] |})
               <= 1000)%nat) by (cbn [ssc_clk]; rewrite length_replicate; lia).
  split; [exact H|].
  exact (proj1 (SimulateTagLowFrequency_poll_latency [1; 0] 2 0 false)
           {| ssc_clk := replicate 1000 false; cancel := [true] |} H).
Defined.

(** ** Raw modulation: what is put on the field *)

Lemma command_prefix_app (pre : list Z) (c : Z) (rest : list Z) :
  Forall (fun x => x <> 0 /\ x <> 32) pre -> c = 0 \/ c = 32 ->
  command_prefix (pre ++ c :: rest) = pre.
Proof.
  intros Hpre Hc. induction Hpre as [|x pre [H0 H32] _ IH].
  - cbn [app command_prefix]. destruct Hc as [->| ->]; reflexivity.
  - cbn [app command_prefix].
    destruct (Z.eqb_spec x 0); [contradiction|].
    destruct (Z.eqb_spec x 32); [contradiction|].
    cbn [orb]. rewrite IH. reflexivity.
Qed.

Lemma bitbang_loop_timeline (period_0 period_1 hack_cnt : Z) (cmd : list Z)
    (off : bool) (a : antenna) :
  reader_field a = negb off ->
  field_timeline a (bitbang_loop period_0 period_1 hack_cnt cmd off)
  = map (fun c => (negb (c =? 48),
                   uint32 ((if c =? 48 then period_0 else period_1) - hack_cnt))) cmd.
Proof.
  revert off a. induction cmd as [|c cmd IH]; intros off a Ha; [reflexivity|].
  cbn [bitbang_loop map]. destruct (c =? 48); cbn [negb].
  - destruct off; cbn [negb app field_timeline antenna_step].
    + rewrite Ha. cbn [negb]. f_equal. apply IH. exact Ha.
    + f_equal. apply IH. reflexivity.
  - destruct off; cbn [negb app field_timeline antenna_step].
    + f_equal. apply IH. reflexivity.
    + rewrite Ha. cbn [negb]. f_equal. apply IH. exact Ha.
Qed.

(** X19.  Bit-bang mode of [ModThenAcquireRawAdcSamples125k]
    ([delay_off] 0, both periods at least 7 and [uint32_t]): the characters of the
    command up to its first space or NUL are modulated one after the
    other, after the set-up and before the acquisition.  Entered with the
    field on, a '0' keeps the field off for [period_0 - 7] microseconds and
    any other character keeps it on for [period_1 - 7]; the FPGA is
    written only when the level changes. *)
Theorem ModThenAcquire_bitbang (divisor period_0 period_1 : Z) (command : list Z) :
  7 <= period_0 < 2 ^ 32 -> 7 <= period_1 < 2 ^ 32 ->
  let cmd := command_prefix command in
  ModThenAcquireRawAdcSamples125k divisor 0 period_0 period_1 command
  = [ StartTicks; FpgaDownloadAndGo; FpgaWriteConfWord FPGA_MAJOR_MODE_OFF;
      WaitMS 2500; BigBuf_Clear_keep_EM; LFSetupFPGAForADC divisor true; WaitMS 2000 ]
    ++ bitbang_loop period_0 period_1 7 cmd false
    ++ [ FpgaWriteConfWord (FPGA_MAJOR_MODE_LF_ADC true); DoAcquisition_config false 0;
         FpgaWriteConfWord FPGA_MAJOR_MODE_OFF; cmd_send_ACK ]
  /\ (forall a : antenna,
        reader_field a = true ->
        field_timeline a (bitbang_loop period_0 period_1 7 cmd false)
        = map (fun c => (negb (c =? 48),
                         (if c =? 48 then period_0 else period_1) - 7)) cmd)
  /\ (forall (pre rest : list Z) (c : Z),
        Forall (fun x => x <> 0 /\ x <> 32) pre -> c = 0 \/ c = 32 ->
        command_prefix (pre ++ c :: rest) = pre)
  /\ (forall (c : Z) (rest : list Z) (off : bool),
        bitbang_loop period_0 period_1 7 (c :: rest) off
        = (if Bool.eqb off (c =? 48) then []
           else if c =? 48 then [ FpgaWriteConfWord FPGA_MAJOR_MODE_OFF; LED_OFF LED_D ]
                else [ FpgaWriteConfWord (FPGA_MAJOR_MODE_LF_ADC true); LED_ON LED_D ])
          ++ [ WaitUS (uint32 ((if c =? 48 then period_0 else period_1) - 7)) ]
          ++ bitbang_loop period_0 period_1 7 rest (c =? 48)).
Proof.
  intros H0 H1 cmd. split; [|split; [|split]].
  - unfold ModThenAcquireRawAdcSamples125k. cbv zeta. change (0 =? 0) with true.
    cbv iota.
    destruct (Z.ltb_spec period_0 7); [lia|]. destruct (Z.ltb_spec period_1 7); [lia|].
    reflexivity.
  - intros a Ha. rewrite bitbang_loop_timeline by exact Ha.
    apply map_ext. intros c. f_equal. unfold uint32.
    destruct (c =? 48); apply Z.mod_small; lia.
  - intros pre rest c. apply command_prefix_app.
  - intros c rest off. cbn [bitbang_loop].
    destruct (c =? 48), off; reflexivity.
Qed.

Lemma ModThenAcquire_bitbang_witness :
  (7 <= 100 < 2 ^ 32 /\ 7 <= 200 < 2 ^ 32)
  /\ field_timeline {| fpga_mode := FPGA_MAJOR_MODE_LF_ADC true; ssc_dout := false |}
       (bitbang_loop 100 200 7 (command_prefix [49; 48; 48; 49; 32; 49]) false)
     = [ (true, 193); (false, 93); (false, 93); (true, 193) ].
Proof.
  split; [lia|].
  exact (proj1 (proj2 (ModThenAcquire_bitbang 95 100 200 [49; 48; 48; 49; 32; 49]
                         ltac:(lia) ltac:(lia)))
           {| fpga_mode := FPGA_MAJOR_MODE_LF_ADC true; ssc_dout := false |} eq_refl).
Defined.

Lemma delay_off_loop_timeline (divisor delay_off period_0 period_1 : Z) (cmd : list Z)
    (a : antenna) :
  field_timeline a (delay_off_loop divisor delay_off period_0 period_1 cmd)
  = flat_map (fun c => [ (false, delay_off);
                         (true, if c =? 48 then period_0 else period_1) ]) cmd.
Proof.
  revert a. induction cmd as [|c cmd IH]; intros a; [reflexivity|].
  cbn [delay_off_loop app field_timeline antenna_step flat_map reader_field fpga_mode].
  do 2 f_equal. apply IH.
Qed.

(** X20.  The older mode of [ModThenAcquireRawAdcSamples125k]
    ([delay_off] non-zero): every character of the command up to its first
    space or NUL switches the field off for [delay_off] microseconds and
    then on for [period_0] (a '0') or [period_1] (any other character);
    one more gap of [delay_off] follows the last character before the
    field is switched on for the acquisition.  The periods are not
    checked against the switch-over latency in this mode. *)
Theorem ModThenAcquire_delay_off (divisor delay_off period_0 period_1 : Z)
    (command : list Z) :
  delay_off <> 0 ->
  field_timeline idle
    (ModThenAcquireRawAdcSamples125k divisor delay_off period_0 period_1 command)
  = flat_map (fun c => [ (false, delay_off);
                         (true, if c =? 48 then period_0 else period_1) ])
             (command_prefix command)
    ++ [ (false, delay_off) ].
Proof.
  intros Hd. unfold ModThenAcquireRawAdcSamples125k. cbv zeta.
  destruct (Z.eqb_spec delay_off 0) as [E|_]; [contradiction|].
  cbn [app field_timeline antenna_step].
  rewrite field_timeline_app, delay_off_loop_timeline. reflexivity.
Qed.

Lemma ModThenAcquire_delay_off_witness :
  50 <> 0
  /\ field_timeline idle (ModThenAcquireRawAdcSamples125k 95 50 3 5 [49; 48])
     = [ (false, 50); (true, 5); (false, 50); (true, 3); (false, 50) ].
Proof.
  split; [discriminate|].
  exact (ModThenAcquire_delay_off 95 50 3 5 [49; 48] ltac:(discriminate)).
Defined.

(** ** Texas Instruments tags *)

Lemma spin_timeline_app (a : antenna) (t1 t2 : trace) :
  spin_timeline a (t1 ++ t2)
  = spin_timeline a t1 ++ spin_timeline (antenna_after a t1) t2.
Proof.
  revert a. induction t1 as [|e t1 IH]; intros a; [reflexivity|].
  destruct e; cbn [app spin_timeline]; rewrite IH; reflexivity.
Qed.

Lemma land_shiftl_1_testbit (b : Z) (i : nat) :
  negb (Z.land b (Z.shiftl 1 (Z.of_nat i)) =? 0) = Z.testbit b (Z.of_nat i).
Proof.
  rewrite Z.shiftl_mul_pow2, Z.mul_1_l by lia. apply land_pow2_testbit.
Qed.

Lemma WriteTIbyte_bits (b : Z) (idxs : list nat) (a : antenna) :
  fpga_mode a = FPGA_MAJOR_MODE_LF_PASSTHRU ->
  let t := flat_map (fun i : nat =>
                       if negb (Z.land b (Z.shiftl 1 (Z.of_nat i)) =? 0)
                       then [ LOW_SSC_DOUT; SpinDelayUs 1000; HIGH_SSC_DOUT; SpinDelayUs 1000 ]
                       else [ LOW_SSC_DOUT; SpinDelayUs 300; HIGH_SSC_DOUT; SpinDelayUs 1700 ])
                    idxs in
  spin_timeline a t
  = flat_map (fun i : nat =>
                if Z.testbit b (Z.of_nat i)
                then [ (false, 1000); (true, 1000) ]
                else [ (false, 300); (true, 1700) ]) idxs
  /\ fpga_mode (antenna_after a t) = FPGA_MAJOR_MODE_LF_PASSTHRU
  /\ (idxs <> [] -> ssc_dout (antenna_after a t) = true).
Proof.
  intros Ha. cbv zeta. revert a Ha. induction idxs as [|i idxs IH]; intros a Ha.
  - repeat split; [exact Ha|intros H; contradiction].
  - cbn [flat_map]. rewrite spin_timeline_app, antenna_after_app, land_shiftl_1_testbit.
    assert (Hstep : forall (lo hi : Z),
              let a' := antenna_after a [ LOW_SSC_DOUT; SpinDelayUs lo;
                                          HIGH_SSC_DOUT; SpinDelayUs hi ] in
              spin_timeline a [ LOW_SSC_DOUT; SpinDelayUs lo; HIGH_SSC_DOUT; SpinDelayUs hi ]
              = [ (false, lo); (true, hi) ]
              /\ fpga_mode a' = FPGA_MAJOR_MODE_LF_PASSTHRU /\ ssc_dout a' = true).
    { intros lo hi. cbn. unfold reader_field. cbn. rewrite Ha. repeat split. }
    destruct (Z.testbit b (Z.of_nat i)).
    + destruct (Hstep 1000 1000) as (E & Hm & Hd). cbv zeta in Hm, Hd.
      destruct (IH _ Hm) as (IH1 & IH2 & IH3). rewrite E, IH1.
      split; [reflexivity|]. split; [exact IH2|]. intros _.
      destruct idxs; [exact Hd|apply IH3; discriminate].
    + destruct (Hstep 300 1700) as (E & Hm & Hd). cbv zeta in Hm, Hd.
      destruct (IH _ Hm) as (IH1 & IH2 & IH3). rewrite E, IH1.
      split; [reflexivity|]. split; [exact IH2|]. intros _.
      destruct idxs; [exact Hd|apply IH3; discriminate].
Qed.

Lemma TI_bits_total_time (b : Z) (idxs : list nat) :
  let tl := flat_map (fun i : nat =>
                        if Z.testbit b (Z.of_nat i)
                        then [ (false, 1000); (true, 1000) ]
                        else [ (false, 300); (true, 1700) ]) idxs in
  off_time tl + on_time tl = 2000 * Z.of_nat (length idxs).
Proof.
  cbv zeta. induction idxs as [|i idxs IH]; [reflexivity|].
  cbn [flat_map length]. unfold off_time, on_time in *.
  rewrite !foldr_app.
  destruct (Z.testbit b (Z.of_nat i)); cbn [foldr fst snd]; lia.
Qed.

(** X21.  [WriteTIbyte] in pass-through mode sends the eight bits of the
    byte, least significant first, each in a slot of 2 ms: a one is 1 ms
    without field and 1 ms with field, a zero is 0.3 ms without and 1.7 ms
    with.  A byte always takes 16 ms, and the antenna is left modulating. *)
Theorem WriteTIbyte_timing (b : Z) (a : antenna) :
  fpga_mode a = FPGA_MAJOR_MODE_LF_PASSTHRU ->
  let tl := spin_timeline a (WriteTIbyte b) in
  tl = flat_map (fun i : nat =>
                   if Z.testbit b (Z.of_nat i)
                   then [ (false, 1000); (true, 1000) ]
                   else [ (false, 300); (true, 1700) ]) (seq 0 8)
  /\ off_time tl + on_time tl = 16000
  /\ reader_field (antenna_after a (WriteTIbyte b)) = true.
Proof.
  intros Ha tl. subst tl. unfold WriteTIbyte.
  destruct (WriteTIbyte_bits b (seq 0 8) a Ha) as (E & Hm & Hd). cbv zeta in E, Hm, Hd.
  rewrite E. split; [reflexivity|]. split.
  - exact (TI_bits_total_time b (seq 0 8)).
  - unfold reader_field. rewrite Hm. apply Hd. discriminate.
Qed.

Lemma WriteTIbyte_timing_witness :
  fpga_mode {| fpga_mode := FPGA_MAJOR_MODE_LF_PASSTHRU; ssc_dout := true |}
  = FPGA_MAJOR_MODE_LF_PASSTHRU
  /\ off_time (spin_timeline {| fpga_mode := FPGA_MAJOR_MODE_LF_PASSTHRU; ssc_dout := true |}
                 (WriteTIbyte 0xbb))
     + on_time (spin_timeline {| fpga_mode := FPGA_MAJOR_MODE_LF_PASSTHRU; ssc_dout := true |}
                  (WriteTIbyte 0xbb)) = 16000.
Proof.
  split; [reflexivity|].
  exact (proj1 (proj2 (WriteTIbyte_timing 0xbb
                         {| fpga_mode := FPGA_MAJOR_MODE_LF_PASSTHRU; ssc_dout := true |}
                         eq_refl))).
Defined.

Lemma AcquireTiType_loop_returns (rxrdy : list bool) (i : Z) :
  i < TIBUFLEN ->
  (AcquireTiType_loop rxrdy i).2
  = (TIBUFLEN - i <=? Z.of_nat (length (List.filter (fun r : bool => r) rxrdy))).
Proof.
  revert i. induction rxrdy as [|r rxrdy IH]; intros i Hi.
  - cbn. symmetry. apply Z.leb_gt. lia.
  - cbn [AcquireTiType_loop List.filter]. destruct r.
    + cbn [length]. destruct (Z.leb_spec TIBUFLEN (i + 1)) as [H|H].
      * cbn [snd]. symmetry. apply Z.leb_le. lia.
      * rewrite prepend_returned, IH by lia.
        destruct (Z.leb_spec (TIBUFLEN - (i + 1))
                    (Z.of_nat (length (List.filter (fun r : bool => r) rxrdy))));
          symmetry; [apply Z.leb_le|apply Z.leb_gt]; lia.
    + rewrite prepend_returned. apply IH. exact Hi.
Qed.

Lemma AcquireTiType_loop_quiet (rxrdy : list bool) (i : Z) :
  Forall (fun e => e = WDT_HIT) (AcquireTiType_loop rxrdy i).1.
Proof.
  revert i. induction rxrdy as [|r rxrdy IH]; intros i; [constructor|].
  cbn [AcquireTiType_loop]. destruct r.
  - destruct (TIBUFLEN <=? i + 1); [constructor|].
    cbn [prepend fst app]. constructor; [reflexivity|apply IH].
  - cbn [prepend fst app]. constructor; [reflexivity|apply IH].
Qed.

(** X22.  [AcquireTiType] charges the tag for 50 ms with the antenna
    modulating, then listens: it returns exactly when the serial port has
    been found ready 1250 times (one 32-bit word each time), and does
    nothing but hit the watchdog while it waits.  There is no time-out and
    no way to cancel. *)
Theorem AcquireTiType_returns (rxrdy : list bool) :
  (AcquireTiType rxrdy).2
  = (1250 <=? Z.of_nat (length (List.filter (fun r : bool => r) rxrdy)))
  /\ (exists waiting : trace,
        (AcquireTiType rxrdy).1
        = [ BigBuf_Clear_ext false; LED_ON LED_D; HIGH_SSC_DOUT; SpinDelay 50;
            LOW_SSC_DOUT; LED_OFF LED_D ] ++ waiting
        /\ Forall (fun e => e = WDT_HIT) waiting).
Proof.
  unfold AcquireTiType. rewrite prepend_returned. split.
  - rewrite AcquireTiType_loop_returns by reflexivity. reflexivity.
  - eexists. split; [reflexivity|apply AcquireTiType_loop_quiet].
Qed.

Lemma ReadTItag_scan_no_crossing (dest : list Z) (k i : nat) (st : TI_demod) :
  (forall j : nat, 0 <= dest !!! j) ->
  ReadTItag_scan dest k i st = st.
Proof.
  intros Hpos. revert i. induction k as [|k IH]; intros i; [reflexivity|].
  cbn [ReadTItag_scan]. unfold ReadTItag_step.
  destruct (Z.ltb_spec (dest !!! i) 0) as [H|H]; [specialize (Hpos i); lia|].
  cbn [andb]. apply IH.
Qed.

(** X23.  [ReadTItag] on a buffer of fewer than two samples, or on one
    without a negative sample and hence without a zero crossing: once the
    acquisition has returned, the FPGA is switched off and the only
    message is that no valid tag was detected; no CRC is computed. *)
Theorem ReadTItag_no_signal (update_crc16 : Z -> Z -> Z) (dest : list Z) (n : Z)
    (rxrdy : list bool) :
  n <= 1 \/ Forall (fun v => 0 <= v) dest ->
  ReadTItag update_crc16 dest n rxrdy
  = prepend [ FpgaDownloadAndGo; FpgaSendCommand_SET_DIVISOR 88;
              FpgaWriteConfWord FPGA_MAJOR_MODE_LF_PASSTHRU ]
      (and_then (AcquireTiType rxrdy)
         [ FpgaWriteConfWord FPGA_MAJOR_MODE_OFF;
           DbpString "Info: No valid tag detected." ]).
Proof.
  intros [Hn|Hpos]; unfold ReadTItag.
  { replace (Z.to_nat (n - 1)) with 0%nat by lia. reflexivity. }
  rewrite ReadTItag_scan_no_crossing; [reflexivity|].
  intros j. destruct (dest !! j) as [v|] eqn:E.
  - rewrite (list_lookup_total_correct _ _ _ E).
    exact (Forall_lookup_1 _ _ _ _ Hpos E).
  - rewrite list_lookup_total_alt, E. cbn. lia.
Qed.

Lemma ReadTItag_no_signal_witness :
  (40000 <= 1 \/ Forall (fun v => 0 <= v) (replicate (Z.to_nat 40000) 1))
  /\ ReadTItag (fun crc _ => crc) (replicate (Z.to_nat 40000) 1) 40000
       (replicate 1250 true)
     = ([ FpgaDownloadAndGo; FpgaSendCommand_SET_DIVISOR 88;
          FpgaWriteConfWord FPGA_MAJOR_MODE_LF_PASSTHRU;
          BigBuf_Clear_ext false; LED_ON LED_D; HIGH_SSC_DOUT; SpinDelay 50;
          LOW_SSC_DOUT; LED_OFF LED_D ]
        ++ replicate 1249 WDT_HIT
        ++ [ FpgaWriteConfWord FPGA_MAJOR_MODE_OFF;
             DbpString "Info: No valid tag detected." ], true).
Proof.
  assert (H : 40000 <= 1 \/ Forall (fun v => 0 <= v) (replicate (Z.to_nat 40000) 1))
    by (right; apply Forall_replicate; lia).
  split; [exact H|].
  rewrite (ReadTItag_no_signal (fun crc _ => crc) (replicate (Z.to_nat 40000) 1) 40000
             (replicate 1250 true) H).
  vm_compute. reflexivity.
Defined.

(** ** Demodulation loops *)

Lemma bitlen_loop_log2 (fuel : nat) (bp bitlen : Z) :
  0 <= bitlen -> bitlen + Z.of_nat fuel < 256 -> 0 <= bp < 2 ^ Z.of_nat fuel ->
  bitlen_loop fuel bp bitlen = bitlen + (if bp =? 0 then 0 else Z.log2 bp + 1).
Proof.
  revert bp bitlen. induction fuel as [|fuel IH]; intros bp bitlen Hb Hf Hbp.
  - cbn [bitlen_loop]. change (2 ^ Z.of_nat 0) with 1 in Hbp.
    destruct (Z.eqb_spec bp 0); lia.
  - cbn [bitlen_loop]. destruct (Z.ltb_spec 0 bp) as [Hpos|Hpos].
    + destruct (Z.eqb_spec bp 0) as [E|_]; [lia|].
      assert (Hs : 0 <= Z.shiftr bp 1 < 2 ^ Z.of_nat fuel).
      { rewrite Z.shiftr_div_pow2 by lia. change (2 ^ 1) with 2.
        rewrite Nat2Z.inj_succ, Z.pow_succ_r in Hbp by lia.
        split; [apply Z.div_pos; lia|apply Z.div_lt_upper_bound; lia]. }
      rewrite uint8_small by lia. rewrite IH by lia.
      destruct (Z.eqb_spec (Z.shiftr bp 1) 0) as [E0|E0].
      * assert (bp = 1).
        { rewrite Z.shiftr_div_pow2 in E0 by lia. change (2 ^ 1) with 2 in E0.
          Z.div_mod_to_equations. lia. }
        subst bp. change (Z.log2 1) with 0. lia.
      * rewrite Z.log2_shiftr by lia.
        assert (1 <= Z.log2 bp).
        { apply Z.log2_le_pow2; [lia|]. change (2 ^ 1) with 2.
          rewrite Z.shiftr_div_pow2 in E0, Hs by lia. change (2 ^ 1) with 2 in E0, Hs.
          Z.div_mod_to_equations. lia. }
        lia.
    + destruct (Z.eqb_spec bp 0); lia.
Qed.

(** X24.  The format length that [CmdHIDdemodFSK] derives from the three
    words of a HID read (each a [uint32_t]): the counting loops find the
    highest set bit.  It is 64 plus the position of the highest bit of
    [hi2 & 0xFFFFF] when [hi2 & 0xFFFF] is non-zero; else 32 plus the
    position of the highest bit of [hi] when [hi] is 64 or more; else 37
    when bit 5 of [hi] is clear; else 32 plus the position of the highest
    bit of [hi & 0x1F] when that is non-zero; else the number of
    significant bits of [lo]. *)
Theorem HID_bitlen_cases (hi2 hi lo : Z) :
  0 <= hi2 < 2 ^ 32 -> 0 <= hi < 2 ^ 32 -> 0 <= lo < 2 ^ 32 ->
  HID_bitlen hi2 hi lo
  = if negb (Z.land hi2 0xFFFF =? 0) then 64 + Z.log2 (Z.land hi2 0xFFFFF)
    else if 64 <=? hi then 32 + Z.log2 hi
    else if negb (Z.testbit hi 5) then 37
    else if negb (Z.land hi 0x1F =? 0) then 32 + Z.log2 (Z.land hi 0x1F)
    else if lo =? 0 then 0 else Z.log2 lo + 1.
Proof.
  intros H2 H1 H0. unfold HID_bitlen.
  assert (Hm : forall (x : Z) (k : Z), 0 <= k <= 32 -> 0 <= Z.land x (Z.ones k) < 2 ^ 32).
  { intros x k Hk. rewrite Z.land_ones by lia.
    pose proof (Z.mod_pos_bound x (2 ^ k) ltac:(apply Z.pow_pos_nonneg; lia)).
    assert (2 ^ k <= 2 ^ 32) by (apply Z.pow_le_mono_r; lia). lia. }
  change 0x000FFFF with 0xFFFF.
  destruct (Z.eqb_spec (Z.land hi2 0xFFFF) 0) as [E2|E2]; cbn [negb].
  2:{ rewrite bitlen_loop_log2 by (try apply (Hm hi2 20); cbn; lia).
      destruct (Z.eqb_spec (Z.land hi2 0xFFFFF) 0) as [E|_]; [|lia].
      exfalso. apply E2. apply Z.bits_inj'. intros k Hk.
      rewrite Z.bits_0, Z.land_spec.
      assert (Hk' : Z.testbit (Z.land hi2 0xFFFFF) k = false) by (rewrite E; apply Z.bits_0).
      rewrite Z.land_spec in Hk'.
      change 0xFFFF with (Z.ones 16). change 0xFFFFF with (Z.ones 20) in Hk'.
      destruct (Z.ltb_spec k 16).
      - rewrite Z.ones_spec_low in Hk' |- * by lia. exact Hk'.
      - rewrite Z.ones_spec_high by lia. apply andb_false_r. }
  assert (Hsh : (0 <? Z.shiftr hi 6) = (64 <=? hi)).
  { rewrite Z.shiftr_div_pow2 by lia. change (2 ^ 6) with 64.
    destruct (Z.leb_spec 64 hi); [apply Z.ltb_lt|apply Z.ltb_ge];
      Z.div_mod_to_equations; lia. }
  rewrite Hsh. destruct (Z.leb_spec 64 hi) as [H64|H64].
  { rewrite bitlen_loop_log2 by (cbn; lia).
    destruct (Z.eqb_spec hi 0); lia. }
  assert (Hb5 : (Z.land (Z.shiftr hi 5) 1 =? 0) = negb (Z.testbit hi 5)).
  { rewrite land_1_b2z, Z.shiftr_spec by lia. change (0 + 5) with 5.
    destruct (Z.testbit hi 5); reflexivity. }
  rewrite Hb5. destruct (Z.testbit hi 5); cbn [negb]; [|reflexivity].
  assert (Hl : (0 <? Z.land hi 0x1F) = negb (Z.land hi 0x1F =? 0)).
  { pose proof (Hm hi 5 ltac:(lia)) as Hm5. change (Z.ones 5) with 0x1F in Hm5.
    destruct (Z.eqb_spec (Z.land hi 0x1F) 0) as [->|Hne]; [reflexivity|].
    cbn [negb]. apply Z.ltb_lt. lia. }
  change 0x0000001F with 0x1F. rewrite Hl.
  destruct (Z.eqb_spec (Z.land hi 0x1F) 0) as [E5|E5]; cbn [negb].
  - rewrite bitlen_loop_log2 by (cbn; lia). lia.
  - rewrite bitlen_loop_log2 by (try apply (Hm hi 5); cbn; lia).
    destruct (Z.eqb_spec (Z.land hi 0x1F) 0); [contradiction|lia].
Qed.

Lemma HID_bitlen_cases_witness :
  (0 <= 0 < 2 ^ 32 /\ 0 <= 0x20 < 2 ^ 32 /\ 0 <= 0x06ec0c86 < 2 ^ 32)
  /\ HID_bitlen 0 0x20 0x06ec0c86 = 27.
Proof.
  split; [lia|].
  exact (HID_bitlen_cases 0 0x20 0x06ec0c86 ltac:(lia) ltac:(lia) ltac:(lia)).
Defined.

Lemma CmdHIDdemodFSK_loop_ends (findone ledcontrol : bool) (env : list (option HID_read)) :
  (CmdHIDdemodFSK_loop findone ledcontrol env).2
  = existsb (ends_loop findone HID_found) env.
Proof.
  induction env as [|[r|] env IH]; [reflexivity| |reflexivity].
  cbn [CmdHIDdemodFSK_loop existsb ends_loop]. fold (HID_found r).
  destruct (HID_found r), findone; cbn [andb orb snd];
    rewrite ?prepend_returned; first [reflexivity|exact IH].
Qed.

Lemma CmdAWIDdemodFSK_loop_ends (findone ledcontrol : bool) (env : list (option AWID_read)) :
  (CmdAWIDdemodFSK_loop findone ledcontrol env).2
  = existsb (ends_loop findone AWID_found) env.
Proof.
  induction env as [|[r|] env IH]; [reflexivity| |reflexivity].
  cbn [CmdAWIDdemodFSK_loop existsb ends_loop]. unfold AWID_found.
  destruct (Z.leb_spec (awid_idx r) 0) as [Hi|Hi].
  - destruct (Z.ltb_spec 0 (awid_idx r)); [lia|].
    cbn [orb andb]. rewrite prepend_returned, andb_false_r. exact IH.
  - destruct (Z.ltb_spec 0 (awid_idx r)); [|lia]. cbn [orb andb].
    destruct (awid_size r =? 96); cbn [negb andb];
      [|rewrite prepend_returned, andb_false_r; exact IH].
    destruct (awid_size_noparity r =? 66); cbn [negb];
      [|rewrite prepend_returned, andb_false_r; exact IH].
    destruct findone; cbn [andb orb snd]; rewrite ?prepend_returned; [reflexivity|exact IH].
Qed.

Lemma CmdEM410xdemod_loop_ends (findone ledcontrol : bool) (env : list (option EM410x_read)) :
  (CmdEM410xdemod_loop findone ledcontrol env).2
  = existsb (ends_loop findone EM410x_found) env.
Proof.
  induction env as [|[r|] env IH]; [reflexivity| |reflexivity].
  cbn [CmdEM410xdemod_loop existsb ends_loop]. unfold EM410x_found.
  destruct (Z.ltb_spec (em_ask_errCnt r) 0) as [Hi|Hi].
  - destruct (Z.leb_spec 0 (em_ask_errCnt r)); [lia|].
    cbn [andb]. rewrite prepend_returned, andb_false_r. exact IH.
  - destruct (Z.leb_spec 0 (em_ask_errCnt r)); [|lia]. cbn [andb].
    destruct (em_decode_errCnt r =? 0); cbn [negb];
      [rewrite prepend_returned, andb_false_r; exact IH|].
    destruct findone; cbn [andb orb snd]; rewrite ?prepend_returned; [reflexivity|exact IH].
Qed.

Lemma CmdIOdemodFSK_loop_ends (findone ledcontrol : bool) (env : list (option IO_read)) :
  (CmdIOdemodFSK_loop findone ledcontrol env).2
  = existsb (ends_loop findone IO_found) env.
Proof.
  induction env as [|[r|] env IH]; [reflexivity| |reflexivity].
  cbn [CmdIOdemodFSK_loop existsb ends_loop]. unfold IO_found.
  destruct (Z.ltb_spec (io_idx r) 0) as [Hi|Hi].
  - destruct (Z.leb_spec 0 (io_idx r)); [lia|].
    rewrite prepend_returned, andb_false_r. exact IH.
  - destruct (Z.leb_spec 0 (io_idx r)); [|lia].
    destruct findone; cbn [andb orb snd]; rewrite ?prepend_returned; [reflexivity|exact IH].
Qed.

Lemma and_then_returns (r : run) (t : trace) : (and_then r t).2 = r.2.
Proof. unfold and_then. destruct r as [t0 [|]]; reflexivity. Qed.

(** X25.  What ends the four demodulation commands.  Each returns
    exactly when a round finds the button pressed or the host waiting, or,
    when a single tag is looked for ([findone]), in the first round in
    which its decoder reports a tag: for HID a positive index, a non-zero
    low word and a size of 96 or 192; for AWID a positive index, a size of
    96 and 66 bits left after removing the parity; for EM410x no error of
    the ASK demodulator and a non-zero result of the decoder; for IO a
    non-negative index.  Without [findone] only cancellation ends them. *)
Theorem demod_commands_end (findone ledcontrol : bool) :
  (forall env : list (option HID_read),
      (CmdHIDdemodFSK findone ledcontrol env).2
      = existsb (ends_loop findone HID_found) env)
  /\ (forall env : list (option AWID_read),
        (CmdAWIDdemodFSK findone ledcontrol env).2
        = existsb (ends_loop findone AWID_found) env)
  /\ (forall env : list (option EM410x_read),
        (CmdEM410xdemod findone ledcontrol env).2
        = existsb (ends_loop findone EM410x_found) env)
  /\ (forall env : list (option IO_read),
        (CmdIOdemodFSK findone ledcontrol env).2
        = existsb (ends_loop findone IO_found) env).
Proof.
  repeat split; intros env.
  - unfold CmdHIDdemodFSK. rewrite prepend_returned, and_then_returns.
    apply CmdHIDdemodFSK_loop_ends.
  - unfold CmdAWIDdemodFSK. rewrite prepend_returned, and_then_returns.
    apply CmdAWIDdemodFSK_loop_ends.
  - unfold CmdEM410xdemod. rewrite prepend_returned, and_then_returns.
    apply CmdEM410xdemod_loop_ends.
  - unfold CmdIOdemodFSK. rewrite prepend_returned, and_then_returns.
    apply CmdIOdemodFSK_loop_ends.
Qed.

(** ** Cloning a HID tag *)

(** X26.  What [CopyHIDtoT55x7] writes when the ID passes the width
    check.  In the short format: block 3 with the Manchester code of the
    low half of [lo], block 2 with that of its high half, block 1 with the
    preamble byte over the low 24 bits of the Manchester code of [hi], and
    last block 0 with the configuration RF/50, FSK2a, three data blocks.
    In the long format: blocks 6 down to 1 with the Manchester codes of
    the halves of [lo], [hi] and [hi2] (block 1 with the preamble, the
    marker 0x96A900 and the code of bits 16..19 of [hi2]), and last block 0
    with six data blocks. *)
Theorem CopyHIDtoT55x7_blocks (P : protocols_h) (hi2 hi lo longFMT preamble : Z) :
  let me := manchesterEncode2Bytes P in
  let config (last_block : Z) :=
    Z.lor (Z.lor (T55x7_BITRATE_RF_50 P) (T55x7_MODULATION_FSK2a P))
          (uint32 (Z.shiftl last_block (T55x7_MAXBLOCK_SHIFT P))) in
  (longFMT = 0 -> hi <= 0xFFF ->
   T55xx_frames (CopyHIDtoT55x7 P hi2 hi lo longFMT preamble)
   = [ write_frame (me (Z.land lo 0xFFFF)) 3;
       write_frame (me (Z.shiftr lo 16)) 2;
       write_frame (Z.lor (uint32 (Z.shiftl preamble 24)) (Z.land (me hi) 0xFFFFFF)) 1;
       write_frame (config 3) 0 ])
  /\ (longFMT <> 0 -> hi2 <= 0xFFFFF ->
      T55xx_frames (CopyHIDtoT55x7 P hi2 hi lo longFMT preamble)
      = [ write_frame (me (Z.land lo 0xFFFF)) 6;
          write_frame (me (Z.shiftr lo 16)) 5;
          write_frame (me (Z.land hi 0xFFFF)) 4;
          write_frame (me (Z.shiftr hi 16)) 3;
          write_frame (me (Z.land hi2 0xFFFF)) 2;
          write_frame (Z.lor (Z.lor (uint32 (Z.shiftl preamble 24)) 0x96A900)
                             (Z.land (me (Z.land (Z.shiftr hi2 16) 0xF)) 0xFF)) 1;
          write_frame (config 6) 0 ]).
Proof.
  intros me config. subst me config. split.
  - intros -> Hhi. unfold CopyHIDtoT55x7. cbv zeta. cbn [Z.eqb negb].
    destruct (Z.ltb_spec 0xFFF hi); [lia|].
    rewrite T55xx_frames_WriteT55xx_then by reflexivity.
    cbn [list_insert insert]. reflexivity.
  - intros Hfmt Hhi2. unfold CopyHIDtoT55x7. cbv zeta.
    destruct (Z.eqb_spec longFMT 0); [contradiction|]. cbn [negb].
    destruct (Z.ltb_spec 0xFFFFF hi2); [lia|].
    rewrite T55xx_frames_WriteT55xx_then by reflexivity.
    cbn [list_insert insert]. reflexivity.
Qed.

Lemma CopyHIDtoT55x7_blocks_witness :
  (0 = 0 /\ 0x20 <= 0xFFF)
  /\ map frame_block (T55xx_frames (CopyHIDtoT55x7 sample_protocols 0 0x20 0x06ec0c86 0 0x1D))
     = [3; 2; 1; 0].
Proof.
  split; [split; [reflexivity|lia]|].
  rewrite (proj1 (CopyHIDtoT55x7_blocks sample_protocols 0 0x20 0x06ec0c86 0 0x1D)
             eq_refl ltac:(lia)).
  cbn [map]. rewrite !frame_block_write_frame. reflexivity.
Defined.

(** ** Cloning words to a T55x7 *)

(** X27.  The clone routines that take whole words write them
    unchanged, the highest block first and the configuration block last:
    [CopyIOtoT55x7], [CopyIndala64toT55x7] and [CopyVikingtoT55xx] write
    their second word to block 2 and their first to block 1;
    [CopyIndala224toT55x7] writes [uid7] .. [uid1] to the blocks 7 .. 1.
    Block 0 receives RF/64 FSK2a for IO, RF/32 PSK1 for Indala 64, RF/32
    PSK2 for Indala 224, and for Viking RF/32 Manchester in the T55x7
    layout, or in the T5555 layout when [Q5] is non-zero. *)
Theorem Copy_words_blocks (P : protocols_h) :
  let maxblock (n : Z) := uint32 (Z.shiftl n (T55x7_MAXBLOCK_SHIFT P)) in
  (forall hi lo : Z,
      T55xx_frames (CopyIOtoT55x7 P hi lo)
      = [ write_frame lo 2; write_frame hi 1;
          write_frame (Z.lor (Z.lor (T55x7_BITRATE_RF_64 P) (T55x7_MODULATION_FSK2a P))
                             (maxblock 2)) 0 ])
  /\ (forall hi lo : Z,
        T55xx_frames (CopyIndala64toT55x7 P hi lo)
        = [ write_frame lo 2; write_frame hi 1;
            write_frame (Z.lor (Z.lor (T55x7_BITRATE_RF_32 P) (T55x7_MODULATION_PSK1 P))
                               (maxblock 2)) 0 ])
  /\ (forall uid1 uid2 uid3 uid4 uid5 uid6 uid7 : Z,
        T55xx_frames (CopyIndala224toT55x7 P uid1 uid2 uid3 uid4 uid5 uid6 uid7)
        = [ write_frame uid7 7; write_frame uid6 6; write_frame uid5 5;
            write_frame uid4 4; write_frame uid3 3; write_frame uid2 2;
            write_frame uid1 1;
            write_frame (Z.lor (Z.lor (T55x7_BITRATE_RF_32 P) (T55x7_MODULATION_PSK2 P))
                               (maxblock 7)) 0 ])
  /\ (forall block1 block2 Q5 : Z,
        T55xx_frames (CopyVikingtoT55xx P block1 block2 Q5)
        = [ write_frame block2 2; write_frame block1 1;
            write_frame
              (if Q5 =? 0
               then Z.lor (Z.lor (T55x7_BITRATE_RF_32 P) (T55x7_MODULATION_MANCHESTER P))
                          (maxblock 2)
               else Z.lor (Z.lor (T5555_SET_BITRATE P 32) (T5555_MODULATION_MANCHESTER P))
                          (uint32 (Z.shiftl 2 (T5555_MAXBLOCK_SHIFT P)))) 0 ]).
Proof.
  intros maxblock. subst maxblock. repeat split.
  - intros hi lo. unfold CopyIOtoT55x7.
    rewrite T55xx_frames_WriteT55xx_then by reflexivity. reflexivity.
  - intros hi lo. unfold CopyIndala64toT55x7.
    rewrite T55xx_frames_WriteT55xx_post by reflexivity. reflexivity.
  - intros uid1 uid2 uid3 uid4 uid5 uid6 uid7. unfold CopyIndala224toT55x7.
    rewrite T55xx_frames_WriteT55xx_post by reflexivity. reflexivity.
  - intros block1 block2 Q5. unfold CopyVikingtoT55xx.
    rewrite T55xx_frames_WriteT55xx_post by reflexivity.
    destruct (Q5 =? 0); reflexivity.
Qed.
